(** * pybricksdev/ev3dev.py: the EV3 SSH session manager

    A shallow embedding of [src/pybricksdev/ev3dev.py]: the module-level
    connection cache [_connections], the coroutine [_get_connection] and the
    methods of the class [EV3SSH] ([connect], [beep], [disconnect],
    [pybricks]).

    Python coroutines are embedded as terms of a small free monad [Co]: the
    synchronous steps read and write the interpreter state, [Await] marks
    every [await] of the source.  [run] executes one coroutine alone,
    [sched] interleaves several at their [await]s, as asyncio does.

    The asyncssh transport is an external library.  Its behaviour is given
    by [effect], over an explicit state of the remote side: every
    connection has a link that serves a request, fails it with an exception
    or never replies; the remote file system is any type with the
    operations and laws of [RemoteFS]; a remote process is a script of the
    events that reach the client during each [await].  [sftp.exit()] and
    [close()] always return.  Under [run] the remote side changes only
    through the calls of the program; under [run_env] an environment acts
    on it while the caller is suspended in an [await], so that a link made
    by one call can be lost by the next.  Text is held in UTF-8.

    The module [Mpy] embeds of [src/pybricks_tools/mpy.py] the function
    [make_build_dir], over any host with the laws of [Mpy.Host], and the
    C array dump of its [__main__] block. *)

From Stdlib Require Import ZArith Ascii String List Bool Lia.
From Stdlib Require HexString DecimalString.
From stdpp Require Import base option list strings gmap.
Import ListNotations.
Local Open Scope string_scope.
Local Open Scope list_scope.

(** ** Strings and POSIX paths

    [os.path] is [posixpath] and [os.sep] is ["/"]: the functions below
    follow CPython's [posixpath.split], [posixpath.join], [str.split] with a
    one-character separator and [str.strip]. *)

Module Path.

Definition sep_char : ascii := "/"%char.
Definition sep : string := "/".

Definition is_sep (c : ascii) : bool := Ascii.eqb c sep_char.

Definition is_empty (s : string) : bool :=
  match s with EmptyString => true | String _ _ => false end.

(** [s.startswith(sep)] *)
Definition startswith_sep (s : string) : bool :=
  match s with EmptyString => false | String c _ => is_sep c end.

(** [s.endswith(sep)] *)
Fixpoint endswith_sep (s : string) : bool :=
  match s with
  | EmptyString => false
  | String c EmptyString => is_sep c
  | String _ s' => endswith_sep s'
  end.

(** [posixpath.join(a, b)]: an absolute [b] replaces [a]; otherwise the two
    are concatenated, with one separator added unless [a] is empty or
    already ends in one. *)
Definition join (a b : string) : string :=
  if startswith_sep b then b
  else if is_empty a || endswith_sep a then a ++ b
  else a ++ sep ++ b.

(** [s.rstrip(sep)] *)
Fixpoint rstrip_sep (s : string) : string :=
  match s with
  | EmptyString => EmptyString
  | String c s' =>
      let r := rstrip_sep s' in
      if is_sep c && is_empty r then EmptyString else String c r
  end.

(** [s == sep * len(s)] *)
Fixpoint all_sep (s : string) : bool :=
  match s with
  | EmptyString => true
  | String c s' => is_sep c && all_sep s'
  end.

(** [(p[:i], p[i:])] for [i = p.rfind(sep) + 1], when [sep] occurs in [p]. *)
Fixpoint cut_last_sep (p : string) : option (string * string) :=
  match p with
  | EmptyString => None
  | String c p' =>
      match cut_last_sep p' with
      | Some (h, t) => Some (String c h, t)
      | None => if is_sep c then Some (String c EmptyString, p') else None
      end
  end.

(** [posixpath.split(p)]: [(head, tail)] where [tail] is everything after
    the last separator; trailing separators are stripped from [head] unless
    it consists of separators only. *)
Definition split (p : string) : string * string :=
  let '(head, tail) :=
    match cut_last_sep p with
    | Some ht => ht
    | None => (EmptyString, p)
    end in
  if negb (is_empty head) && negb (all_sep head)
  then (rstrip_sep head, tail)
  else (head, tail).

(** [s.split(sep)]: never the empty list; [''.split('/') == ['']]. *)
Fixpoint str_split (s : string) : list string :=
  match s with
  | EmptyString => [EmptyString]
  | String c s' =>
      if is_sep c then EmptyString :: str_split s'
      else match str_split s' with
           | x :: r => String c x :: r
           | [] => [String c EmptyString]
           end
  end.

(** Text is held in UTF-8: a character is a lead byte with the
    continuation bytes that follow it.  [chars] cuts a text into its
    characters, [utf8] is the character of a code point below 65536. *)
Definition is_continuation (c : ascii) : bool :=
  let n := nat_of_ascii c in ((128 <=? n) && (n <=? 191))%nat.

Fixpoint chars (s : string) : list string :=
  match s with
  | EmptyString => []
  | String c s' =>
      match s' with
      | EmptyString => [String c EmptyString]
      | String d _ =>
          if is_continuation d
          then match chars s' with
               | x :: r => String c x :: r
               | [] => [String c EmptyString]
               end
          else String c EmptyString :: chars s'
      end
  end.

Definition utf8 (n : N) : string :=
  if (n <? 128)%N then String (ascii_of_N n) EmptyString
  else if (n <? 2048)%N then
    String (ascii_of_N (192 + n / 64))
      (String (ascii_of_N (128 + n mod 64)) EmptyString)
  else
    String (ascii_of_N (224 + n / 4096))
      (String (ascii_of_N (128 + (n / 64) mod 64))
         (String (ascii_of_N (128 + n mod 64)) EmptyString)).

(** The code points of which [str.isspace] holds: the ASCII white space
    and separators, next line, no-break space, the ogham space mark, en
    quad to hair space, line and paragraph separator, narrow no-break
    space, medium mathematical space and ideographic space. *)
Definition whitespace : list N :=
  [9; 10; 11; 12; 13; 28; 29; 30; 31; 32; 133; 160; 5760;
   8192; 8193; 8194; 8195; 8196; 8197; 8198; 8199; 8200; 8201; 8202;
   8232; 8233; 8239; 8287; 12288]%N.

Definition is_space (ch : string) : bool :=
  existsb (fun n => String.eqb ch (utf8 n)) whitespace.

Fixpoint skip_spaces (l : list string) : list string :=
  match l with
  | [] => []
  | ch :: l' => if is_space ch then skip_spaces l' else l
  end.

Definition lstrip (s : string) : string :=
  String.concat EmptyString (skip_spaces (chars s)).

Definition rstrip (s : string) : string :=
  String.concat EmptyString (rev (skip_spaces (rev (chars s)))).

(** [s.strip()] *)
Definition strip (s : string) : string := rstrip (lstrip s).

(** [' '.join(args)], the text [print] writes for its positional arguments. *)
Fixpoint unwords (args : list string) : string :=
  match args with
  | [] => EmptyString
  | [a] => a
  | a :: rest => a ++ " " ++ unwords rest
  end.

End Path.

(** ** Exceptions, objects and the remote side *)

(** The exception classes the module names or can meet. *)
Inductive exn : Type :=
| KeyError
| AttributeError
| ChannelOpenError      (* asyncssh.ChannelOpenError *)
| TimeoutError          (* asyncio.exceptions.TimeoutError *)
| ConnectionLost        (* asyncssh.ConnectionLost *)
| PermissionDenied      (* asyncssh.PermissionDenied *)
| SFTPError             (* asyncssh.SFTPError *)
| OSError.

Definition exn_eqb (a b : exn) : bool :=
  match a, b with
  | KeyError, KeyError | AttributeError, AttributeError
  | ChannelOpenError, ChannelOpenError | TimeoutError, TimeoutError
  | ConnectionLost, ConnectionLost | PermissionDenied, PermissionDenied
  | SFTPError, SFTPError | OSError, OSError => true
  | _, _ => false
  end.

(** Object references: a position in the store of client objects or of
    process objects.  Two handles are the same object iff they are the same
    reference. *)
Abbreviation ref := nat.

(** How the remote end of a connection behaves when it is asked something:
    it serves the request, fails it with an exception, or never replies. *)
Inductive Link : Type :=
| Up
| Down (e : exn)
| Silent.

(** The [SFTPClient] object kept in the [sftp] attribute of a client. *)
Record Sftp : Type := mkSftp {
  sftp_cwd : string;
  sftp_exited : bool;
}.

(** An [SSHClientConnection] object.  [c_sftp] is the attribute the module
    adds to it; it is absent on a connection that [asyncssh.connect] has
    just returned. *)
Record Client : Type := mkClient {
  c_address : string;
  c_link : Link;
  c_sftp : option Sftp;
  c_closed : bool;
}.

(** What reaches the local side of a remote process while the caller is
    suspended in one [await]. *)
Inductive ProcEvent : Type :=
| Emit (line : string)        (* one line on stderr, without its newline *)
| Exit (status : Z)           (* the exit status request *)
| Eof                         (* end of the stderr stream *)
| Broken (e : exn).           (* the channel fails *)

(** An [SSHClientProcess] object. [p_future] is the remote side's script:
    one batch of events per [await] still to come. *)
Record Proc : Type := mkProc {
  p_client : ref;
  p_prog : string;
  p_future : list (list ProcEvent);
  p_stderr : list string;           (* lines received and not yet read *)
  p_eof : bool;
  p_fault : option exn;
  p_exit_status : option Z;
  p_closed : bool;
}.

(** The remote file system, as far as the file-transfer channel shows it.
    The two laws are what every directory tree obeys: a directory that
    [mkdir] has created exists, and [mkdir] removes nothing. *)
Class RemoteFS (FS : Type) : Type := {
  fs_exists : FS -> string -> bool;
  fs_mkdir : FS -> string -> option FS;
  fs_put : FS -> string -> option FS;
  fs_mkdir_exists : forall fs p fs',
    fs_mkdir fs p = Some fs' -> fs_exists fs' p = true;
  fs_mkdir_mono : forall fs p fs' q,
    fs_mkdir fs p = Some fs' -> fs_exists fs q = true ->
    fs_exists fs' q = true;
}.

(** Calls into asyncssh.  The awaited ones are suspension points of the
    calling coroutine; [SftpExit] and [Close] are plain method calls. *)
Inductive Call : Type :=
| Run (c : ref) (cmd : string)                      (* await c.run(cmd) *)
| Connect (address username password : string)      (* await asyncssh.connect(..) *)
| SftpGetcwd (c : ref)                              (* await c.sftp.getcwd() *)
| StartSftp (c : ref)                               (* await c.start_sftp_client() *)
| SftpChdir (c : ref) (path : string)               (* await c.sftp.chdir(path) *)
| SftpExists (c : ref) (path : string)              (* await c.sftp.exists(path) *)
| SftpMkdir (c : ref) (path : string)               (* await c.sftp.mkdir(path) *)
| SftpPut (c : ref) (local remote : string)         (* await c.sftp.put(local, remote) *)
| CreateProcess (c : ref) (prog : string)           (* c.create_process(prog).__aenter__ *)
| Readline (p : ref)                                (* p.stderr.readline() *)
| ProcClose (p : ref)                               (* the process's __aexit__ *)
| SftpExit (c : ref)                                (* c.sftp.exit() *)
| Close (c : ref).                                  (* c.close() *)

Definition ret_type (op : Call) : Type :=
  match op with
  | Run _ _ => unit
  | Connect _ _ _ => ref
  | SftpGetcwd _ => string
  | StartSftp _ => Sftp
  | SftpChdir _ _ => unit
  | SftpExists _ _ => bool
  | SftpMkdir _ _ => unit
  | SftpPut _ _ _ => unit
  | CreateProcess _ _ => ref
  | Readline _ => string
  | ProcClose _ => unit
  | SftpExit _ => unit
  | Close _ => unit
  end.

(** What a call does: it returns, raises, or never completes. *)
Inductive Outcome (X : Type) : Type :=
| Returns (x : X)
| Raises (e : exn)
| Stalls.
Arguments Returns {X} x.
Arguments Raises {X} e.
Arguments Stalls {X}.

(** What the caller sees when it is resumed. *)
Inductive Reply (X : Type) : Type :=
| Value (x : X)
| Error (e : exn).
Arguments Value {X} x.
Arguments Error {X} e.

(** The result of running a coroutine to its end: a value, an exception
    that left it, a coroutine that is never resumed ([Hang]: an [await]
    without timeout on a call that stalls), or a loop that was still
    running when the fuel of the model ran out. *)
Inductive Res (A : Type) : Type :=
| Ret (a : A)
| Raise (e : exn)
| Hang
| OutOfFuel.
Arguments Ret {A} a.
Arguments Raise {A} e.
Arguments Hang {A}.
Arguments OutOfFuel {A}.

Declare Scope co_scope.
Delimit Scope co_scope with co.

Section Model.

Context {FS : Type} `{RemoteFS FS}.

(** The interpreter state together with the world around it.  The first
    five fields are the program's: the module global [_connections], the
    two object stores, what [print] wrote, and the calls made so far
    (oldest first).  The last three are the environment: which addresses
    answer a handshake, each device's file system, and what a launched
    command will do. *)
Record World : Type := mkWorld {
  _connections : gmap string ref;
  clients : list Client;
  procs : list Proc;
  stdout : list string;
  calls : list Call;
  net : string -> Link;
  remote : string -> FS;
  spawn : string -> list (list ProcEvent);
}.


(** *** Field updates *)

Definition set_connections (f : gmap string ref -> gmap string ref) (w : World) : World :=
  mkWorld (f (_connections w)) (clients w) (procs w) (stdout w) (calls w)
          (net w) (remote w) (spawn w).

Definition set_clients (f : list Client -> list Client) (w : World) : World :=
  mkWorld (_connections w) (f (clients w)) (procs w) (stdout w) (calls w)
          (net w) (remote w) (spawn w).

Definition set_procs (f : list Proc -> list Proc) (w : World) : World :=
  mkWorld (_connections w) (clients w) (f (procs w)) (stdout w) (calls w)
          (net w) (remote w) (spawn w).

Definition set_stdout (f : list string -> list string) (w : World) : World :=
  mkWorld (_connections w) (clients w) (procs w) (f (stdout w)) (calls w)
          (net w) (remote w) (spawn w).

Definition set_calls (f : list Call -> list Call) (w : World) : World :=
  mkWorld (_connections w) (clients w) (procs w) (stdout w) (f (calls w))
          (net w) (remote w) (spawn w).

Definition set_remote (address : string) (fs : FS) (w : World) : World :=
  mkWorld (_connections w) (clients w) (procs w) (stdout w) (calls w)
          (net w)
          (fun a => if String.eqb a address then fs else remote w a)
          (spawn w).

Definition with_sftp (s : option Sftp) (cl : Client) : Client :=
  mkClient (c_address cl) (c_link cl) s (c_closed cl).

Definition with_closed (cl : Client) : Client :=
  mkClient (c_address cl) (c_link cl) (c_sftp cl) true.

Definition with_link (l : Link) (cl : Client) : Client :=
  mkClient (c_address cl) l (c_sftp cl) (c_closed cl).

(** *** The transport's behaviour *)

Definition nl : string := String (ascii_of_nat 10) EmptyString.

(** The link a call on client [c] goes through.  A reference that is not a
    connection object has no methods; asyncssh refuses to open a channel
    on a connection that was closed. *)
Definition link_of (w : World) (c : ref) : Link :=
  match clients w !! c with
  | None => Down AttributeError
  | Some cl => if c_closed cl then Down ChannelOpenError else c_link cl
  end.

(** The link of the file-transfer channel of [c]. *)
Definition sftp_link_of (w : World) (c : ref) : Link :=
  match clients w !! c with
  | None => Down AttributeError
  | Some cl =>
      match c_sftp cl with
      | None => Down AttributeError
      | Some s =>
          if sftp_exited s then Down SFTPError
          else if c_closed cl then Down ChannelOpenError
          else c_link cl
      end
  end.

Definition address_of (w : World) (c : ref) : string :=
  match clients w !! c with
  | Some cl => c_address cl
  | None => EmptyString
  end.

Definition through {X : Type} (l : Link) (w : World)
    (served : Outcome X * World) : Outcome X * World :=
  match l with
  | Up => served
  | Down e => (Raises e, w)
  | Silent => (Stalls, w)
  end.

Definition deliver (p : Proc) (ev : ProcEvent) : Proc :=
  match ev with
  | Emit line =>
      mkProc (p_client p) (p_prog p) (p_future p) (p_stderr p ++ [(line ++ nl)%string])
             (p_eof p) (p_fault p) (p_exit_status p) (p_closed p)
  | Exit st =>
      mkProc (p_client p) (p_prog p) (p_future p) (p_stderr p)
             (p_eof p) (p_fault p) (Some st) (p_closed p)
  | Eof =>
      mkProc (p_client p) (p_prog p) (p_future p) (p_stderr p)
             true (p_fault p) (p_exit_status p) (p_closed p)
  | Broken e =>
      mkProc (p_client p) (p_prog p) (p_future p) (p_stderr p)
             (p_eof p) (Some e) (p_exit_status p) (p_closed p)
  end.

(** The events of the next batch reach the process object. *)
Definition arrive (p : Proc) : Proc :=
  match p_future p with
  | [] => p
  | batch :: rest =>
      fold_left deliver batch
        (mkProc (p_client p) (p_prog p) rest (p_stderr p)
                (p_eof p) (p_fault p) (p_exit_status p) (p_closed p))
  end.

(** [readline] on the stderr stream of a process whose next batch has
    arrived: a buffered line if there is one, else the channel's failure,
    else the empty string at end of stream, else nothing yet. *)
Definition read_line (p : Proc) : Outcome string * Proc :=
  match p_stderr p with
  | line :: rest =>
      (Returns line,
       mkProc (p_client p) (p_prog p) (p_future p) rest
              (p_eof p) (p_fault p) (p_exit_status p) (p_closed p))
  | [] =>
      match p_fault p with
      | Some e => (Raises e, p)
      | None => if p_eof p then (Returns EmptyString, p) else (Stalls, p)
      end
  end.

(** The client object [asyncssh.connect] returns.  Its link answers when
    it is made; what the link does afterwards is the environment's (see
    [run_env]). *)
Definition new_client (address : string) : Client :=
  mkClient address Up None false.

Definition new_proc (c : ref) (prog : string) (script : list (list ProcEvent)) : Proc :=
  mkProc c prog script [] false None None false.

(** What a call does once the remote side gets to it.  Of an upload only
    the remote side is modelled: the local file is taken to be one that
    [put] can read, and what is stated of an upload that returns is stated
    under the hypothesis that it returns. *)
Definition effect (op : Call) (w : World) : Outcome (ret_type op) * World :=
  match op as o return Outcome (ret_type o) * World with
  | Run c _ => through (link_of w c) w (Returns tt, w)
  | Connect address _ _ =>
      through (net w address) w
        (Returns (length (clients w)),
         set_clients (fun cs => cs ++ [new_client address]) w)
  | SftpGetcwd c =>
      through (sftp_link_of w c) w
        (match clients w !! c ≫= c_sftp with
         | Some s => Returns (sftp_cwd s)
         | None => Raises AttributeError
         end, w)
  | StartSftp c => through (link_of w c) w (Returns (mkSftp EmptyString false), w)
  | SftpChdir c path =>
      through (sftp_link_of w c) w
        (Returns tt,
         set_clients (alter (fun cl => with_sftp (Some (mkSftp path false)) cl) c) w)
  | SftpExists c path =>
      through (sftp_link_of w c) w
        (Returns (fs_exists (remote w (address_of w c)) path), w)
  | SftpMkdir c path =>
      through (sftp_link_of w c) w
        (match fs_mkdir (remote w (address_of w c)) path with
         | Some fs' => (Returns tt, set_remote (address_of w c) fs' w)
         | None => (Raises SFTPError, w)
         end)
  | SftpPut c _ path =>
      through (sftp_link_of w c) w
        (match fs_put (remote w (address_of w c)) path with
         | Some fs' => (Returns tt, set_remote (address_of w c) fs' w)
         | None => (Raises SFTPError, w)
         end)
  | CreateProcess c prog =>
      through (link_of w c) w
        (Returns (length (procs w)),
         set_procs (fun ps => ps ++ [new_proc c prog (spawn w prog)]) w)
  | Readline p =>
      match procs w !! p with
      | None => (Raises AttributeError, w)
      | Some pr =>
          let '(o, pr') := read_line (arrive pr) in
          (o, set_procs (fun ps => <[p := pr']> ps) w)
      end
  | ProcClose p =>
      (Returns tt,
       set_procs (alter (fun pr =>
         mkProc (p_client pr) (p_prog pr) (p_future pr) (p_stderr pr)
                (p_eof pr) (p_fault pr) (p_exit_status pr) true) p) w)
  | SftpExit c =>
      (Returns tt,
       set_clients (alter (fun cl =>
         with_sftp (option_map (fun s => mkSftp (sftp_cwd s) true) (c_sftp cl)) cl) c) w)
  | Close c => (Returns tt, set_clients (alter with_closed c) w)
  end.

(** A call is recorded when it is made. *)
Definition issue (op : Call) (w : World) : World :=
  set_calls (fun l => l ++ [op]) w.

(** The reply a suspended caller is resumed with, if it is resumed at all:
    a stalled call ends in [TimeoutError] when the [await] was wrapped in
    [asyncio.wait_for], and never ends otherwise. *)
Definition resume {X : Type} (o : Outcome X) (timeout : option N) : option (Reply X) :=
  match o with
  | Returns x => Some (Value x)
  | Raises e => Some (Error e)
  | Stalls =>
      match timeout with
      | Some _ => Some (Error TimeoutError)
      | None => None
      end
  end.

(** ** Coroutines *)

Inductive Co (A : Type) : Type :=
| Fin (a : A)                         (* return a *)
| Throw (e : exn)                     (* raise e *)
| Exhausted                           (* the model's loop fuel ran out *)
| Get (k : World -> Co A)             (* read the interpreter state *)
| Put (w : World) (k : Co A)          (* write it *)
| Sync (op : Call) (k : Reply (ret_type op) -> Co A)
                                      (* a plain call into the library *)
| Await (op : Call) (timeout : option N) (k : Reply (ret_type op) -> Co A).
                                      (* await op, or await wait_for(op, timeout) *)
Arguments Fin {A} a.
Arguments Throw {A} e.
Arguments Exhausted {A}.
Arguments Get {A} k.
Arguments Put {A} w k.
Arguments Sync {A} op k.
Arguments Await {A} op timeout k.

Fixpoint bind {A B : Type} (m : Co A) (f : A -> Co B) : Co B :=
  match m with
  | Fin a => f a
  | Throw e => Throw e
  | Exhausted => Exhausted
  | Get k => Get (fun w => bind (k w) f)
  | Put w k => Put w (bind k f)
  | Sync op k => Sync op (fun r => bind (k r) f)
  | Await op t k => Await op t (fun r => bind (k r) f)
  end.

(** [try: m  except <classes>: handler] *)
Fixpoint try_except {A : Type} (m : Co A) (classes : exn -> bool) (handler : Co A) : Co A :=
  match m with
  | Fin a => Fin a
  | Throw e => if classes e then handler else Throw e
  | Exhausted => Exhausted
  | Get k => Get (fun w => try_except (k w) classes handler)
  | Put w k => Put w (try_except k classes handler)
  | Sync op k => Sync op (fun r => try_except (k r) classes handler)
  | Await op t k => Await op t (fun r => try_except (k r) classes handler)
  end.

(** [m], then [cleanup] whether [m] returned or raised; the exit of an
    [async with] block. *)
Fixpoint finally {A : Type} (m : Co A) (cleanup : Co unit) : Co A :=
  match m with
  | Fin a => bind cleanup (fun _ => Fin a)
  | Throw e => bind cleanup (fun _ => Throw e)
  | Exhausted => Exhausted
  | Get k => Get (fun w => finally (k w) cleanup)
  | Put w k => Put w (finally k cleanup)
  | Sync op k => Sync op (fun r => finally (k r) cleanup)
  | Await op t k => Await op t (fun r => finally (k r) cleanup)
  end.

Definition reply {X : Type} (r : Reply X) : Co X :=
  match r with
  | Value x => Fin x
  | Error e => Throw e
  end.

Definition ret {A : Type} (a : A) : Co A := Fin a.
Definition modify (f : World -> World) : Co unit := Get (fun w => Put (f w) (Fin tt)).
Definition await (op : Call) : Co (ret_type op) := Await op None reply.
Definition wait_for (op : Call) (timeout : N) : Co (ret_type op) :=
  Await op (Some timeout) reply.
Definition invoke (op : Call) : Co (ret_type op) := Sync op reply.

(** One coroutine run alone, from start to end. *)
Fixpoint run {A : Type} (c : Co A) (w : World) : Res A * World :=
  match c with
  | Fin a => (Ret a, w)
  | Throw e => (Raise e, w)
  | Exhausted => (OutOfFuel, w)
  | Get k => run (k w) w
  | Put w' k => run k w'
  | Sync op k =>
      let '(o, w') := effect op (issue op w) in
      match resume o None with
      | Some r => run (k r) w'
      | None => (Hang, w')
      end
  | Await op t k =>
      let '(o, w') := effect op (issue op w) in
      match resume o t with
      | Some r => run (k r) w'
      | None => (Hang, w')
      end
  end.

(** ** Python building blocks *)

Notation "x <- m ;; k" := (bind m (fun x => k))
  (at level 20, m at level 99, k at level 200, only parsing) : co_scope.
Local Open Scope co_scope.

(** [print] of the positional arguments [args] with [end=end_] *)
Definition printed (args : list string) (end_ : string) (w : World) : World :=
  set_stdout (fun out => out ++ [(Path.unwords args ++ end_)%string]) w.

Definition print (args : list string) (end_ : string) : Co unit :=
  modify (printed args end_).

(** [_connections[address]] *)
Definition dict_get (address : string) : Co ref :=
  Get (fun w =>
    match _connections w !! address with
    | Some c => Fin c
    | None => Throw KeyError
    end).

(** [_connections.pop(address, None)] *)
Definition dict_pop (address : string) : Co unit :=
  modify (set_connections (delete address)).

(** [_connections[address] = c] *)
Definition dict_set (address : string) (c : ref) : Co unit :=
  modify (set_connections (insert address c)).

(** [c.sftp], the attribute lookup *)
Definition getattr_sftp (c : ref) : Co Sftp :=
  Get (fun w =>
    match clients w !! c ≫= c_sftp with
    | Some s => Fin s
    | None => Throw AttributeError
    end).

(** [c.sftp = s] *)
Definition setattr_sftp (c : ref) (s : Sftp) : Co unit :=
  Get (fun w =>
    match clients w !! c with
    | Some _ => Put (set_clients (alter (with_sftp (Some s)) c) w) (Fin tt)
    | None => Throw AttributeError
    end).

(** [p.exit_status] *)
Definition exit_status (p : ref) : Co (option Z) :=
  Get (fun w =>
    match procs w !! p with
    | Some pr => Fin (p_exit_status pr)
    | None => Throw AttributeError
    end).

(** ** The module *)

Definition _HOME : string := "/home/robot".
Definition _USER : string := "robot".
Definition _PASSWORD : string := "maker".

(** The exception classes of the [except] clause of [_get_connection]. *)
Definition no_working_connection (e : exn) : bool :=
  match e with
  | KeyError | AttributeError | ChannelOpenError => true
  | _ => false
  end.

Definition is_AttributeError (e : exn) : bool := exn_eqb e AttributeError.
Definition is_TimeoutError (e : exn) : bool := exn_eqb e TimeoutError.

(** The liveness probe, line 19: [await _connections[address].run('pwd')] *)
Definition probe (address : string) : Co unit :=
  c <- dict_get address ;;
  await (Run c "pwd").

(** [async def _get_connection(address)] *)
Definition _get_connection (address : string) : Co ref :=
  _ <- try_except
         (_ <- probe address ;;
          print ["Re-using existing connection to"; address] nl)
         no_working_connection
         (_ <- print ["Connecting to"; address; "..."] " " ;;
          _ <- dict_pop address ;;
          client <- await (Connect address _USER _PASSWORD) ;;
          _ <- print ["Connected."] " " ;;
          _ <- try_except
                 (_ <- getattr_sftp client ;;
                  _ <- await (SftpGetcwd client) ;;
                  ret tt)
                 is_AttributeError
                 (s <- await (StartSftp client) ;;
                  _ <- setattr_sftp client s ;;
                  _ <- getattr_sftp client ;;
                  _ <- await (SftpChdir client _HOME) ;;
                  print ["Opened SFTP."] nl) ;;
          dict_set address client) ;;
  dict_get address.

(** An [EV3SSH] object: its [client] attribute, once [connect] has set it. *)
Record EV3SSH : Type := mkEV3SSH {
  client : option ref;
}.

(** [self.client] *)
Definition getattr_client (self : EV3SSH) : Co ref :=
  match client self with
  | Some c => Fin c
  | None => Throw AttributeError
  end.

(** [self.client.sftp], evaluated before each call on the channel *)
Definition self_client_sftp (self : EV3SSH) : Co ref :=
  c <- getattr_client self ;;
  _ <- getattr_sftp c ;;
  ret c.

(** [async def connect(self, address)] *)
Definition connect (self : EV3SSH) (address : string) : Co EV3SSH :=
  c <- _get_connection address ;;
  ret (mkEV3SSH (Some c)).

(** [async def beep(self)] *)
Definition beep (self : EV3SSH) : Co unit :=
  c <- getattr_client self ;;
  await (Run c "beep").

(** [async def disconnect(self)] *)
Definition disconnect (self : EV3SSH) : Co unit :=
  c <- self_client_sftp self ;;
  _ <- invoke (SftpExit c) ;;
  c' <- getattr_client self ;;
  invoke (Close c').

(** The [for name in dirs.split(sep)] loop of [pybricks], lines 71-74. *)
Fixpoint pybricks_mkdir_loop (self : EV3SSH) (total : string) (names : list string) : Co unit :=
  match names with
  | [] => ret tt
  | name :: names' =>
      let total := Path.join total name in
      c <- self_client_sftp self ;;
      found <- await (SftpExists c (Path.join _HOME total)) ;;
      _ <- (if negb found
            then c <- self_client_sftp self ;;
                 await (SftpMkdir c (Path.join _HOME total))
            else ret tt) ;;
      pybricks_mkdir_loop self total names'
  end.

(** "Make sure same directory structure exists on EV3", lines 68-74. *)
Definition pybricks_make_dirs (self : EV3SSH) (dirs : string) : Co unit :=
  c <- self_client_sftp self ;;
  found <- await (SftpExists c (Path.join _HOME dirs)) ;;
  if negb found
  then pybricks_mkdir_loop self "" (Path.str_split dirs)
  else ret tt.

(** The timeout of [asyncio.wait_for(.., timeout=0.1)], in milliseconds. *)
Definition poll_timeout : N := 100.

(** The [while process.exit_status is None] loop, lines 87-94.  [fuel]
    bounds the number of iterations the model follows. *)
Fixpoint pybricks_poll (fuel : nat) (process : ref) : Co unit :=
  match fuel with
  | O => Exhausted
  | S fuel' =>
      st <- exit_status process ;;
      match st with
      | None =>
          _ <- try_except
                 (line <- wait_for (Readline process) poll_timeout ;;
                  print [Path.strip line] nl)
                 is_TimeoutError
                 (ret tt) ;;
          pybricks_poll fuel' process
      | Some _ => ret tt
      end
  end.

(** "Send script to EV3" and "Run it", lines 76-94. *)
Definition pybricks_send_and_run (fuel : nat) (self : EV3SSH) (file_path : string) : Co unit :=
  let remote_path := Path.join _HOME file_path in
  c <- self_client_sftp self ;;
  _ <- await (SftpPut c file_path remote_path) ;;
  _ <- print ["Now starting:"; remote_path] nl ;;
  let prog := ("brickrun -r -- pybricks-micropython " ++ remote_path)%string in
  c <- getattr_client self ;;
  process <- await (CreateProcess c prog) ;;
  finally (pybricks_poll fuel process) (await (ProcClose process)).

(** [async def pybricks(self, file_path)] *)
Definition pybricks (fuel : nat) (self : EV3SSH) (file_path : string) : Co unit :=
  let '(dirs, file_name) := Path.split file_path in
  _ <- pybricks_make_dirs self dirs ;;
  pybricks_send_and_run fuel self file_path.

(** [async def _test()] of the [__main__] block. *)
Definition _test (fuel : nat) : Co unit :=
  ev3 <- connect (mkEV3SSH None) "192.168.133.101" ;;
  _ <- beep ev3 ;;
  pybricks fuel ev3 "demo/hello.py".

(** ** Interleaved coroutines

    asyncio runs one task at a time and switches only where a task is
    suspended in an [await]: a task runs from one [await] to the next
    without interruption. *)

Inductive Task (A : Type) : Type :=
| Created (c : Co A)
| Waiting (op : Call) (timeout : option N) (k : Reply (ret_type op) -> Co A)
| Finished (r : Res A).
Arguments Created {A} c.
Arguments Waiting {A} op timeout k.
Arguments Finished {A} r.

(** Run the synchronous steps of [c] up to its next [await], where the
    call is made and the task is suspended. *)
Fixpoint advance {A : Type} (c : Co A) (w : World) : Task A * World :=
  match c with
  | Fin a => (Finished (Ret a), w)
  | Throw e => (Finished (Raise e), w)
  | Exhausted => (Finished OutOfFuel, w)
  | Get k => advance (k w) w
  | Put w' k => advance k w'
  | Sync op k =>
      let '(o, w') := effect op (issue op w) in
      match resume o None with
      | Some r => advance (k r) w'
      | None => (Finished Hang, w')
      end
  | Await op t k => (Waiting op t k, issue op w)
  end.

(** The event loop gives a task its turn: a new task starts, a suspended
    one receives the outcome of the call it waits for. *)
Definition turn {A : Type} (t : Task A) (w : World) : Task A * World :=
  match t with
  | Created c => advance c w
  | Waiting op timeout k =>
      let '(o, w') := effect op w in
      match resume o timeout with
      | Some r => advance (k r) w'
      | None => (Waiting op timeout k, w')
      end
  | Finished r => (Finished r, w)
  end.

(** The event loop follows [schedule], a list of task numbers. *)
Fixpoint sched {A : Type} (schedule : list nat) (pool : list (Task A)) (w : World)
    : list (Task A) * World :=
  match schedule with
  | [] => (pool, w)
  | i :: schedule' =>
      match pool !! i with
      | Some t =>
          let '(t', w') := turn t w in
          sched schedule' (<[i := t']> pool) w'
      | None => sched schedule' pool w
      end
  end.

(** What a task is suspended on, and what it has ended with. *)
Definition waiting_for {A : Type} (t : Task A) : option Call :=
  match t with
  | Waiting op _ _ => Some op
  | _ => None
  end.

Definition waiting_timeout {A : Type} (t : Task A) : option (option N) :=
  match t with
  | Waiting _ timeout _ => Some timeout
  | _ => None
  end.

Definition outcome {A : Type} (t : Task A) : option (Res A) :=
  match t with
  | Finished r => Some r
  | _ => None
  end.

(** The handshakes and the directory creations among the calls made. *)
Definition is_connect (op : Call) : bool :=
  match op with Connect _ _ _ => true | _ => false end.

Definition is_mkdir (op : Call) : bool :=
  match op with SftpMkdir _ _ => true | _ => false end.

Definition is_exists (op : Call) : bool :=
  match op with SftpExists _ _ => true | _ => false end.

Definition handshakes (w : World) : nat := length (List.filter is_connect (calls w)).
Definition mkdirs (w : World) : nat := length (List.filter is_mkdir (calls w)).

End Model.

Arguments World FS : clear implicits.
Arguments Co FS A : clear implicits.
Arguments Task FS A : clear implicits.
Arguments Fin {FS A} a.
Arguments Throw {FS A} e.
Arguments Exhausted {FS A}.
Arguments Get {FS A} k.
Arguments Put {FS A} w k.
Arguments Sync {FS A} op k.
Arguments Await {FS A} op timeout k.
Arguments Created {FS A} c.
Arguments Waiting {FS A} op timeout k.
Arguments Finished {FS A} r.

Notation "x <- m ;; k" := (bind m (fun x => k))
  (at level 20, m at level 99, k at level 200, only parsing) : co_scope.
Local Open Scope co_scope.

(** ** Worlds the proofs name *)

Section Worlds.

Context {FS : Type} `{RemoteFS FS}.

(** Sequencing of results: what follows a run that returned. *)
Definition and_then {A B : Type} (r : Res A * World FS)
    (k : A -> World FS -> Res B * World FS) : Res B * World FS :=
  match r with
  | (Ret a, w) => k a w
  | (Raise e, w) => (Raise e, w)
  | (Hang, w) => (Hang, w)
  | (OutOfFuel, w) => (OutOfFuel, w)
  end.

(** The world in which the handshake is attempted after a failed probe:
    the announcement is printed and the entry is gone. *)
Definition evicted (address : string) (w : World FS) : World FS :=
  set_connections (delete address)
    (printed ["Connecting to"; address; "..."] " " w).

(** The world [disconnect] leaves when both calls are made. *)
Definition disconnected (c : ref) (w : World FS) : World FS :=
  snd (effect (Close c) (issue (Close c)
    (snd (effect (SftpExit c) (issue (SftpExit c) w))))).

(** The world after a successful [mkdir] of [p] through client [c]. *)
Definition made (c : ref) (p : string) (fs' : FS) (w : World FS) : World FS :=
  set_remote (address_of w c) fs' (issue (SftpMkdir c p) w).

(** The world after one [readline] on process [p], given what the process
    object has become. *)
Definition polled (p : ref) (pr' : Proc) (w : World FS) : World FS :=
  set_procs (fun ps => <[p := pr']> ps) (issue (Readline p) w).

(** Coroutines that keep an invariant [I] of the world: every world they
    write and every call they make keeps it. *)
Inductive Keeps (I : World FS -> Prop) {A : Type} : Co FS A -> Prop :=
| keeps_fin (a : A) : Keeps I (Fin a)
| keeps_throw (e : exn) : Keeps I (Throw e)
| keeps_exhausted : Keeps I Exhausted
| keeps_get (k : World FS -> Co FS A) :
    (forall w, I w -> Keeps I (k w)) -> Keeps I (Get k)
| keeps_put (w : World FS) (k : Co FS A) :
    I w -> Keeps I k -> Keeps I (Put w k)
| keeps_sync (op : Call) (k : Reply (ret_type op) -> Co FS A) :
    (forall w, I w -> I (snd (effect op (issue op w)))) ->
    (forall r, Keeps I (k r)) -> Keeps I (Sync op k)
| keeps_await (op : Call) (t : option N) (k : Reply (ret_type op) -> Co FS A) :
    (forall w, I w -> I (snd (effect op (issue op w)))) ->
    (forall r, Keeps I (k r)) -> Keeps I (Await op t k).

(** The calls [pybricks] makes. *)
Definition deploy_call (op : Call) : bool :=
  match op with
  | SftpExists _ _ | SftpMkdir _ _ | SftpPut _ _ _
  | CreateProcess _ _ | Readline _ | ProcClose _ => true
  | _ => false
  end.

(** The invariant "the client objects are [cs]". *)
Definition clients_are (cs : list Client) (w : World FS) : Prop := clients w = cs.

End Worlds.

(** ** A directory tree

    A small remote file system to run the model on: the set of the paths
    that exist, each as its list of segments (empty segments and ["."] do
    not count, so ["/home/robot/"] and ["/home/robot"] name the same
    directory).  The root always exists; [mkdir] needs an existing parent
    and a name that is free, as [SSH_FXP_MKDIR] does. *)

Module Tree.

Definition FS : Type := list (list string).

Definition segments (p : string) : list string :=
  List.filter (fun s => negb (Path.is_empty s) && negb (String.eqb s "."))
              (Path.str_split p).

Definition has (fs : FS) (s : list string) : bool :=
  bool_decide (s = [] ∨ s ∈ fs).

Definition exists_ (fs : FS) (p : string) : bool := has fs (segments p).

Definition mkdir (fs : FS) (p : string) : option FS :=
  let s := segments p in
  if has fs s then None
  else if has fs (removelast s) then Some (s :: fs)
  else None.

Definition put (fs : FS) (p : string) : option FS :=
  let s := segments p in
  if has fs (removelast s) then Some (s :: fs) else None.

End Tree.

#[export, refine] Instance tree_fs : RemoteFS Tree.FS :=
  {| fs_exists := Tree.exists_; fs_mkdir := Tree.mkdir; fs_put := Tree.put |}.
Proof.
  - unfold Tree.mkdir, Tree.exists_, Tree.has. intros fs p fs' Hm.
    destruct (bool_decide (Tree.segments p = [] ∨ Tree.segments p ∈ fs)); [discriminate|].
    destruct (bool_decide _); [|discriminate].
    injection Hm as <-. apply bool_decide_eq_true. right. left.
  - unfold Tree.mkdir, Tree.exists_, Tree.has. intros fs p fs' q Hm Hq.
    destruct (bool_decide (Tree.segments p = [] ∨ Tree.segments p ∈ fs)); [discriminate|].
    destruct (bool_decide _); [|discriminate].
    injection Hm as <-. apply bool_decide_eq_true in Hq. apply bool_decide_eq_true.
    destruct Hq as [Hq|Hq]; [left; exact Hq|right; right; exact Hq].
Defined.

(** ** Worlds and callers to run the model on *)

(** The address the module's own [_test] connects to. *)
Definition device : string := "192.168.133.101".

(** A device on which the home directory of [robot] exists. *)
Definition home_fs : Tree.FS := [["home"]; ["home"; "robot"]].

(** The script of a program that writes [lines], one per polling interval,
    and exits with [status] one interval later. *)
Definition paced (lines : list string) (status : Z) : list (list ProcEvent) :=
  map (fun l => [Emit l]) lines ++ [[Exit status]].

(** The script of a program whose output and exit status arrive together. *)
Definition burst (lines : list string) (status : Z) : list (list ProcEvent) :=
  [map Emit lines ++ [Exit status]].

(** Nothing connected yet; the device answers, its home directory exists,
    and a launched program writes the lines a and b, one per polling
    interval, and then exits. *)
Definition world0 : World Tree.FS :=
  mkWorld ∅ [] [] [] [] (fun _ => Up) (fun _ => home_fs)
          (fun _ => paced ["a"; "b"] 0).

Definition set_net {FS : Type} (l : Link) (w : World FS) : World FS :=
  mkWorld (_connections w) (clients w) (procs w) (stdout w) (calls w)
          (fun _ => l) (remote w) (spawn w).

Definition set_spawn {FS : Type} (script : list (list ProcEvent)) (w : World FS) : World FS :=
  mkWorld (_connections w) (clients w) (procs w) (stdout w) (calls w)
          (net w) (remote w) (fun _ => script).

Definition set_all_remote {FS : Type} (fs : FS) (w : World FS) : World FS :=
  mkWorld (_connections w) (clients w) (procs w) (stdout w) (calls w)
          (net w) (fun _ => fs) (spawn w).

(** The remote end of client [c] starts to behave as [l]. *)
Definition set_link {FS : Type} (c : ref) (l : Link) (w : World FS) : World FS :=
  set_clients (alter (with_link l) c) w.

(** The world a coroutine leaves behind, and its result. *)
Definition after {FS : Type} `{RemoteFS FS} {A : Type} (c : Co FS A) (w : World FS) : World FS :=
  snd (run c w).

Definition result {FS : Type} `{RemoteFS FS} {A : Type} (c : Co FS A) (w : World FS) : Res A :=
  fst (run c w).

(** A fresh session object, and [world0] after a first [connect]. *)
Definition session0 : EV3SSH := mkEV3SSH None.
Definition session1 : EV3SSH := mkEV3SSH (Some 0).
Definition world1 : World Tree.FS :=
  Eval vm_compute in after (connect session0 device) world0.

(** [n] calls of [_get_connection(address)] one after the other, each
    awaited before the next is made. *)
Fixpoint get_connection_times {FS : Type} `{RemoteFS FS} (n : nat) (address : string)
    : Co FS (list ref) :=
  match n with
  | O => ret []
  | S n' =>
      c <- _get_connection address ;;
      cs <- get_connection_times n' address ;;
      ret (c :: cs)
  end.

(** The paths the [for] loop of [pybricks] checks, in order. *)
Fixpoint prefixes (total : string) (names : list string) : list string :=
  match names with
  | [] => []
  | name :: names' =>
      let total := Path.join total name in
      Path.join _HOME total :: prefixes total names'
  end.

(** Calls in which every [mkdir] comes right after an existence check of
    the same path on the same client. *)
Inductive Guarded : list Call -> Prop :=
| guarded_nil : Guarded []
| guarded_exists (c : ref) (p : string) (l : list Call) :
    Guarded l -> Guarded (SftpExists c p :: l)
| guarded_mkdir (c : ref) (p : string) (l : list Call) :
    Guarded l -> Guarded (SftpExists c p :: SftpMkdir c p :: l).

(** ** Closed forms and invariants of the further properties *)

Section Closed.

Context {FS : Type} `{RemoteFS FS}.

(** The world a handshake that succeeds leaves: a new client object with
    its file-transfer channel at the home directory, cached for the
    address; the three calls made and the three messages printed. *)
Definition connected (address : string) (w : World FS) : World FS :=
  mkWorld (<[address := length (clients w)]> (_connections w))
          (clients w ++ [mkClient address Up (Some (mkSftp _HOME false)) false])
          (procs w)
          (stdout w ++ [(Path.unwords ["Connecting to"; address; "..."] ++ " ")%string;
                        (Path.unwords ["Connected."] ++ " ")%string;
                        (Path.unwords ["Opened SFTP."] ++ nl)%string])
          (calls w ++ [Connect address _USER _PASSWORD;
                       StartSftp (length (clients w));
                       SftpChdir (length (clients w)) _HOME])
          (net w) (remote w) (spawn w).

(** The world in which [_test] makes its upload, when the handshake, the
    beep and the check of the directory [demo] have been served. *)
Definition test_checked (w : World FS) : World FS :=
  let c := length (clients w) in
  issue (SftpExists c "/home/robot/demo")
    (issue (Run c "beep") (connected "192.168.133.101" w)).

(** What the [except] branch of [_get_connection] comes to, by what the
    device does with the handshake. *)
Definition reconnect (address : string) (w : World FS) : Res ref * World FS :=
  match net w address with
  | Up => (Ret (length (clients w)), connected address w)
  | Down e => (Raise e, issue (Connect address _USER _PASSWORD) (evicted address w))
  | Silent => (Hang, issue (Connect address _USER _PASSWORD) (evicted address w))
  end.

(** Every cached handle is a client object that has its [sftp] attribute,
    and its file-transfer channel is exited only if the connection is
    closed. *)
Definition sftp_ready (w : World FS) : Prop :=
  forall (address : string) (c : ref),
    _connections w !! address = Some c ->
    exists (cl : Client) (s : Sftp),
      clients w !! c = Some cl /\ c_sftp cl = Some s /\
      (sftp_exited s = true -> c_closed cl = true).

(** Invariants of the further properties: the cache is [m]; there are [n]
    process objects; the process objects are [ps]. *)
Definition connections_are (m : gmap string ref) (w : World FS) : Prop :=
  _connections w = m.
Definition procs_count (n : nat) (w : World FS) : Prop := length (procs w) = n.
Definition procs_are (ps : list Proc) (w : World FS) : Prop := procs w = ps.

End Closed.

(** A directory part without empty segment: relative, no doubled and no
    trailing separator. *)
Definition clean (dirs : string) : bool :=
  forallb (fun s => negb (Path.is_empty s)) (Path.str_split dirs).

(** [sep.join(names)] *)
Fixpoint unsplit (names : list string) : string :=
  match names with
  | [] => EmptyString
  | [name] => name
  | name :: names' => (name ++ Path.sep ++ unsplit names')%string
  end.

(** The value of [total] after the [for] loop of [pybricks]. *)
Definition walk (total : string) (names : list string) : string :=
  fold_left Path.join names total.

(** [s] holds no separator. *)
Fixpoint no_sep (s : string) : bool :=
  match s with
  | EmptyString => true
  | String c s' => negb (Path.is_sep c) && no_sep s'
  end.

(** How the stderr stream of a program ends, as the polling loop sees it:
    it is still open when the exit status arrives; or its end and the exit
    status arrive between the same two reads; or its end arrives first,
    and the exit status [reads] reads of the closed stream later. *)
Inductive Closing : Type :=
| StaysOpen
| ClosesAtExit
| ClosesBefore (reads : nat).

Definition ending (closing : Closing) (status : Z) : list (list ProcEvent) :=
  match closing with
  | StaysOpen => [[Exit status]]
  | ClosesAtExit => [[Eof; Exit status]]
  | ClosesBefore reads => [Eof] :: repeat [] reads ++ [[Exit status]]
  end.

(** The reads of the loop that return the empty string of a closed
    stream. *)
Definition blank_lines (closing : Closing) : nat :=
  match closing with
  | StaysOpen => 0
  | ClosesAtExit => 1
  | ClosesBefore reads => S (S reads)
  end.

(** The script of a program of which, before each read of the polling
    loop, one line arrives or nothing, and which then ends. *)
Definition slotted (slots : list (option string)) (closing : Closing) (status : Z)
    : list (list ProcEvent) :=
  map (fun o => match o with Some l => [Emit l] | None => [] end) slots
  ++ ending closing status.

(** The lines among the slots. *)
Definition slot_lines (slots : list (option string)) : list string :=
  omap id slots.


(** The calls [pybricks] makes on the file-transfer channel. *)
Definition file_call (op : Call) : bool :=
  match op with
  | SftpExists _ _ | SftpMkdir _ _ | SftpPut _ _ _ => true
  | _ => false
  end.

Section Deploy.

Context {FS : Type} `{RemoteFS FS}.

(** What the directory step of [pybricks] leaves as it was: the cache, the
    objects, the output and the environment but the file systems. *)
Definition frame_of (w0 w : World FS) : Prop :=
  _connections w = _connections w0 /\ clients w = clients w0 /\
  procs w = procs w0 /\ stdout w = stdout w0 /\
  net w = net w0 /\ spawn w = spawn w0.

(** The world in which the polling loop starts: the file is on the device
    as [fs'], the start is announced, the program is launched. *)
Definition launched (c : ref) (file_path : string) (fs' : FS) (w : World FS) : World FS :=
  let remote_path := Path.join _HOME file_path in
  let prog := ("brickrun -r -- pybricks-micropython " ++ remote_path)%string in
  let w2 := printed ["Now starting:"; remote_path] nl
              (set_remote (address_of w c) fs'
                 (issue (SftpPut c file_path remote_path) w)) in
  set_procs (fun ps => ps ++ [new_proc c prog (spawn w2 prog)])
    (issue (CreateProcess c prog) w2).

End Deploy.

(** The lines a process object has still to hand out: those in its buffer
    and those its program will still write, each with its newline. *)
Definition event_line (ev : ProcEvent) : option string :=
  match ev with
  | Emit line => Some (line ++ nl)%string
  | _ => None
  end.

Definition script_lines (script : list (list ProcEvent)) : list string :=
  concat (map (omap event_line) script).

Definition pending (pr : Proc) : list string :=
  p_stderr pr ++ script_lines (p_future pr).

(** The script closes the stderr stream at some point. *)
Definition ends_stream (script : list (list ProcEvent)) : bool :=
  existsb (existsb (fun ev => match ev with Eof => true | _ => false end)) script.

Section Footprint.

Context {FS : Type} `{RemoteFS FS}.

(** What [pybricks] may do to a world [w0]: leave the cache, the client
    objects and the environment but the file systems as they are, print,
    and make calls of the deployment. *)
Definition deploys_from (w0 w : World FS) : Prop :=
  _connections w = _connections w0 /\ clients w = clients w0 /\
  net w = net w0 /\ spawn w = spawn w0 /\
  (exists out : list string, stdout w = stdout w0 ++ out) /\
  (exists made : list Call,
     calls w = calls w0 ++ made /\ Forall (fun op => deploy_call op = true) made).

End Footprint.

(** ** The world while a caller waits

    A connection that answered the handshake need not answer the next
    call: between the moment a call is made and the moment it is served
    the caller is suspended, and the remote side goes on.  [run_env] is
    [run] with an environment: [env op] is what happens to the world while
    the caller waits for [op]. *)

Section Environment.

Context {FS : Type} `{RemoteFS FS}.

Local Open Scope co_scope.

(** A client object, its link put aside. *)
Definition unlinked (cl : Client) : Client := with_link Up cl.

(** [w'] is [w] but for the links of its connections: connections have
    dropped or recovered, and nothing else has happened. *)
Definition relinked (w w' : World FS) : Prop :=
  _connections w' = _connections w /\
  unlinked <$> clients w' = unlinked <$> clients w /\
  procs w' = procs w /\ stdout w' = stdout w /\ calls w' = calls w /\
  net w' = net w /\ remote w' = remote w /\ spawn w' = spawn w.

Definition changes_links_only (env : Call -> World FS -> World FS) : Prop :=
  forall (op : Call) (w : World FS), relinked w (env op w).

Fixpoint run_env {A : Type} (env : Call -> World FS -> World FS)
    (c : Co FS A) (w : World FS) : Res A * World FS :=
  match c with
  | Fin a => (Ret a, w)
  | Throw e => (Raise e, w)
  | Exhausted => (OutOfFuel, w)
  | Get k => run_env env (k w) w
  | Put w' k => run_env env k w'
  | Sync op k =>
      let '(o, w') := effect op (issue op w) in
      match resume o None with
      | Some r => run_env env (k r) w'
      | None => (Hang, w')
      end
  | Await op t k =>
      let '(o, w') := effect op (env op (issue op w)) in
      match resume o t with
      | Some r => run_env env (k r) w'
      | None => (Hang, w')
      end
  end.

(** The environment in which nothing happens, and the one in which the
    link of connection [c] becomes [l] while a call in [at_call] is
    awaited. *)
Definition still : Call -> World FS -> World FS := fun _ w => w.

Definition link_becomes (at_call : Call -> bool) (c : ref) (l : Link)
    : Call -> World FS -> World FS :=
  fun op w => if at_call op then set_link c l w else w.

(** The client objects of [w] are still there in [w'], their links
    apart. *)
Definition old_handles_kept (w w' : World FS) : Prop :=
  forall i : nat,
    i < length (clients w) ->
    unlinked <$> clients w' !! i = unlinked <$> clients w !! i.

(** Lines 27-36 of [_get_connection]: the file-transfer channel of a
    connection is opened unless it is there and answers. *)
Definition open_sftp (client : ref) : Co FS unit :=
  try_except
    (_ <- getattr_sftp client ;;
     _ <- await (SftpGetcwd client) ;;
     ret tt)
    is_AttributeError
    (s <- await (StartSftp client) ;;
     _ <- setattr_sftp client s ;;
     _ <- getattr_sftp client ;;
     _ <- await (SftpChdir client _HOME) ;;
     print ["Opened SFTP."] nl).

(** The [except] branch of [_get_connection], lines 22-39. *)
Definition reconnect_branch (address : string) : Co FS unit :=
  _ <- print ["Connecting to"; address; "..."] " " ;;
  _ <- dict_pop address ;;
  client <- await (Connect address _USER _PASSWORD) ;;
  _ <- print ["Connected."] " " ;;
  _ <- open_sftp client ;;
  dict_set address client.

(** The calls of the [except] branch of [_get_connection]. *)
Definition reconnect_call (op : Call) : bool :=
  match op with
  | Connect _ _ _ | StartSftp _ | SftpChdir _ _ => true
  | _ => false
  end.

(** The run has ended in a call of [among], with what that call came to:
    its exception, or no answer; [w'] is the world the call left. *)
Definition ends_in_call {A : Type} (among : Call -> bool) (r : Res A) (w' : World FS)
    : Prop :=
  exists (op : Call) (w1 : World FS),
    among op = true /\ w' = snd (effect op w1) /\
    match r with
    | Raise e => fst (effect op w1) = Raises e
    | Hang => fst (effect op w1) = Stalls
    | _ => False
    end.

Definition is_start_sftp (op : Call) : bool :=
  match op with StartSftp _ => true | _ => false end.

Definition is_chdir (op : Call) : bool :=
  match op with SftpChdir _ _ => true | _ => false end.

(** Every [await] the coroutine can come to satisfies [P]. *)
Inductive Awaits (P : Call -> option N -> Prop) {A : Type} : Co FS A -> Prop :=
| awaits_fin (a : A) : Awaits P (Fin a)
| awaits_throw (e : exn) : Awaits P (Throw e)
| awaits_exhausted : Awaits P Exhausted
| awaits_get (k : World FS -> Co FS A) :
    (forall w, Awaits P (k w)) -> Awaits P (Get k)
| awaits_put (w : World FS) (k : Co FS A) :
    Awaits P k -> Awaits P (Put w k)
| awaits_sync (op : Call) (k : Reply (ret_type op) -> Co FS A) :
    (forall r, Awaits P (k r)) -> Awaits P (Sync op k)
| awaits_await (op : Call) (t : option N) (k : Reply (ret_type op) -> Co FS A) :
    P op t -> (forall r, Awaits P (k r)) -> Awaits P (Await op t k).

(** Every call the coroutine can come to is in [allowed], and every world
    it writes keeps [I]. *)
Inductive Within (allowed : Call -> bool) (I : World FS -> Prop) {A : Type}
    : Co FS A -> Prop :=
| within_fin (a : A) : Within allowed I (Fin a)
| within_throw (e : exn) : Within allowed I (Throw e)
| within_exhausted : Within allowed I Exhausted
| within_get (k : World FS -> Co FS A) :
    (forall w, I w -> Within allowed I (k w)) -> Within allowed I (Get k)
| within_put (w : World FS) (k : Co FS A) :
    I w -> Within allowed I k -> Within allowed I (Put w k)
| within_sync (op : Call) (k : Reply (ret_type op) -> Co FS A) :
    allowed op = true -> (forall r, Within allowed I (k r)) ->
    Within allowed I (Sync op k)
| within_await (op : Call) (t : option N) (k : Reply (ret_type op) -> Co FS A) :
    allowed op = true -> (forall r, Within allowed I (k r)) ->
    Within allowed I (Await op t k).

(** The cache and the client objects, their links apart, are those of
    [w0]. *)
Definition handles_of (w0 w : World FS) : Prop :=
  _connections w = _connections w0 /\
  unlinked <$> clients w = unlinked <$> clients w0.

(** The timeouts of the module: the reads of the polling loop have the
    one of [wait_for], every other call has none. *)
Definition bounded_iff_read (op : Call) (timeout : option N) : Prop :=
  match op with
  | Readline _ => timeout = Some poll_timeout
  | _ => timeout = None
  end.

(** A task as it is after some turns on the event loop, in whatever
    worlds the turns were taken. *)
Inductive Later {A : Type} (t0 : Task FS A) : Task FS A -> Prop :=
| later_now : Later t0 t0
| later_turn (t : Task FS A) (w : World FS) :
    Later t0 t -> Later t0 (fst (turn t w)).

(** Whenever a task that runs [m] is suspended, it waits with a timeout
    if and only if it waits for a read of the polling loop. *)
Definition waits_bounded_iff_read {A : Type} (m : Co FS A) : Prop :=
  forall t : Task FS A,
    Later (Created m) t ->
    forall (op : Call) (timeout : option N),
      waiting_for t = Some op -> waiting_timeout t = Some timeout ->
      bounded_iff_read op timeout.

End Environment.

(** ** [pybricks_tools/mpy.py]

    Of the module that compiles a script with [mpy-cross]: the function
    that makes the build directory, and the block of [__main__] that
    prints the bytes as a C byte array. *)

Module Mpy.

Definition BUILD_DIR : string := "build".

(** *** The build directory

    The host is whatever answers [os.path.exists], [os.path.isfile] and
    [os.mkdir].  [mkdir] returns the host with the directory made, or the
    name of the exception it raises, the host left as it was.  Two laws
    are assumed of a host: where [mkdir] has succeeded there is something,
    and it is no regular file; and a regular file exists. *)
Class Host (H : Type) : Type := {
  path_exists : H -> string -> bool;
  path_isfile : H -> string -> bool;
  mkdir : H -> string -> string + H;
  mkdir_makes_dir : forall (h : H) (p : string) (h' : H),
    mkdir h p = inr h' -> path_exists h' p = true /\ path_isfile h' p = false;
  isfile_exists : forall (h : H) (p : string),
    path_isfile h p = true -> path_exists h p = true;
}.

Inductive error : Type :=
| OSError_build             (* OSError("A file named build already exists.") *)
| Raised (name : string).   (* the exception [os.mkdir] raised *)

Section Build.

Context {H : Type} `{Host H}.

(** Code that runs on the host and returns or raises. *)
Definition M (A : Type) : Type := H -> (error + A) * H.

Definition ret {A : Type} (a : A) : M A := fun h => (inr a, h).
Definition raise {A : Type} (e : error) : M A := fun h => (inl e, h).
Definition bind {A B : Type} (m : M A) (f : A -> M B) : M B :=
  fun h =>
    match m h with
    | (inr a, h') => f a h'
    | (inl e, h') => (inl e, h')
    end.

(** [os.path.exists(p)], [os.path.isfile(p)], [os.mkdir(p)] *)
Definition os_path_exists (p : string) : M bool := fun h => (inr (path_exists h p), h).
Definition os_path_isfile (p : string) : M bool := fun h => (inr (path_isfile h p), h).
Definition os_mkdir (p : string) : M unit :=
  fun h =>
    match mkdir h p with
    | inr h' => (inr tt, h')
    | inl name => (inl (Raised name), h)
    end.

(** [def make_build_dir()] *)
Definition make_build_dir : M unit :=
  bind (os_path_exists BUILD_DIR) (fun found =>
  bind (if negb found then os_mkdir BUILD_DIR else ret tt) (fun _ =>
  bind (os_path_isfile BUILD_DIR) (fun is_file =>
  if is_file then raise OSError_build else ret tt))).

End Build.

(** A host to run the function on: the entries of the working directory,
    each path as the code spells it, and whether the directory can be
    written to.  A link to nothing is an entry that does not exist for
    [os.path.exists] and is in the way of [os.mkdir]. *)
Inductive Node : Type :=
| File (content : string)
| Dir
| Fifo
| Dangling.

Record Disk : Type := mkDisk {
  entries : gmap string Node;
  writable : bool;
}.

Definition disk_exists (d : Disk) (p : string) : bool :=
  match entries d !! p with
  | Some Dangling | None => false
  | Some _ => true
  end.

Definition disk_isfile (d : Disk) (p : string) : bool :=
  match entries d !! p with
  | Some (File _) => true
  | _ => false
  end.

Definition disk_mkdir (d : Disk) (p : string) : string + Disk :=
  match entries d !! p with
  | Some _ => inl "FileExistsError"
  | None =>
      if writable d then inr (mkDisk (<[p := Dir]> (entries d)) (writable d))
      else inl "PermissionError"
  end.

#[global, refine] Instance disk_host : Host Disk :=
  {| path_exists := disk_exists; path_isfile := disk_isfile; mkdir := disk_mkdir |}.
Proof.
  - unfold disk_mkdir, disk_exists, disk_isfile. intros d p d' Hm.
    destruct (entries d !! p); [discriminate|].
    destruct (writable d); [|discriminate].
    injection Hm as <-. simpl. rewrite lookup_insert_eq. split; reflexivity.
  - unfold disk_exists, disk_isfile. intros d p.
    destruct (entries d !! p) as [[content| | |]|]; try discriminate. reflexivity.
Defined.

(** *** The C array dump

    The bytes are [Byte.byte]s; indexing them and iterating over them
    gives their values. *)

(** [hex(i)] of a non-negative integer: the prefix and the lowercase
    digits, without leading zeros *)
Definition hex (i : N) : string := HexString.of_N i.

(** [s[n:]] *)
Fixpoint slice_from (n : nat) (s : string) : string :=
  match n, s with
  | O, _ => s
  | S _, EmptyString => EmptyString
  | S n', String _ s' => slice_from n' s'
  end.

Fixpoint zeros (n : nat) : string :=
  match n with
  | O => EmptyString
  | S n' => String "0"%char (zeros n')
  end.

(** [s.zfill(width)]: zeros on the left up to [width], after the sign if
    there is one *)
Definition zfill (width : nat) (s : string) : string :=
  let pad := zeros (width - String.length s) in
  match s with
  | String c s' =>
      if Ascii.eqb c "+"%char || Ascii.eqb c "-"%char
      then String c (pad ++ s')
      else (pad ++ s)%string
  | EmptyString => pad
  end.

(** [s.upper()] on the digits and letters [hex] writes *)
Definition upper_char (c : ascii) : ascii :=
  let n := nat_of_ascii c in
  if (97 <=? n)%nat && (n <=? 122)%nat then ascii_of_nat (n - 32) else c.

Fixpoint upper (s : string) : string :=
  match s with
  | EmptyString => EmptyString
  | String c s' => String (upper_char c) (upper s')
  end.

(** ["0x{0}".format(hex(i)[2:].zfill(2).upper())] *)
Definition hex_repr (i : N) : string :=
  ("0x" ++ upper (zfill 2 (slice_from 2 (hex i))))%string.

Definition WIDTH : nat := 8.

(** [range(0, stop, step)] for a positive [step] *)
Definition range0 (stop step : nat) : list nat :=
  map (fun k => k * step) (seq 0 ((stop + step - 1) / step)).

(** [data[i:j]] for [i <= j] *)
Definition slice {A : Type} (i j : nat) (data : list A) : list A :=
  take (j - i) (drop i data).

(** [sep.join(parts)] *)
Fixpoint join (sep : string) (parts : list string) : string :=
  match parts with
  | [] => EmptyString
  | [a] => a
  | a :: rest => (a ++ sep ++ join sep rest)%string
  end.

(** The chunks of the [for] loop, and the list [hex_repr] of each. *)
Definition chunks (data : list Byte.byte) : list (list Byte.byte) :=
  map (fun i => slice i (i + WIDTH) data) (range0 (length data) WIDTH).

Definition array_rows (data : list Byte.byte) : list (list string) :=
  map (fun chunk => map (fun b => hex_repr (Byte.to_N b)) chunk) (chunks data).

(** The lines the loop prints. *)
Definition array_lines (data : list Byte.byte) : list string :=
  map (fun hex_repr => ("    " ++ join ", " hex_repr ++ ",")%string) (array_rows data).

(** ["{0}".format(n)] of a non-negative integer: its decimal digits *)
Definition decimal (n : N) : string :=
  DecimalString.NilZero.string_of_uint (N.to_uint n).

(** The text of the first [print], lines 113-116, for [data[1]] and
    [len(data)]. *)
Definition header (version : Byte.byte) (size : nat) : string :=
  (nl ++ "// MPY file. Version: " ++ decimal (Byte.to_N version)
      ++ ". Size: " ++ decimal (N.of_nat size)
      ++ nl ++ "const uint8_t script[] = ")%string.

(** [data[1]] raises when there are fewer than two bytes. *)
Inductive dump_error : Type := IndexError.

(** Lines 112-121: the texts of the calls of [print], in order, each of
    which [print] ends with a newline; or the exception raised while the
    argument of the first is evaluated, before anything is printed. *)
Definition dump (data : list Byte.byte) : dump_error + list string :=
  match data !! 1%nat with
  | None => inl IndexError
  | Some version => inr (header version (length data) :: array_lines data ++ ["};"])
  end.

End Mpy.

(** * Properties *)

(** ** Paths and the directory tree *)

Example split_demo : Path.split "demo/hello.py" = ("demo", "hello.py").
Proof. reflexivity. Qed.
Example split_root : Path.split "hello.py" = ("", "hello.py").
Proof. reflexivity. Qed.
Example split_abs : Path.split "/hello.py" = ("/", "hello.py").
Proof. reflexivity. Qed.
Example split_deep : Path.split "a/b//c.py" = ("a/b", "c.py").
Proof. reflexivity. Qed.
Example join_home : Path.join "/home/robot" "demo" = "/home/robot/demo".
Proof. reflexivity. Qed.
Example join_home_empty : Path.join "/home/robot" "" = "/home/robot/".
Proof. reflexivity. Qed.
Example join_abs : Path.join "/home/robot" "/tmp" = "/tmp".
Proof. reflexivity. Qed.
Example str_split_empty : Path.str_split "" = [""].
Proof. reflexivity. Qed.
Example str_split_two : Path.str_split "a/b" = ["a"; "b"].
Proof. reflexivity. Qed.
Example strip_line : Path.strip ("  a b" ++ nl) = "a b".
Proof. reflexivity. Qed.
Example strip_unicode :
  Path.strip (Path.utf8 8195 ++ "a" ++ Path.utf8 160 ++ "b" ++ Path.utf8 160
              ++ Path.utf8 12288 ++ nl) = ("a" ++ Path.utf8 160 ++ "b")%string.
Proof. reflexivity. Qed.
Example chars_unicode :
  Path.chars ("a" ++ Path.utf8 233 ++ Path.utf8 8364 ++ "b")
  = ["a"; Path.utf8 233; Path.utf8 8364; "b"].
Proof. reflexivity. Qed.
Example prefixes_demo :
  prefixes "" (Path.str_split "a/b") = ["/home/robot/a"; "/home/robot/a/b"].
Proof. reflexivity. Qed.

(** [str.split] never returns the empty list. *)
Lemma str_split_nonempty (s : string) : Path.str_split s <> [].
Proof.
  destruct s as [|c s]; simpl; [discriminate|].
  destruct (Path.is_sep c); [discriminate|].
  destruct (Path.str_split s); discriminate.
Qed.

(** Cutting a text into its characters loses nothing. *)
Lemma chars_concat (s : string) : String.concat "" (Path.chars s) = s.
Proof.
  induction s as [|c s IH]; [reflexivity|].
  destruct s as [|d s']; [reflexivity|].
  change (Path.chars (String c (String d s'))) with
    (if Path.is_continuation d
     then match Path.chars (String d s') with
          | x :: r => String c x :: r
          | [] => [String c EmptyString]
          end
     else String c EmptyString :: Path.chars (String d s')).
  destruct (Path.is_continuation d).
  - destruct (Path.chars (String d s')) as [|x r]; [discriminate IH|].
    rewrite <- IH. destruct r; reflexivity.
  - destruct (Path.chars (String d s')) as [|x r]; [discriminate IH|].
    rewrite <- IH. reflexivity.
Qed.

(** ** Running coroutines *)

Section RunLemmas.

Context {FS : Type} `{RemoteFS FS}.

Lemma run_bind {A B : Type} (m : Co FS A) (f : A -> Co FS B) (w : World FS) :
  run (bind m f) w = and_then (run m w) (fun a w' => run (f a) w').
Proof.
  revert w.
  induction m as [a|e| |k IH|w' k IH|op k IH|op t k IH]; intros w; simpl; auto.
  - destruct (effect op (issue op w)) as [o w1]. destruct (resume o None); auto.
  - destruct (effect op (issue op w)) as [o w1]. destruct (resume o t); auto.
Qed.

Lemma run_try_except {A : Type} (m : Co FS A) (classes : exn -> bool)
    (h : Co FS A) (w : World FS) :
  run (try_except m classes h) w =
  match run m w with
  | (Raise e, w') => if classes e then run h w' else (Raise e, w')
  | r => r
  end.
Proof.
  revert w.
  induction m as [a|e| |k IH|w' k IH|op k IH|op t k IH]; intros w; simpl; auto.
  - destruct (classes e); auto.
  - destruct (effect op (issue op w)) as [o w1]. destruct (resume o None); auto.
  - destruct (effect op (issue op w)) as [o w1]. destruct (resume o t); auto.
Qed.

Lemma run_finally {A : Type} (m : Co FS A) (cleanup : Co FS unit) (w : World FS) :
  run (finally m cleanup) w =
  match run m w with
  | (Ret a, w') => and_then (run cleanup w') (fun _ w'' => (Ret a, w''))
  | (Raise e, w') => and_then (run cleanup w') (fun _ w'' => (Raise e, w''))
  | r => r
  end.
Proof.
  revert w.
  induction m as [a|e| |k IH|w' k IH|op k IH|op t k IH]; intros w; simpl; auto.
  - rewrite run_bind. reflexivity.
  - rewrite run_bind. reflexivity.
  - destruct (effect op (issue op w)) as [o w1]. destruct (resume o None); auto.
  - destruct (effect op (issue op w)) as [o w1]. destruct (resume o t); auto.
Qed.

(** Making a call does not change what any link does. *)
Lemma link_of_issue (op : Call) (w : World FS) (c : ref) :
  link_of (issue op w) c = link_of w c.
Proof. reflexivity. Qed.

Lemma sftp_link_of_issue (op : Call) (w : World FS) (c : ref) :
  sftp_link_of (issue op w) c = sftp_link_of w c.
Proof. reflexivity. Qed.

(** What the probe does: [KeyError] without a cache entry, otherwise what
    the link of the cached object does. *)
Lemma run_probe (address : string) (w : World FS) :
  run (probe address) w =
  match _connections w !! address with
  | None => (Raise KeyError, w)
  | Some c =>
      match link_of w c with
      | Up => (Ret tt, issue (Run c "pwd") w)
      | Down e => (Raise e, issue (Run c "pwd") w)
      | Silent => (Hang, issue (Run c "pwd") w)
      end
  end.
Proof.
  unfold probe. simpl. destruct (_connections w !! address) as [c|]; simpl; auto.
  rewrite link_of_issue. destruct (link_of w c); reflexivity.
Qed.

Lemma probe_succeeds (address : string) (w : World FS) (c : ref) :
  _connections w !! address = Some c ->
  result (probe address) w = Ret tt ->
  link_of w c = Up.
Proof.
  unfold result. rewrite run_probe. intros ->.
  destruct (link_of w c); simpl; congruence.
Qed.

(** [_get_connection] ends with [return _connections[address]]: what it
    returns is what the cache then holds. *)
Lemma get_connection_returns_cached (address : string) (w w' : World FS) (c : ref) :
  run (_get_connection address) w = (Ret c, w') ->
  _connections w' !! address = Some c.
Proof.
  unfold _get_connection. rewrite run_bind.
  destruct (run (try_except _ _ _) w) as [[u|e| |] w1]; simpl; try discriminate.
  destruct (_connections w1 !! address) eqn:E; simpl; intros [= <- <-]; auto.
Qed.

(** The reuse path, step by step. *)
Lemma get_connection_reuse (address : string) (w : World FS) (c : ref) :
  _connections w !! address = Some c ->
  link_of w c = Up ->
  run (_get_connection address) w =
    (Ret c,
     printed ["Re-using existing connection to"; address] nl
       (issue (Run c "pwd") w)).
Proof.
  intros Hc Hl. unfold _get_connection.
  rewrite run_bind, run_try_except, run_bind, run_probe, Hc, Hl.
  simpl. rewrite Hc. reflexivity.
Qed.

End RunLemmas.

(** ** The module at work *)

(** The module's [_test] on a device with an empty home directory:
    handshake, file-transfer channel, beep, the directory [demo] checked
    and made, the upload, and the program polled until its exit. *)
Example test_calls :
  result (_test 5) world0 = Ret tt /\
  calls (after (_test 5) world0) =
    [Connect device "robot" "maker"; StartSftp 0; SftpChdir 0 "/home/robot";
     Run 0 "beep";
     SftpExists 0 "/home/robot/demo"; SftpExists 0 "/home/robot/demo";
     SftpMkdir 0 "/home/robot/demo";
     SftpPut 0 "demo/hello.py" "/home/robot/demo/hello.py";
     CreateProcess 0 "brickrun -r -- pybricks-micropython /home/robot/demo/hello.py";
     Readline 0; Readline 0; Readline 0; ProcClose 0].
Proof. vm_compute. split; reflexivity. Qed.

(** After [disconnect] the stale entry is found by the next probe, which
    fails with [ChannelOpenError]; the entry is replaced by a new handle. *)
Example reconnect_after_disconnect :
  let w := after (disconnect session1) world1 in
  result (probe device) w = Raise ChannelOpenError /\
  result (connect session1 device) w = Ret (mkEV3SSH (Some 1)) /\
  _connections (after (connect session1 device) w) !! device = Some 1 /\
  handshakes (after (connect session1 device) w) = 2.
Proof. vm_compute. repeat split. Qed.

(** A deploy that fails, here because the directory cannot be made,
    leaves the session with its client and channel: [disconnect] returns. *)
Example disconnect_after_failed_deploy :
  let w := set_all_remote [] world1 in
  result (pybricks 5 session1 "demo/hello.py") w = Raise SFTPError /\
  result (disconnect session1) (after (pybricks 5 session1 "demo/hello.py") w) = Ret tt.
Proof. vm_compute. split; reflexivity. Qed.

(** When the end of the stream is seen before the exit status, every read
    until the exit status is seen returns the empty string at once, and
    empty lines are printed after a and b. *)
Example poll_prints_blank_after_eof :
  let w := set_spawn [[Emit "a"]; [Emit "b"]; [Eof]; [Exit 0]] world1 in
  let w' := after (pybricks 6 session1 "hello.py") w in
  result (pybricks 6 session1 "hello.py") w = Ret tt /\
  drop (length (stdout w)) (stdout w')
    = [("Now starting: /home/robot/hello.py" ++ nl)%string;
       ("a" ++ nl)%string; ("b" ++ nl)%string; nl; nl].
Proof. vm_compute. split; reflexivity. Qed.

(** Two tasks of which the first has finished before the second starts
    share the handle. *)
Example serial_tasks_share_handle :
  let g := _get_connection (FS := Tree.FS) device in
  let ended := sched [0; 0; 0; 0; 1; 1] [Created g; Created g] world0 in
  map outcome (fst ended) = [Some (Ret 0); Some (Ret 0)] /\
  handshakes (snd ended) = 1.
Proof. vm_compute. split; reflexivity. Qed.

(** ** The connection cache *)

(** C1. If the cache holds a handle for [address] and the probe
    [run('pwd')] on it succeeds, [_get_connection(address)] returns that
    very handle: the only call made is the probe, no handshake, and neither
    the cache nor the client objects change.  Hence a second
    [connect(address)], the transport being alive after the first, returns
    the session with the same handle and makes no handshake. *)
Theorem get_connection_reuses_live_handle {FS : Type} `{RemoteFS FS} (address : string) :
  (forall (w : World FS) (c : ref),
      _connections w !! address = Some c ->
      result (probe address) w = Ret tt ->
      exists w' : World FS,
        run (_get_connection address) w = (Ret c, w') /\
        calls w' = calls w ++ [Run c "pwd"] /\
        handshakes w' = handshakes w /\
        _connections w' = _connections w /\
        clients w' = clients w) /\
  (forall (self s1 : EV3SSH) (w w1 : World FS) (c : ref),
      run (connect self address) w = (Ret s1, w1) ->
      client s1 = Some c ->
      link_of w1 c = Up ->
      exists w2 : World FS,
        run (connect s1 address) w1 = (Ret s1, w2) /\
        calls w2 = calls w1 ++ [Run c "pwd"] /\
        handshakes w2 = handshakes w1).
Proof.
  assert (Hcount : forall (w : World FS) c,
             length (List.filter is_connect (calls w ++ [Run c "pwd"])) = handshakes w).
  { intros w c. rewrite List.filter_app, length_app. simpl. unfold handshakes. lia. }
  split.
  - intros w c Hc Hp. apply (probe_succeeds address w c Hc) in Hp.
    eexists. split; [apply get_connection_reuse; assumption|].
    simpl. repeat split. unfold handshakes at 1. simpl. apply Hcount.
  - intros self s1 w w1 c Hrun Hs Hl.
    unfold connect in Hrun. rewrite run_bind in Hrun.
    destruct (run (_get_connection address) w) as [[c0|e| |] w0] eqn:Hg;
      simpl in Hrun; try discriminate.
    injection Hrun as <- <-. simpl in Hs. injection Hs as ->.
    apply get_connection_returns_cached in Hg.
    eexists. split.
    + unfold connect. rewrite run_bind, (get_connection_reuse address w0 c Hg Hl).
      reflexivity.
    + simpl. split; [reflexivity|]. unfold handshakes at 1. simpl. apply Hcount.
Qed.

Lemma get_connection_reuses_live_handle_witness :
  _connections world1 !! device = Some 0 /\
  result (probe device) world1 = Ret tt /\
  run (connect session0 device) world0 = (Ret session1, world1) /\
  link_of world1 0 = Up /\
  (exists w' : World Tree.FS,
      run (_get_connection device) world1 = (Ret 0, w') /\
      calls w' = calls world1 ++ [Run 0 "pwd"] /\
      handshakes w' = handshakes world1 /\
      _connections w' = _connections world1 /\
      clients w' = clients world1) /\
  (exists w2 : World Tree.FS,
      run (connect session1 device) world1 = (Ret session1, w2) /\
      calls w2 = calls world1 ++ [Run 0 "pwd"] /\
      handshakes w2 = handshakes world1).
Proof.
  assert (H1 : _connections world1 !! device = Some 0) by (vm_compute; reflexivity).
  assert (H2 : result (probe device) world1 = Ret tt)
    by (vm_compute; reflexivity).
  assert (H3 : run (connect session0 device) world0 = (Ret session1, world1))
    by (vm_compute; reflexivity).
  assert (H4 : link_of world1 0 = Up) by (vm_compute; reflexivity).
  destruct (get_connection_reuses_live_handle (FS := Tree.FS) device) as [Hreuse Htwice].
  split; [exact H1|]. split; [exact H2|]. split; [exact H3|]. split; [exact H4|].
  split.
  - exact (Hreuse world1 0 H1 H2).
  - exact (Htwice session0 session1 world0 world1 0 H3 eq_refl H4).
Defined.

Section ReconnectLemmas.

Context {FS : Type} `{RemoteFS FS}.

(** The probe changes nothing but the list of calls, to which it adds at
    most itself. *)
Lemma probe_frame (address : string) (w wp : World FS) (r : Res unit) :
  run (probe address) w = (r, wp) ->
  _connections wp = _connections w /\
  handshakes wp = handshakes w /\
  net wp = net w.
Proof.
  rewrite run_probe. destruct (_connections w !! address) as [c|].
  - assert (Hh : handshakes (issue (Run c "pwd") w) = handshakes w).
    { unfold handshakes. simpl. rewrite List.filter_app, length_app. simpl. lia. }
    destruct (link_of w c); intros Hp; inversion Hp; subst; auto.
  - intros Hp; inversion Hp; subst; auto.
Qed.

(** After a probe that failed with one of the classes of the [except]
    clause, [_get_connection] is what its handler is, run in the world the
    probe left; the handler starts by dropping the entry and attempting
    the handshake. *)
Lemma get_connection_reconnect_fails (address : string) (w wp : World FS) (e e' : exn) :
  run (probe address) w = (Raise e, wp) ->
  no_working_connection e = true ->
  net w address = Down e' ->
  run (_get_connection address) w =
    (Raise e', issue (Connect address _USER _PASSWORD) (evicted address wp)).
Proof.
  intros Hp He Hn. unfold _get_connection.
  rewrite run_bind, run_try_except, run_bind, Hp. simpl. rewrite He.
  assert (Hnet : net wp address = Down e').
  { destruct (probe_frame address w wp _ Hp) as (_ & _ & ->). exact Hn. }
  simpl. rewrite Hnet. reflexivity.
Qed.

Lemma get_connection_reconnect_stalls (address : string) (w wp : World FS) (e : exn) :
  run (probe address) w = (Raise e, wp) ->
  no_working_connection e = true ->
  net w address = Silent ->
  run (_get_connection address) w =
    (Hang, issue (Connect address _USER _PASSWORD) (evicted address wp)).
Proof.
  intros Hp He Hn. unfold _get_connection.
  rewrite run_bind, run_try_except, run_bind, Hp. simpl. rewrite He.
  assert (Hnet : net wp address = Silent).
  { destruct (probe_frame address w wp _ Hp) as (_ & _ & ->). exact Hn. }
  simpl. rewrite Hnet. reflexivity.
Qed.

Lemma get_connection_probe_propagates (address : string) (w wp : World FS) (e : exn) :
  run (probe address) w = (Raise e, wp) ->
  no_working_connection e = false ->
  run (_get_connection address) w = (Raise e, wp).
Proof.
  intros Hp He. unfold _get_connection.
  rewrite run_bind, run_try_except, run_bind, Hp. simpl. rewrite He. reflexivity.
Qed.

Lemma handshakes_issue_connect (address u p : string) (w : World FS) :
  handshakes (issue (Connect address u p) w) = S (handshakes w).
Proof.
  unfold handshakes. simpl. rewrite List.filter_app, length_app. simpl. lia.
Qed.

End ReconnectLemmas.

(** ** The reconnect in a world that changes *)

Section SnocLemmas.

Lemma lookup_snoc {A : Type} (l : list A) (x : A) :
  (l ++ [x]) !! length l = Some x.
Proof. rewrite lookup_app_r by lia. rewrite Nat.sub_diag. reflexivity. Qed.

Lemma alter_snoc {A : Type} (f : A -> A) (l : list A) (x : A) :
  alter f (length l) (l ++ [x]) = l ++ [f x].
Proof.
  induction l as [|a l IH]; simpl; [reflexivity|].
  f_equal. exact IH.
Qed.

End SnocLemmas.

Section EnvLemmas.

Context {FS : Type} `{RemoteFS FS}.

Variable env : Call -> World FS -> World FS.

Lemma run_env_bind {A B : Type} (m : Co FS A) (f : A -> Co FS B) (w : World FS) :
  run_env env (bind m f) w
  = and_then (run_env env m w) (fun a w' => run_env env (f a) w').
Proof.
  revert w.
  induction m as [a|e| |k IH|w' k IH|op k IH|op t k IH]; intros w; simpl; auto.
  - destruct (effect op (issue op w)) as [o w1]. destruct (resume o None); auto.
  - destruct (effect op (env op (issue op w))) as [o w1]. destruct (resume o t); auto.
Qed.

Lemma run_env_try_except {A : Type} (m : Co FS A) (classes : exn -> bool)
    (h : Co FS A) (w : World FS) :
  run_env env (try_except m classes h) w =
  match run_env env m w with
  | (Raise e, w') => if classes e then run_env env h w' else (Raise e, w')
  | r => r
  end.
Proof.
  revert w.
  induction m as [a|e| |k IH|w' k IH|op k IH|op t k IH]; intros w; simpl; auto.
  - destruct (classes e); auto.
  - destruct (effect op (issue op w)) as [o w1]. destruct (resume o None); auto.
  - destruct (effect op (env op (issue op w))) as [o w1]. destruct (resume o t); auto.
Qed.

End EnvLemmas.

Section StillLemmas.

Context {FS : Type} `{RemoteFS FS}.

(** In the environment in which nothing happens, [run_env] is [run]. *)
Lemma run_env_still {A : Type} (c : Co FS A) :
  forall w : World FS, run_env still c w = run c w.
Proof.
  induction c as [a|e| |k IH|w' k IH|op k IH|op t k IH]; intros w; simpl; auto.
  - destruct (effect op (issue op w)) as [o w1]. destruct (resume o None); auto.
  - unfold still at 1.
    destruct (effect op (issue op w)) as [o w1]. destruct (resume o t); auto.
Qed.

Lemma still_changes_links_only : changes_links_only (still (FS := FS)).
Proof. intros op w. unfold still, relinked. repeat split. Qed.

Lemma unlinked_relink (l : Link) (cs : list Client) :
  forall c : ref, unlinked <$> alter (with_link l) c cs = unlinked <$> cs.
Proof.
  intros c. apply list_eq. intros i. rewrite !list_lookup_fmap.
  destruct (decide (c = i)) as [->|Hne].
  - rewrite list_lookup_alter_eq. destruct (cs !! i); reflexivity.
  - rewrite list_lookup_alter_ne by exact Hne. reflexivity.
Qed.

Lemma link_becomes_changes_links_only (at_call : Call -> bool) (c : ref) (l : Link) :
  changes_links_only (link_becomes (FS := FS) at_call c l).
Proof.
  intros op w. unfold link_becomes. destruct (at_call op); [|repeat split].
  unfold relinked, set_link. simpl. split; [reflexivity|].
  split; [apply unlinked_relink|repeat split].
Qed.

Lemma get_connection_unfold (address : string) :
  _get_connection (FS := FS) address =
  bind (try_except
          (bind (probe address)
                (fun _ => print ["Re-using existing connection to"; address] nl))
          no_working_connection
          (reconnect_branch address))
       (fun _ => dict_get address).
Proof. reflexivity. Qed.

End StillLemmas.

Section ReconnectEnvLemmas.

Context {FS : Type} `{RemoteFS FS}.

Variable env : Call -> World FS -> World FS.
Hypothesis Henv : changes_links_only env.

Lemma unlinked_fields (l : list Client) (c : ref) (a : string) (s : option Sftp)
    (b : bool) :
  unlinked <$> l !! c = Some (mkClient a Up s b) ->
  exists cl : Client,
    l !! c = Some cl /\ c_address cl = a /\ c_sftp cl = s /\ c_closed cl = b.
Proof.
  destruct (l !! c) as [cl|]; [|discriminate].
  simpl. intros Heq. injection Heq as Ha Hs Hb. exists cl. auto.
Qed.

(** What the environment leaves of a world in which a call was made. *)
Lemma env_issue (op : Call) (w : World FS) :
  _connections (env op (issue op w)) = _connections w /\
  (forall i : nat,
     unlinked <$> clients (env op (issue op w)) !! i = unlinked <$> clients w !! i) /\
  length (clients (env op (issue op w))) = length (clients w) /\
  calls (env op (issue op w)) = calls w ++ [op] /\
  net (env op (issue op w)) = net w /\
  procs (env op (issue op w)) = procs w /\
  remote (env op (issue op w)) = remote w.
Proof.
  destruct (Henv op (issue op w)) as (Hc & Hcl & Hp & _ & Hcalls & Hn & Hr & _).
  split; [exact Hc|]. split.
  - intros i. rewrite <- !list_lookup_fmap, Hcl. reflexivity.
  - split.
    + rewrite <- (length_fmap unlinked), Hcl, length_fmap. reflexivity.
    + split; [exact Hcalls|]. split; [exact Hn|]. split; [exact Hp|exact Hr].
Qed.

Lemma handshakes_snoc (w w1 : World FS) (op : Call) :
  calls w1 = calls w ++ [op] ->
  handshakes w1 = (if is_connect op then S (handshakes w) else handshakes w).
Proof.
  unfold handshakes. intros ->. rewrite List.filter_app, length_app. simpl.
  destruct (is_connect op); simpl; lia.
Qed.

Lemma run_env_await_connect (address : string) (w : World FS) :
  run_env env (await (Connect address _USER _PASSWORD)) w =
    let w1 := env (Connect address _USER _PASSWORD)
                  (issue (Connect address _USER _PASSWORD) w) in
    match net w1 address with
    | Up => (Ret (length (clients w1)),
             set_clients (fun cs => cs ++ [new_client address]) w1)
    | Down e => (Raise e, w1)
    | Silent => (Hang, w1)
    end.
Proof. simpl. unfold through. destruct (net _ address); reflexivity. Qed.

Lemma run_env_await_start (c : ref) (w : World FS) :
  run_env env (await (StartSftp c)) w =
    let w1 := env (StartSftp c) (issue (StartSftp c) w) in
    match link_of w1 c with
    | Up => (Ret (mkSftp EmptyString false), w1)
    | Down e => (Raise e, w1)
    | Silent => (Hang, w1)
    end.
Proof. simpl. unfold through. destruct (link_of _ c); reflexivity. Qed.

Lemma run_env_await_chdir (c : ref) (path : string) (w : World FS) :
  run_env env (await (SftpChdir c path)) w =
    let w1 := env (SftpChdir c path) (issue (SftpChdir c path) w) in
    match sftp_link_of w1 c with
    | Up => (Ret tt,
             set_clients (alter (fun cl => with_sftp (Some (mkSftp path false)) cl) c) w1)
    | Down e => (Raise e, w1)
    | Silent => (Hang, w1)
    end.
Proof. simpl. unfold through. destruct (sftp_link_of _ c); reflexivity. Qed.

Lemma run_env_await_run (c : ref) (cmd : string) (w : World FS) :
  run_env env (await (Run c cmd)) w =
    let w1 := env (Run c cmd) (issue (Run c cmd) w) in
    match link_of w1 c with
    | Up => (Ret tt, w1)
    | Down e => (Raise e, w1)
    | Silent => (Hang, w1)
    end.
Proof. simpl. unfold through. destruct (link_of _ c); reflexivity. Qed.

(** A call that fails leaves the world it was served in. *)
Lemma ends_in_start {A : Type} (c : ref) (w1 : World FS) (r : Res A) :
  match r with
  | Raise e => link_of w1 c = Down e
  | Hang => link_of w1 c = Silent
  | _ => False
  end ->
  ends_in_call reconnect_call r w1.
Proof.
  intros Hr. exists (StartSftp c), w1. split; [reflexivity|].
  destruct r as [a|e| |]; try contradiction; simpl; rewrite Hr; split; reflexivity.
Qed.

Lemma ends_in_chdir {A : Type} (c : ref) (path : string) (w1 : World FS) (r : Res A) :
  match r with
  | Raise e => sftp_link_of w1 c = Down e
  | Hang => sftp_link_of w1 c = Silent
  | _ => False
  end ->
  ends_in_call reconnect_call r w1.
Proof.
  intros Hr. exists (SftpChdir c path), w1. split; [reflexivity|].
  destruct r as [a|e| |]; try contradiction; simpl; rewrite Hr; split; reflexivity.
Qed.

Lemma ends_in_connect {A : Type} (address : string) (w1 : World FS) (r : Res A) :
  match r with
  | Raise e => net w1 address = Down e
  | Hang => net w1 address = Silent
  | _ => False
  end ->
  ends_in_call reconnect_call r w1.
Proof.
  intros Hr. exists (Connect address _USER _PASSWORD), w1. split; [reflexivity|].
  destruct r as [a|e| |]; try contradiction; simpl; rewrite Hr; split; reflexivity.
Qed.

(** Lines 30-36 on a connection just made: the file-transfer channel is
    opened at the home directory, unless [start_sftp_client] or [chdir]
    fails. *)
Lemma open_sftp_env (c : ref) (a : string) (w w' : World FS) (r : Res unit) :
  unlinked <$> clients w !! c = Some (mkClient a Up None false) ->
  run_env env (open_sftp c) w = (r, w') ->
  _connections w' = _connections w /\
  handshakes w' = handshakes w /\ net w' = net w /\
  procs w' = procs w /\ remote w' = remote w /\
  length (clients w') = length (clients w) /\
  (forall i : nat, i <> c ->
     unlinked <$> clients w' !! i = unlinked <$> clients w !! i) /\
  match r with
  | Ret _ =>
      unlinked <$> clients w' !! c
      = Some (mkClient a Up (Some (mkSftp _HOME false)) false)
  | _ => ends_in_call reconnect_call r w'
  end.
Proof.
  intros Hc Hrun.
  destruct (unlinked_fields _ c a None false Hc) as (cl & Hcl & Ha & Hs & Hb).
  unfold open_sftp in Hrun. rewrite run_env_try_except, run_env_bind in Hrun.
  assert (Hget : run_env env (getattr_sftp c) w = (Raise AttributeError, w)).
  { simpl. rewrite Hcl. simpl. rewrite Hs. reflexivity. }
  rewrite Hget in Hrun. cbn [and_then] in Hrun.
  change (is_AttributeError AttributeError) with true in Hrun. cbv iota in Hrun.
  rewrite run_env_bind, run_env_await_start in Hrun. cbv zeta in Hrun.
  destruct (env_issue (StartSftp c) w) as (E1c & E1l & E1n & E1calls & E1net & E1p & E1r).
  pose proof (handshakes_snoc w _ _ E1calls) as E1h. simpl in E1h.
  remember (env (StartSftp c) (issue (StartSftp c) w)) as w1 eqn:Ew1. clear Ew1.
  assert (Hfail1 : forall r1 : Res unit,
            match r1 with
            | Raise e => link_of w1 c = Down e
            | Hang => link_of w1 c = Silent
            | _ => False
            end ->
            (r1, w1) = (r, w') ->
            _connections w' = _connections w /\
            handshakes w' = handshakes w /\ net w' = net w /\
            procs w' = procs w /\ remote w' = remote w /\
            length (clients w') = length (clients w) /\
            (forall i : nat, i <> c ->
               unlinked <$> clients w' !! i = unlinked <$> clients w !! i) /\
            match r with
            | Ret _ =>
                unlinked <$> clients w' !! c
                = Some (mkClient a Up (Some (mkSftp _HOME false)) false)
            | _ => ends_in_call reconnect_call r w'
            end).
  { intros r1 Hr1 Heq. injection Heq as <- <-.
    repeat (split; [assumption|]). split; [intros i _; apply E1l|].
    destruct r1 as [[]|e| |]; try contradiction; apply (ends_in_start c); exact Hr1. }
  destruct (link_of w1 c) as [|e|] eqn:Hl1; cbn [and_then] in Hrun;
    [|exact (Hfail1 (Raise e) eq_refl Hrun)|exact (Hfail1 Hang eq_refl Hrun)].
  clear Hfail1.
  (* the attribute is set *)
  assert (Hcl1 : unlinked <$> clients w1 !! c = Some (mkClient a Up None false))
    by (rewrite E1l; exact Hc).
  destruct (unlinked_fields _ c a None false Hcl1) as (cl1 & Hc1 & Ha1 & Hs1 & Hb1).
  rewrite run_env_bind in Hrun.
  assert (Hset : run_env env (setattr_sftp c (mkSftp EmptyString false)) w1
                 = (Ret tt, set_clients
                              (alter (with_sftp (Some (mkSftp EmptyString false))) c) w1)).
  { simpl. rewrite Hc1. reflexivity. }
  rewrite Hset in Hrun. cbn [and_then] in Hrun. clear Hset.
  remember (set_clients (alter (with_sftp (Some (mkSftp EmptyString false))) c) w1)
    as w2 eqn:Ew2.
  assert (F2 : _connections w2 = _connections w1 /\ calls w2 = calls w1 /\
               net w2 = net w1 /\ procs w2 = procs w1 /\ remote w2 = remote w1 /\
               clients w2 = alter (with_sftp (Some (mkSftp EmptyString false))) c
                              (clients w1)) by (subst w2; repeat split).
  clear Ew2. destruct F2 as (F2c & F2calls & F2n & F2p & F2r & F2cl).
  assert (Hc2 : clients w2 !! c
                = Some (with_sftp (Some (mkSftp EmptyString false)) cl1)).
  { rewrite F2cl, list_lookup_alter_eq, Hc1. reflexivity. }
  rewrite run_env_bind in Hrun.
  assert (Hget2 : run_env env (getattr_sftp c) w2
                  = (Ret (mkSftp EmptyString false), w2)).
  { simpl. rewrite Hc2. reflexivity. }
  rewrite Hget2 in Hrun. cbn [and_then] in Hrun. clear Hget2.
  rewrite run_env_bind, run_env_await_chdir in Hrun. cbv zeta in Hrun.
  destruct (env_issue (SftpChdir c _HOME) w2)
    as (E3c & E3l & E3n & E3calls & E3net & E3p & E3r).
  pose proof (handshakes_snoc w2 _ _ E3calls) as E3h. simpl in E3h.
  remember (env (SftpChdir c _HOME) (issue (SftpChdir c _HOME) w2)) as w3 eqn:Ew3.
  clear Ew3.
  assert (Hh2 : handshakes w2 = handshakes w).
  { unfold handshakes in *. rewrite F2calls. exact E1h. }
  assert (Hlen3 : length (clients w3) = length (clients w)).
  { rewrite E3n, F2cl, length_alter. exact E1n. }
  assert (Hother3 : forall i : nat, i <> c ->
            unlinked <$> clients w3 !! i = unlinked <$> clients w !! i).
  { intros i Hi. rewrite E3l, F2cl, list_lookup_alter_ne by congruence. apply E1l. }
  assert (Hc3 : unlinked <$> clients w3 !! c
                = Some (mkClient a Up (Some (mkSftp EmptyString false)) false)).
  { rewrite E3l, Hc2. unfold unlinked, with_link, with_sftp. simpl.
    rewrite Ha1, Hb1. reflexivity. }
  destruct (unlinked_fields _ c a _ false Hc3) as (cl3 & Hcl3 & Ha3 & Hs3 & Hb3).
  assert (Hfail3 : forall r3 : Res unit,
            match r3 with
            | Raise e => sftp_link_of w3 c = Down e
            | Hang => sftp_link_of w3 c = Silent
            | _ => False
            end ->
            (r3, w3) = (r, w') ->
            _connections w' = _connections w /\
            handshakes w' = handshakes w /\ net w' = net w /\
            procs w' = procs w /\ remote w' = remote w /\
            length (clients w') = length (clients w) /\
            (forall i : nat, i <> c ->
               unlinked <$> clients w' !! i = unlinked <$> clients w !! i) /\
            match r with
            | Ret _ =>
                unlinked <$> clients w' !! c
                = Some (mkClient a Up (Some (mkSftp _HOME false)) false)
            | _ => ends_in_call reconnect_call r w'
            end).
  { intros r3 Hr3 Heq. injection Heq as <- <-.
    split; [congruence|]. split; [congruence|]. split; [congruence|].
    split; [congruence|]. split; [congruence|]. split; [exact Hlen3|].
    split; [exact Hother3|].
    destruct r3 as [[]|e| |]; try contradiction; apply (ends_in_chdir c _HOME); exact Hr3. }
  destruct (sftp_link_of w3 c) as [|e|] eqn:Hl3; cbn [and_then] in Hrun;
    [|exact (Hfail3 (Raise e) eq_refl Hrun)|exact (Hfail3 Hang eq_refl Hrun)].
  clear Hfail3.
  change (run_env env (print ["Opened SFTP."] nl) ?x)
    with (Ret tt, printed ["Opened SFTP."] nl x) in Hrun.
  injection Hrun as <- <-. simpl.
  split; [congruence|]. split; [unfold handshakes in *; simpl; congruence|].
  split; [congruence|]. split; [congruence|]. split; [congruence|].
  split; [rewrite length_alter; exact Hlen3|].
  split.
  - intros i Hi. rewrite list_lookup_alter_ne by congruence. apply Hother3. exact Hi.
  - rewrite list_lookup_alter_eq, Hcl3. unfold unlinked, with_link, with_sftp. simpl.
    rewrite Ha3, Hb3. reflexivity.
Qed.

(** The [except] branch in a world that changes: a handshake is made;
    the entry is stored if all three calls are served, and is not there
    when one of them fails. *)
Lemma reconnect_branch_env (address : string) (wp w' : World FS) (r : Res unit) :
  run_env env (reconnect_branch address) wp = (r, w') ->
  handshakes w' = S (handshakes wp) /\ net w' = net wp /\
  procs w' = procs wp /\ remote w' = remote wp /\
  old_handles_kept wp w' /\
  match r with
  | Ret _ =>
      net wp address = Up /\
      _connections w' = <[address := length (clients wp)]> (_connections wp) /\
      unlinked <$> clients w' !! length (clients wp)
      = Some (mkClient address Up (Some (mkSftp _HOME false)) false)
  | _ =>
      _connections w' = delete address (_connections wp) /\
      ends_in_call reconnect_call r w'
  end.
Proof.
  intros Hrun. unfold reconnect_branch in Hrun.
  rewrite run_env_bind in Hrun.
  change (run_env env (print ["Connecting to"; address; "..."] " ") wp)
    with (Ret tt, printed ["Connecting to"; address; "..."] " " wp) in Hrun.
  cbn [and_then] in Hrun. rewrite run_env_bind in Hrun.
  change (run_env env (dict_pop address) ?x)
    with (Ret tt, set_connections (delete address) x) in Hrun.
  cbn [and_then] in Hrun. fold (evicted address wp) in Hrun.
  assert (F0 : _connections (evicted address wp) = delete address (_connections wp) /\
               clients (evicted address wp) = clients wp /\
               calls (evicted address wp) = calls wp /\
               net (evicted address wp) = net wp /\
               procs (evicted address wp) = procs wp /\
               remote (evicted address wp) = remote wp) by repeat split.
  remember (evicted address wp) as w0 eqn:Ew0. clear Ew0.
  destruct F0 as (F0c & F0cl & F0calls & F0n & F0p & F0r).
  rewrite run_env_bind, run_env_await_connect in Hrun. cbv zeta in Hrun.
  destruct (env_issue (Connect address _USER _PASSWORD) w0)
    as (E1c & E1l & E1n & E1calls & E1net & E1p & E1r).
  pose proof (handshakes_snoc w0 _ _ E1calls) as E1h. simpl in E1h.
  assert (Hh0 : handshakes w0 = handshakes wp) by (unfold handshakes; rewrite F0calls; reflexivity).
  remember (env (Connect address _USER _PASSWORD)
                (issue (Connect address _USER _PASSWORD) w0)) as w1 eqn:Ew1.
  clear Ew1.
  assert (Hkept1 : old_handles_kept wp w1).
  { intros i _. rewrite E1l, F0cl. reflexivity. }
  assert (Hfail1 : forall r1 : Res unit,
            match r1 with
            | Raise e => net w1 address = Down e
            | Hang => net w1 address = Silent
            | _ => False
            end ->
            (r1, w1) = (r, w') ->
            handshakes w' = S (handshakes wp) /\ net w' = net wp /\
            procs w' = procs wp /\ remote w' = remote wp /\
            old_handles_kept wp w' /\
            match r with
            | Ret _ =>
                net wp address = Up /\
                _connections w' = <[address := length (clients wp)]> (_connections wp) /\
                unlinked <$> clients w' !! length (clients wp)
                = Some (mkClient address Up (Some (mkSftp _HOME false)) false)
            | _ =>
                _connections w' = delete address (_connections wp) /\
                ends_in_call reconnect_call r w'
            end).
  { intros r1 Hr1 Heq. injection Heq as <- <-.
    split; [congruence|]. split; [congruence|]. split; [congruence|].
    split; [congruence|]. split; [exact Hkept1|].
    destruct r1 as [[]|e| |]; try contradiction;
      (split; [congruence|apply (ends_in_connect address); exact Hr1]). }
  destruct (net w1 address) as [|e|] eqn:Hn1; cbn [and_then] in Hrun;
    [|exact (Hfail1 (Raise e) eq_refl Hrun)|exact (Hfail1 Hang eq_refl Hrun)].
  clear Hfail1.
  rewrite run_env_bind in Hrun.
  change (run_env env (print ["Connected."] " ") ?x)
    with (Ret tt, printed ["Connected."] " " x) in Hrun.
  cbn [and_then] in Hrun. rewrite run_env_bind in Hrun.
  remember (printed ["Connected."] " "
              (set_clients (fun cs => cs ++ [new_client address]) w1)) as w2 eqn:Ew2.
  assert (F2 : _connections w2 = _connections w1 /\ calls w2 = calls w1 /\
               net w2 = net w1 /\ procs w2 = procs w1 /\ remote w2 = remote w1 /\
               clients w2 = clients w1 ++ [new_client address])
    by (subst w2; repeat split).
  clear Ew2. destruct F2 as (F2c & F2calls & F2n & F2p & F2r & F2cl).
  assert (Hlen : length (clients w1) = length (clients wp)) by congruence.
  rewrite Hlen in Hrun.
  assert (Hnew : unlinked <$> clients w2 !! length (clients wp)
                 = Some (mkClient address Up None false)).
  { rewrite F2cl, <- Hlen, lookup_snoc. reflexivity. }
  destruct (run_env env (open_sftp (length (clients wp))) w2) as [r3 w3] eqn:Hopen.
  destruct (open_sftp_env _ address w2 w3 r3 Hnew Hopen)
    as (O3c & O3h & O3n & O3p & O3r & O3len & O3other & O3r3).
  assert (Hh3 : handshakes w3 = S (handshakes wp)).
  { rewrite O3h. unfold handshakes in *. rewrite F2calls. congruence. }
  assert (Hkept3 : old_handles_kept wp w3).
  { intros i Hi. rewrite O3other by lia. rewrite F2cl, lookup_app_l by lia.
    apply Hkept1. exact Hi. }
  destruct r3 as [[]|e| |]; cbn [and_then] in Hrun.
  - change (run_env env (dict_set address (length (clients wp))) w3)
      with (Ret tt, set_connections (insert address (length (clients wp))) w3) in Hrun.
    injection Hrun as <- <-. simpl.
    split; [exact Hh3|]. split; [congruence|]. split; [congruence|].
    split; [congruence|]. split; [exact Hkept3|].
    split; [congruence|]. split; [|exact O3r3].
    rewrite O3c, F2c, E1c, F0c. apply insert_delete_eq.
  - injection Hrun as <- <-.
    split; [exact Hh3|]. split; [congruence|]. split; [congruence|].
    split; [congruence|]. split; [exact Hkept3|]. split; [congruence|exact O3r3].
  - injection Hrun as <- <-.
    split; [exact Hh3|]. split; [congruence|]. split; [congruence|].
    split; [congruence|]. split; [exact Hkept3|]. split; [congruence|exact O3r3].
  - injection Hrun as <- <-. destruct O3r3 as (op & wx & _ & _ & []).
Qed.

(** The probe in a world that changes. *)
Lemma run_env_probe (address : string) (w : World FS) :
  run_env env (probe address) w =
  match _connections w !! address with
  | None => (Raise KeyError, w)
  | Some c =>
      let w1 := env (Run c "pwd") (issue (Run c "pwd") w) in
      match link_of w1 c with
      | Up => (Ret tt, w1)
      | Down e => (Raise e, w1)
      | Silent => (Hang, w1)
      end
  end.
Proof.
  unfold probe. rewrite run_env_bind. simpl.
  destruct (_connections w !! address) as [c|]; simpl; [|reflexivity].
  unfold through. destruct (link_of _ c); reflexivity.
Qed.

Lemma probe_env (address : string) (w wp : World FS) (rp : Res unit) :
  run_env env (probe address) w = (rp, wp) ->
  _connections wp = _connections w /\ handshakes wp = handshakes w /\
  net wp = net w /\ procs wp = procs w /\ remote wp = remote w /\
  length (clients wp) = length (clients w) /\
  (forall i : nat, unlinked <$> clients wp !! i = unlinked <$> clients w !! i) /\
  (rp = Ret tt -> exists c : ref, _connections w !! address = Some c) /\
  rp <> OutOfFuel.
Proof.
  rewrite run_env_probe. destruct (_connections w !! address) as [c|].
  - cbv zeta. destruct (env_issue (Run c "pwd") w)
      as (E1c & E1l & E1n & E1calls & E1net & E1p & E1r).
    pose proof (handshakes_snoc w _ _ E1calls) as E1h. simpl in E1h.
    destruct (link_of _ c); intros Hp; injection Hp as <- <-;
      (repeat (split; [assumption|])); (split; [eauto|discriminate]).
  - intros Hp. injection Hp as <- <-.
    repeat (split; [reflexivity|]). split; [discriminate|discriminate].
Qed.

(** [_get_connection] in a world that changes, by what its probe comes
    to. *)
Lemma run_env_get_connection (address : string) (w : World FS) :
  run_env env (_get_connection address) w =
  match run_env env (probe address) w with
  | (Ret _, wp) =>
      run_env env (dict_get address)
        (printed ["Re-using existing connection to"; address] nl wp)
  | (Raise e, wp) =>
      if no_working_connection e
      then and_then (run_env env (reconnect_branch address) wp)
             (fun _ w' => run_env env (dict_get address) w')
      else (Raise e, wp)
  | (Hang, wp) => (Hang, wp)
  | (OutOfFuel, wp) => (OutOfFuel, wp)
  end.
Proof.
  rewrite get_connection_unfold, run_env_bind, run_env_try_except, run_env_bind.
  destruct (run_env env (probe address) w) as [[[]|e| |] wp]; cbn [and_then];
    try reflexivity.
  destruct (no_working_connection e); reflexivity.
Qed.

End ReconnectEnvLemmas.

(** C5, as the code has it.  When the probe fails with [KeyError] (no
    entry), [AttributeError] (the cached object is no connection) or
    [asyncssh.ChannelOpenError], the entry is removed before the handshake
    is attempted: if the handshake fails its error reaches the caller, if
    it never completes the caller stays suspended, and in both cases one
    handshake was attempted and the cache holds no entry for the address.
    A probe that fails with any other exception, a timeout among them, is
    not handled: the exception reaches the caller, the entry stays and no
    handshake is attempted.

    The reconnect has three calls, the handshake, [start_sftp_client] and
    [chdir], and a connection that answered the handshake may fail the
    next call.  In every environment that changes links while the caller
    waits, after a handled failure of the probe: one handshake is made;
    if [_get_connection] returns, it returns the new client, stored in
    the cache with its channel at the home directory; if it does not, it
    has ended in one of the three calls, with the exception of that call
    or without an answer, in the world that call left, and the cache holds
    no entry for the address. *)
Theorem get_connection_evicts_on_handled_failure {FS : Type} `{RemoteFS FS}
    (address : string) (w : World FS) (e : exn) :
  result (probe address) w = Raise e ->
  (no_working_connection e = true ->
     (forall e' : exn, net w address = Down e' ->
        exists w' : World FS,
          run (_get_connection address) w = (Raise e', w') /\
          _connections w' !! address = None /\
          handshakes w' = S (handshakes w)) /\
     (net w address = Silent ->
        exists w' : World FS,
          run (_get_connection address) w = (Hang, w') /\
          _connections w' !! address = None /\
          handshakes w' = S (handshakes w))) /\
  (no_working_connection e = false ->
     exists w' : World FS,
       run (_get_connection address) w = (Raise e, w') /\
       _connections w' = _connections w /\
       handshakes w' = handshakes w) /\
  (forall (env : Call -> World FS -> World FS) (e0 : exn) (r : Res ref)
          (w' : World FS),
     changes_links_only env ->
     fst (run_env env (probe address) w) = Raise e0 ->
     no_working_connection e0 = true ->
     run_env env (_get_connection address) w = (r, w') ->
     handshakes w' = S (handshakes w) /\
     match r with
     | Ret c =>
         c = length (clients w) /\
         _connections w' !! address = Some c /\
         unlinked <$> clients w' !! c
         = Some (mkClient address Up (Some (mkSftp _HOME false)) false)
     | _ =>
         _connections w' !! address = None /\
         ends_in_call reconnect_call r w'
     end).
Proof.
  unfold result. destruct (run (probe address) w) as [r wp] eqn:Hp.
  cbn [fst]. intros ->. destruct (probe_frame address w wp _ Hp) as (Hc & Hh & _).
  split; [intros He; split|split; [intros He|]].
  - intros e' Hn. eexists. split.
    + apply (get_connection_reconnect_fails address w wp e e' Hp He Hn).
    + split.
      * simpl. apply lookup_delete_eq.
      * rewrite handshakes_issue_connect. unfold handshakes in *. simpl. congruence.
  - intros Hn. eexists. split.
    + apply (get_connection_reconnect_stalls address w wp e Hp He Hn).
    + split.
      * simpl. apply lookup_delete_eq.
      * rewrite handshakes_issue_connect. unfold handshakes in *. simpl. congruence.
  - exists wp. split; [|auto].
    apply (get_connection_probe_propagates address w wp e Hp He).
  - clear Hp Hc Hh. intros env e0 r w' Henv Hprobe He0 Hrun.
    rewrite run_env_get_connection in Hrun.
    destruct (run_env env (probe address) w) as [rp wq] eqn:Hq.
    simpl in Hprobe. subst rp. rewrite He0 in Hrun.
    destruct (probe_env env Henv address w wq _ Hq)
      as (Qc & Qh & Qn & _ & _ & Qlen & Ql & _).
    destruct (run_env env (reconnect_branch address) wq) as [rb wb] eqn:Hb.
    destruct (reconnect_branch_env env Henv address wq wb rb Hb)
      as (Bh & _ & _ & _ & _ & Bres).
    destruct rb as [[]|e'| |]; cbn [and_then] in Hrun.
    + destruct Bres as (_ & Bc & Bnew).
      assert (Hget : run_env env (dict_get address) wb = (Ret (length (clients wq)), wb)).
      { simpl. rewrite Bc, lookup_insert_eq. reflexivity. }
      rewrite Hget in Hrun. injection Hrun as <- <-.
      split; [congruence|]. rewrite <- Qlen. split; [reflexivity|].
      split; [rewrite Bc; apply lookup_insert_eq|exact Bnew].
    + injection Hrun as <- <-. destruct Bres as (Bc & Bend).
      split; [congruence|]. split; [rewrite Bc; apply lookup_delete_eq|exact Bend].
    + injection Hrun as <- <-. destruct Bres as (Bc & Bend).
      split; [congruence|]. split; [rewrite Bc; apply lookup_delete_eq|exact Bend].
    + injection Hrun as <- <-. destruct Bres as (Bc & Bend).
      split; [congruence|]. split; [rewrite Bc; apply lookup_delete_eq|exact Bend].
Qed.

Lemma get_connection_evicts_on_handled_failure_witness :
  let w := set_net (Down OSError) (set_link 0 (Down ChannelOpenError) world1) in
  let wt := set_link 0 (Down TimeoutError) world1 in
  let wl := set_link 0 (Down ChannelOpenError) world1 in
  let lost_at_start := link_becomes is_start_sftp 1 (Down ConnectionLost) in
  let lost_at_chdir := link_becomes is_chdir 1 (Down ConnectionLost) in
  (result (probe device) w = Raise ChannelOpenError /\
   no_working_connection ChannelOpenError = true /\
   net w device = Down OSError /\
   exists w' : World Tree.FS,
     run (_get_connection device) w = (Raise OSError, w') /\
     _connections w' !! device = None /\
     handshakes w' = S (handshakes w)) /\
  (result (probe device) wt = Raise TimeoutError /\
   no_working_connection TimeoutError = false /\
   exists w' : World Tree.FS,
     run (_get_connection device) wt = (Raise TimeoutError, w') /\
     _connections w' = _connections wt /\
     handshakes w' = handshakes wt) /\
  (fst (run_env lost_at_start (_get_connection device) wl) = Raise ConnectionLost /\
   handshakes (snd (run_env lost_at_start (_get_connection device) wl))
   = S (handshakes wl) /\
   _connections (snd (run_env lost_at_start (_get_connection device) wl)) !! device
   = None /\
   last (calls (snd (run_env lost_at_start (_get_connection device) wl)))
   = Some (StartSftp 1)) /\
  (fst (run_env lost_at_chdir (_get_connection device) wl) = Raise ConnectionLost /\
   _connections (snd (run_env lost_at_chdir (_get_connection device) wl)) !! device
   = None /\
   last (calls (snd (run_env lost_at_chdir (_get_connection device) wl)))
   = Some (SftpChdir 1 _HOME)).
Proof.
  intros w wt wl lost_at_start lost_at_chdir.
  assert (Hp : result (probe device) w = Raise ChannelOpenError) by (vm_compute; reflexivity).
  assert (Hpt : result (probe device) wt = Raise TimeoutError) by (vm_compute; reflexivity).
  assert (Hpl : result (probe device) wl = Raise ChannelOpenError)
    by (vm_compute; reflexivity).
  split; [|split; [|split]].
  - split; [exact Hp|]. split; [reflexivity|]. split; [reflexivity|].
    destruct (get_connection_evicts_on_handled_failure device w ChannelOpenError Hp)
      as [Hhandled _].
    destruct (Hhandled eq_refl) as [Hfails _].
    exact (Hfails OSError eq_refl).
  - split; [exact Hpt|]. split; [reflexivity|].
    destruct (get_connection_evicts_on_handled_failure device wt TimeoutError Hpt)
      as (_ & Hother & _).
    exact (Hother eq_refl).
  - destruct (get_connection_evicts_on_handled_failure device wl ChannelOpenError Hpl)
      as (_ & _ & Henv).
    assert (Hrun : fst (run_env lost_at_start (_get_connection device) wl)
                   = Raise ConnectionLost) by (vm_compute; reflexivity).
    destruct (run_env lost_at_start (_get_connection device) wl) as [r w'] eqn:Hr.
    simpl in Hrun. subst r.
    destruct (Henv lost_at_start ChannelOpenError (Raise ConnectionLost) w'
                (link_becomes_changes_links_only _ _ _)
                ltac:(vm_compute; reflexivity) eq_refl Hr) as (Hh & Hnone & _).
    split; [reflexivity|]. split; [exact Hh|]. split; [exact Hnone|].
    change w' with (snd (Raise (A := ref) ConnectionLost, w')). rewrite <- Hr.
    vm_compute. reflexivity.
  - destruct (get_connection_evicts_on_handled_failure device wl ChannelOpenError Hpl)
      as (_ & _ & Henv).
    assert (Hrun : fst (run_env lost_at_chdir (_get_connection device) wl)
                   = Raise ConnectionLost) by (vm_compute; reflexivity).
    destruct (run_env lost_at_chdir (_get_connection device) wl) as [r w'] eqn:Hr.
    simpl in Hrun. subst r.
    destruct (Henv lost_at_chdir ChannelOpenError (Raise ConnectionLost) w'
                (link_becomes_changes_links_only _ _ _)
                ltac:(vm_compute; reflexivity) eq_refl Hr) as (_ & Hnone & _).
    split; [reflexivity|]. split; [exact Hnone|].
    change w' with (snd (Raise (A := ref) ConnectionLost, w')). rewrite <- Hr.
    vm_compute. reflexivity.
Defined.

(** C5 as stated fails for a timeout.  On a cached handle whose probe
    ends in [TimeoutError], [_get_connection] raises that error to the
    caller, leaves the entry in the cache and attempts no reconnect; on
    one whose probe is never answered it waits for ever, the entry still
    in the cache. *)
Lemma get_connection_timeout_keeps_entry :
  let w := set_link 0 (Down TimeoutError) world1 in
  let v := set_link 0 Silent world1 in
  _connections w !! device = Some 0 /\
  result (probe device) w = Raise TimeoutError /\
  result (_get_connection device) w = Raise TimeoutError /\
  _connections (after (_get_connection device) w) !! device <> None /\
  handshakes (after (_get_connection device) w) = handshakes w /\
  result (_get_connection device) v = Hang /\
  _connections (after (_get_connection device) v) !! device <> None /\
  handshakes (after (_get_connection device) v) = handshakes v.
Proof.
  vm_compute. repeat split; discriminate.
Qed.

(** ** Sessions *)

Section DisconnectLemmas.

Context {FS : Type} `{RemoteFS FS}.

Lemma run_disconnect (self : EV3SSH) (w : World FS) :
  run (disconnect self) w =
  match client self with
  | None => (Raise AttributeError, w)
  | Some c =>
      match clients w !! c ≫= c_sftp with
      | None => (Raise AttributeError, w)
      | Some _ => (Ret tt, disconnected c w)
      end
  end.
Proof.
  unfold disconnect, self_client_sftp, getattr_client.
  destruct (client self) as [c|]; simpl; auto.
  destruct (clients w !! c ≫= c_sftp); reflexivity.
Qed.

Lemma clients_disconnected (c : ref) (w : World FS) :
  clients (disconnected c w) =
  alter with_closed c
    (alter (fun cl =>
       with_sftp (option_map (fun s => mkSftp (sftp_cwd s) true) (c_sftp cl)) cl) c
       (clients w)).
Proof. reflexivity. Qed.

End DisconnectLemmas.

(** C4, as the code has it.  On a session whose client has its [sftp]
    attribute, [disconnect] calls [sftp.exit()] and then [close()], in this
    order and nothing else, and returns; afterwards the channel is exited
    and the connection closed.  The cache [_connections] is not touched:
    an entry that was there for the address is still there. *)
Theorem disconnect_closes_channel_then_connection {FS : Type} `{RemoteFS FS}
    (self : EV3SSH) (w : World FS) (c : ref) (s : Sftp) (address : string) :
  client self = Some c ->
  clients w !! c ≫= c_sftp = Some s ->
  _connections w !! address = Some c ->
  exists w' : World FS,
    run (disconnect self) w = (Ret tt, w') /\
    calls w' = calls w ++ [SftpExit c; Close c] /\
    clients w' !! c ≫= c_sftp = Some (mkSftp (sftp_cwd s) true) /\
    c_closed <$> clients w' !! c = Some true /\
    _connections w' = _connections w /\
    _connections w' !! address = Some c.
Proof.
  intros Hself Hs Hcache. exists (disconnected c w).
  rewrite run_disconnect, Hself, Hs.
  split; [reflexivity|].
  split; [simpl; rewrite <- app_assoc; reflexivity|].
  rewrite clients_disconnected, !list_lookup_alter_eq.
  destruct (clients w !! c) as [[a l o b]|]; [|discriminate].
  simpl in Hs. subst o. repeat split; try reflexivity; exact Hcache.
Qed.

Lemma disconnect_closes_channel_then_connection_witness :
  client session1 = Some 0 /\
  clients world1 !! 0 ≫= c_sftp = Some (mkSftp _HOME false) /\
  _connections world1 !! device = Some 0 /\
  exists w' : World Tree.FS,
    run (disconnect session1) world1 = (Ret tt, w') /\
    calls w' = calls world1 ++ [SftpExit 0; Close 0] /\
    clients w' !! 0 ≫= c_sftp = Some (mkSftp (sftp_cwd (mkSftp _HOME false)) true) /\
    c_closed <$> clients w' !! 0 = Some true /\
    _connections w' = _connections world1 /\
    _connections w' !! device = Some 0.
Proof.
  assert (H1 : clients world1 !! 0 ≫= c_sftp = Some (mkSftp _HOME false))
    by (vm_compute; reflexivity).
  assert (H2 : _connections world1 !! device = Some 0) by (vm_compute; reflexivity).
  split; [reflexivity|]. split; [exact H1|]. split; [exact H2|].
  exact (disconnect_closes_channel_then_connection session1 world1 0 _ device eq_refl H1 H2).
Defined.

(** C4 as stated fails: after [connect] and [disconnect] the cache still
    holds the entry of the address, now for a closed connection. *)
Lemma disconnect_leaves_cache_entry :
  run (connect session0 device) world0 = (Ret session1, world1) /\
  result (disconnect session1) world1 = Ret tt /\
  _connections (after (disconnect session1) world1) !! device = Some 0 /\
  _connections (after (disconnect session1) world1) !! device <> None.
Proof.
  vm_compute. repeat split; discriminate.
Qed.

(** ** What [pybricks] leaves alone *)

Section FrameLemmas.

Context {FS : Type} `{RemoteFS FS}.

Lemma keeps_run (I : World FS -> Prop) {A : Type} (c : Co FS A) :
  Keeps I c -> forall w : World FS, I w -> I (snd (run c w)).
Proof.
  induction 1 as [a|e| |k Hk IH|w0 k Hw0 Hk IH|op k Hop Hk IH|op t k Hop Hk IH];
    intros w Hw; simpl; auto.
  - specialize (Hop w Hw). destruct (effect op (issue op w)) as [o w1].
    destruct (resume o None); simpl in *; auto.
  - specialize (Hop w Hw). destruct (effect op (issue op w)) as [o w1].
    destruct (resume o t); simpl in *; auto.
Qed.

Lemma keeps_bind (I : World FS -> Prop) {A B : Type} (m : Co FS A) (f : A -> Co FS B) :
  Keeps I m -> (forall a, Keeps I (f a)) -> Keeps I (bind m f).
Proof.
  intros Hm Hf. induction Hm; simpl; auto; constructor; auto.
Qed.

Lemma keeps_try_except (I : World FS -> Prop) {A : Type} (m : Co FS A)
    (classes : exn -> bool) (h : Co FS A) :
  Keeps I m -> Keeps I h -> Keeps I (try_except m classes h).
Proof.
  intros Hm Hh. induction Hm; simpl; try (constructor; auto; fail).
  destruct (classes e); [exact Hh|constructor].
Qed.

Lemma keeps_finally (I : World FS -> Prop) {A : Type} (m : Co FS A) (cleanup : Co FS unit) :
  Keeps I m -> Keeps I cleanup -> Keeps I (finally m cleanup).
Proof.
  intros Hm Hc. induction Hm; simpl; try (constructor; auto; fail).
  - apply keeps_bind; [exact Hc|intros; constructor].
  - apply keeps_bind; [exact Hc|intros; constructor].
Qed.

Lemma keeps_reply (I : World FS -> Prop) {X : Type} (r : Reply X) :
  Keeps I (reply (FS := FS) r).
Proof. destruct r; constructor. Qed.

Lemma through_clients {X : Type} (l : Link) (w : World FS)
    (served : Outcome X * World FS) (cs : list Client) :
  clients w = cs ->
  clients (snd served) = cs ->
  clients (snd (through l w served)) = cs.
Proof. destruct l; simpl; auto. Qed.

(** The calls [pybricks] makes do not change any client object. *)
Lemma deploy_call_clients (op : Call) (w : World FS) :
  deploy_call op = true ->
  clients (snd (effect op (issue op w))) = clients w.
Proof.
  destruct op; try discriminate; intros _; simpl.
  - apply through_clients; reflexivity.
  - apply through_clients; [reflexivity|]. destruct (fs_mkdir _ _); reflexivity.
  - apply through_clients; [reflexivity|]. destruct (fs_put _ _); reflexivity.
  - apply through_clients; reflexivity.
  - destruct (procs w !! p) as [pr|]; [|reflexivity].
    destruct (read_line (arrive pr)). reflexivity.
  - reflexivity.
Qed.

Lemma keeps_deploy_await (cs : list Client) (op : Call) (t : option N) :
  deploy_call op = true -> Keeps (clients_are cs) (Await op t reply).
Proof.
  intros Hop. constructor.
  - intros w Hw. unfold clients_are in *.
    rewrite (deploy_call_clients op w Hop). exact Hw.
  - intros r. apply keeps_reply.
Qed.

Ltac keeps_call :=
  match goal with
  | |- Keeps _ (await ?op) => exact (keeps_deploy_await _ op None eq_refl)
  | |- Keeps _ (wait_for ?op ?t) => exact (keeps_deploy_await _ op (Some t) eq_refl)
  end.

Lemma keeps_print (cs : list Client) (args : list string) (end_ : string) :
  Keeps (clients_are cs) (print (FS := FS) args end_).
Proof.
  unfold print, modify. constructor. intros w Hw.
  constructor; [exact Hw|constructor].
Qed.

Lemma keeps_self_client_sftp (cs : list Client) (self : EV3SSH) :
  Keeps (clients_are cs) (self_client_sftp (FS := FS) self).
Proof.
  unfold self_client_sftp, getattr_client, getattr_sftp.
  destruct (client self) as [c|]; simpl; [|constructor].
  constructor. intros w _. destruct (clients w !! c ≫= c_sftp); constructor.
Qed.

Lemma keeps_mkdir_loop (cs : list Client) (self : EV3SSH) (names : list string) :
  forall total : string,
    Keeps (clients_are cs) (pybricks_mkdir_loop (FS := FS) self total names).
Proof.
  induction names as [|name names IH]; intros total; [constructor|].
  cbn [pybricks_mkdir_loop].
  apply keeps_bind; [apply keeps_self_client_sftp|intros c].
  apply keeps_bind; [keeps_call|intros found].
  apply keeps_bind; [|intros _; apply IH].
  destruct found; simpl; [constructor|].
  apply keeps_bind; [apply keeps_self_client_sftp|intros c'].
  keeps_call.
Qed.

Lemma keeps_make_dirs (cs : list Client) (self : EV3SSH) (dirs : string) :
  Keeps (clients_are cs) (pybricks_make_dirs (FS := FS) self dirs).
Proof.
  unfold pybricks_make_dirs.
  apply keeps_bind; [apply keeps_self_client_sftp|intros c].
  apply keeps_bind; [keeps_call|intros found].
  destruct found; simpl; [constructor|apply keeps_mkdir_loop].
Qed.

Lemma keeps_poll (cs : list Client) (p : ref) (fuel : nat) :
  Keeps (clients_are cs) (pybricks_poll (FS := FS) fuel p).
Proof.
  induction fuel as [|fuel IH]; [constructor|].
  cbn [pybricks_poll]. apply keeps_bind.
  - unfold exit_status. constructor. intros w _.
    destruct (procs w !! p); constructor.
  - intros [st|]; [constructor|].
    apply keeps_bind; [|intros _; exact IH].
    apply keeps_try_except; [|constructor].
    apply keeps_bind; [keeps_call|intros line].
    apply keeps_print.
Qed.

(** Whatever [pybricks] does and however it ends, the client objects are
    afterwards what they were. *)
Lemma pybricks_keeps_clients (fuel : nat) (self : EV3SSH) (file_path : string)
    (w : World FS) :
  clients (after (pybricks fuel self file_path) w) = clients w.
Proof.
  apply (keeps_run (clients_are (clients w))); [|reflexivity].
  unfold pybricks. destruct (Path.split file_path) as [dirs file_name].
  apply keeps_bind; [apply keeps_make_dirs|intros _].
  unfold pybricks_send_and_run.
  apply keeps_bind; [apply keeps_self_client_sftp|intros c].
  apply keeps_bind; [keeps_call|intros _].
  apply keeps_bind; [apply keeps_print|intros _].
  apply keeps_bind.
  { unfold getattr_client. destruct (client self); constructor. }
  intros c'.
  apply keeps_bind; [keeps_call|intros process].
  apply keeps_finally; [apply keeps_poll|].
  keeps_call.
Qed.

End FrameLemmas.

(** C6, as the code has it.  [disconnect] has no [try]: it returns when
    the session has a client that has its [sftp] attribute, and so it does
    after a [pybricks] on that session, however that ended; when
    [self.client] was never set, or the client has no [sftp] attribute,
    [AttributeError] reaches the caller and nothing is closed. *)
Theorem disconnect_raises_without_channel {FS : Type} `{RemoteFS FS}
    (self : EV3SSH) (w : World FS) :
  (forall (c : ref) (s : Sftp),
      client self = Some c -> clients w !! c ≫= c_sftp = Some s ->
      result (disconnect self) w = Ret tt /\
      forall (fuel : nat) (file_path : string),
        result (disconnect self) (after (pybricks fuel self file_path) w) = Ret tt) /\
  (client self = None ->
      run (disconnect self) w = (Raise AttributeError, w)) /\
  (forall c : ref,
      client self = Some c -> clients w !! c ≫= c_sftp = None ->
      run (disconnect self) w = (Raise AttributeError, w)).
Proof.
  unfold result. split; [|split].
  - intros c s Hself Hs. split.
    + rewrite run_disconnect, Hself, Hs. reflexivity.
    + intros fuel file_path.
      rewrite run_disconnect, Hself, pybricks_keeps_clients, Hs. reflexivity.
  - intros Hself. rewrite run_disconnect, Hself. reflexivity.
  - intros c Hself Hs. rewrite run_disconnect, Hself, Hs. reflexivity.
Qed.

Lemma disconnect_raises_without_channel_witness :
  (client session1 = Some 0 /\
   clients world1 !! 0 ≫= c_sftp = Some (mkSftp _HOME false) /\
   result (disconnect session1) world1 = Ret tt /\
   result (pybricks 5 session1 "demo/hello.py") (set_all_remote [] world1)
     = Raise SFTPError /\
   result (disconnect session1)
     (after (pybricks 5 session1 "demo/hello.py") (set_all_remote [] world1)) = Ret tt) /\
  (client session0 = None /\
   run (disconnect session0) world0 = (Raise AttributeError, world0)).
Proof.
  assert (H1 : clients world1 !! 0 ≫= c_sftp = Some (mkSftp _HOME false))
    by (vm_compute; reflexivity).
  assert (H2 : clients (set_all_remote [] world1) !! 0 ≫= c_sftp
               = Some (mkSftp _HOME false)) by (vm_compute; reflexivity).
  split.
  - split; [reflexivity|]. split; [exact H1|].
    destruct (disconnect_raises_without_channel session1 world1) as (Hok & _ & _).
    split; [exact (proj1 (Hok 0 _ eq_refl H1))|].
    split; [vm_compute; reflexivity|].
    destruct (disconnect_raises_without_channel session1 (set_all_remote [] world1))
      as (Hok' & _ & _).
    exact (proj2 (Hok' 0 _ eq_refl H2) 5 "demo/hello.py").
  - split; [reflexivity|].
    destruct (disconnect_raises_without_channel session0 world0) as (_ & Hnone & _).
    exact (Hnone eq_refl).
Defined.

(** C6 as stated fails: when [connect] has failed, the session has no
    client and [disconnect] raises [AttributeError] to its caller. *)
Lemma disconnect_raises_after_failed_connect :
  let w := set_net (Down OSError) world0 in
  result (connect session0 device) w = Raise OSError /\
  result (disconnect session0) (after (connect session0 device) w)
    = Raise AttributeError.
Proof.
  vm_compute. split; reflexivity.
Qed.

(** ** Remote directories *)

Section SyncLemmas.

Context {FS : Type} `{RemoteFS FS}.

Lemma sftp_up_attr (w : World FS) (c : ref) :
  sftp_link_of w c = Up -> exists s : Sftp, clients w !! c ≫= c_sftp = Some s.
Proof.
  unfold sftp_link_of. destruct (clients w !! c) as [cl|]; [|discriminate].
  simpl. destruct (c_sftp cl) as [s|]; [eauto|discriminate].
Qed.

Lemma run_self_client_sftp (self : EV3SSH) (w : World FS) (c : ref) :
  client self = Some c -> sftp_link_of w c = Up ->
  run (self_client_sftp self) w = (Ret c, w).
Proof.
  intros Hs Hl. destruct (sftp_up_attr w c Hl) as [s Hattr].
  unfold self_client_sftp, getattr_client. rewrite Hs. simpl. rewrite Hattr.
  reflexivity.
Qed.

Lemma run_await_exists (w : World FS) (c : ref) (p : string) :
  sftp_link_of w c = Up ->
  run (await (SftpExists c p)) w =
    (Ret (fs_exists (remote w (address_of w c)) p), issue (SftpExists c p) w).
Proof.
  intros Hl. simpl. rewrite sftp_link_of_issue, Hl. reflexivity.
Qed.

Lemma run_await_mkdir (w : World FS) (c : ref) (p : string) :
  sftp_link_of w c = Up ->
  run (A := unit) (await (SftpMkdir c p)) w =
    match fs_mkdir (remote w (address_of w c)) p with
    | Some fs' => (Ret tt, made c p fs' w)
    | None => (Raise SFTPError, issue (SftpMkdir c p) w)
    end.
Proof.
  intros Hl. simpl. rewrite sftp_link_of_issue, Hl. simpl.
  change (address_of (issue (SftpMkdir c p) w) c) with (address_of w c).
  destruct (fs_mkdir (remote w (address_of w c)) p); reflexivity.
Qed.

(** One iteration of the [for] loop. *)
Lemma run_mkdir_loop_cons (self : EV3SSH) (c : ref) (total name : string)
    (names : list string) (w : World FS) :
  client self = Some c -> sftp_link_of w c = Up ->
  run (pybricks_mkdir_loop self total (name :: names)) w =
    let total' := Path.join total name in
    let p := Path.join _HOME total' in
    let w1 := issue (SftpExists c p) w in
    if fs_exists (remote w (address_of w c)) p
    then run (pybricks_mkdir_loop self total' names) w1
    else match fs_mkdir (remote w (address_of w c)) p with
         | Some fs' => run (pybricks_mkdir_loop self total' names) (made c p fs' w1)
         | None => (Raise SFTPError, issue (SftpMkdir c p) w1)
         end.
Proof.
  intros Hs Hl.
  change (pybricks_mkdir_loop self total (name :: names)) with
    (bind (FS := FS) (self_client_sftp self) (fun c =>
     bind (await (SftpExists c (Path.join _HOME (Path.join total name)))) (fun found =>
     bind (if negb found
           then bind (self_client_sftp self) (fun c =>
                  await (SftpMkdir c (Path.join _HOME (Path.join total name))))
           else ret tt) (fun _ =>
     pybricks_mkdir_loop self (Path.join total name) names)))).
  rewrite run_bind, (run_self_client_sftp self w c Hs Hl). cbn [and_then].
  rewrite run_bind, (run_await_exists w c _ Hl). cbn [and_then].
  rewrite run_bind. cbv zeta.
  destruct (fs_exists (remote w (address_of w c)) _); cbn [negb].
  - reflexivity.
  - rewrite run_bind, (run_self_client_sftp self _ c Hs); [|exact Hl].
    cbn [and_then]. rewrite run_await_mkdir; [|exact Hl].
    change (remote (issue ?op w)) with (remote w).
    change (address_of (issue ?op w) c) with (address_of w c).
    destruct (fs_mkdir (remote w (address_of w c)) _); reflexivity.
Qed.

Lemma remote_made_same (c : ref) (p : string) (fs' : FS) (w : World FS) :
  remote (made c p fs' w) (address_of w c) = fs'.
Proof. unfold made. simpl. rewrite String.eqb_refl. reflexivity. Qed.

(** A run of the loop that returns has created or found every prefix, has
    removed nothing, and has made only guarded calls. *)
Lemma mkdir_loop_creates (self : EV3SSH) (c : ref) (names : list string) :
  client self = Some c ->
  forall (total : string) (w w' : World FS),
    sftp_link_of w c = Up ->
    run (pybricks_mkdir_loop self total names) w = (Ret tt, w') ->
    clients w' = clients w /\
    (forall q, fs_exists (remote w (address_of w c)) q = true ->
               fs_exists (remote w' (address_of w c)) q = true) /\
    Forall (fun p => fs_exists (remote w' (address_of w c)) p = true)
           (prefixes total names) /\
    exists new : list Call, calls w' = calls w ++ new /\ Guarded new.
Proof.
  intros Hs. induction names as [|name names IH]; intros total w w' Hl Hrun.
  - simpl in Hrun. injection Hrun as <-. repeat split; auto.
    exists []. rewrite app_nil_r. split; [reflexivity|constructor].
  - rewrite (run_mkdir_loop_cons self c total name names w Hs Hl) in Hrun.
    cbv zeta in Hrun. cbn [prefixes].
    set (total' := Path.join total name) in *.
    set (p := Path.join _HOME total') in *.
    destruct (fs_exists (remote w (address_of w c)) p) eqn:Hfound.
    + apply IH in Hrun; [|exact Hl].
      destruct Hrun as (Hcl & Hmono & Hall & new & Hcalls & Hg).
      repeat split; auto.
      exists (SftpExists c p :: new). split.
      * rewrite Hcalls. simpl. rewrite <- app_assoc. reflexivity.
      * constructor. exact Hg.
    + destruct (fs_mkdir (remote w (address_of w c)) p) as [fs'|] eqn:Hmk;
        [|discriminate].
      apply IH in Hrun; [|exact Hl].
      change (address_of (made c p fs' (issue (SftpExists c p) w)) c)
        with (address_of w c) in Hrun.
      destruct Hrun as (Hcl & Hmono & Hall & new & Hcalls & Hg).
      assert (Hfs : remote (made c p fs' (issue (SftpExists c p) w)) (address_of w c) = fs')
        by exact (remote_made_same c p fs' (issue (SftpExists c p) w)).
      rewrite Hfs in Hmono.
      repeat split; auto.
      * intros q Hq. apply Hmono. eapply fs_mkdir_mono; eauto.
      * constructor; [|exact Hall]. apply Hmono. eapply fs_mkdir_exists; eauto.
      * exists (SftpExists c p :: SftpMkdir c p :: new). split.
        -- rewrite Hcalls. simpl. rewrite <- !app_assoc. reflexivity.
        -- apply guarded_mkdir. exact Hg.
Qed.

(** On prefixes that all exist the loop only checks. *)
Lemma mkdir_loop_existing (self : EV3SSH) (c : ref) (names : list string) :
  client self = Some c ->
  forall (total : string) (w : World FS),
    sftp_link_of w c = Up ->
    Forall (fun p => fs_exists (remote w (address_of w c)) p = true)
           (prefixes total names) ->
    exists w' : World FS,
      run (pybricks_mkdir_loop self total names) w = (Ret tt, w') /\
      calls w' = calls w ++ map (SftpExists c) (prefixes total names) /\
      remote w' = remote w /\
      clients w' = clients w.
Proof.
  intros Hs. induction names as [|name names IH]; intros total w Hl Hall.
  - exists w. simpl. rewrite app_nil_r. auto.
  - rewrite (run_mkdir_loop_cons self c total name names w Hs Hl).
    cbn [prefixes] in *. cbv zeta.
    set (total' := Path.join total name) in *.
    set (p := Path.join _HOME total') in *.
    inversion Hall as [|? ? Hp Hrest]; subst.
    rewrite Hp.
    destruct (IH total' (issue (SftpExists c p) w) Hl Hrest)
      as (w' & Hrun & Hcalls & Hrem & Hcl).
    exists w'. split; [exact Hrun|]. split; [|auto].
    rewrite Hcalls. simpl. rewrite <- app_assoc. reflexivity.
Qed.

Lemma mkdirs_app_exists (l : list Call) (c : ref) (ps : list string) :
  length (List.filter is_mkdir (l ++ map (SftpExists c) ps)) =
  length (List.filter is_mkdir l).
Proof.
  rewrite List.filter_app, length_app.
  assert (Hnil : List.filter is_mkdir (map (SftpExists c) ps) = []).
  { induction ps as [|p ps IHps]; simpl; auto. }
  rewrite Hnil. simpl. lia.
Qed.

(** The directory step begins with the check of the whole parent. *)
Lemma run_make_dirs (self : EV3SSH) (c : ref) (dirs : string) (w : World FS) :
  client self = Some c -> sftp_link_of w c = Up ->
  run (pybricks_make_dirs self dirs) w =
    let w1 := issue (SftpExists c (Path.join _HOME dirs)) w in
    if fs_exists (remote w (address_of w c)) (Path.join _HOME dirs)
    then (Ret tt, w1)
    else run (pybricks_mkdir_loop self "" (Path.str_split dirs)) w1.
Proof.
  intros Hs Hl. unfold pybricks_make_dirs.
  rewrite run_bind, (run_self_client_sftp self w c Hs Hl). cbn [and_then].
  rewrite run_bind, (run_await_exists w c _ Hl). cbn [and_then]. cbv zeta.
  destruct (fs_exists (remote w (address_of w c)) _); reflexivity.
Qed.

(** A directory step that returns was run on a session with a client whose
    file-transfer channel answers. *)
Lemma make_dirs_returns_connected (self : EV3SSH) (dirs : string) (w w1 : World FS) :
  run (pybricks_make_dirs self dirs) w = (Ret tt, w1) ->
  exists c : ref, client self = Some c /\ sftp_link_of w c = Up.
Proof.
  unfold pybricks_make_dirs, self_client_sftp, getattr_client.
  destruct (client self) as [c|]; [|discriminate].
  intros Hrun. exists c. split; [reflexivity|].
  rewrite !run_bind in Hrun. simpl in Hrun.
  destruct (clients w !! c ≫= c_sftp); [|discriminate].
  simpl in Hrun. rewrite sftp_link_of_issue in Hrun.
  destruct (sftp_link_of w c); [reflexivity|discriminate|discriminate].
Qed.

End SyncLemmas.

Section SessionFrame.

Context {FS : Type} `{RemoteFS FS}.

(** Links and addresses are read off the client objects alone. *)
Lemma sftp_link_of_clients (w w' : World FS) (c : ref) :
  clients w' = clients w -> sftp_link_of w' c = sftp_link_of w c.
Proof. unfold sftp_link_of. intros ->. reflexivity. Qed.

Lemma address_of_clients (w w' : World FS) (c : ref) :
  clients w' = clients w -> address_of w' c = address_of w c.
Proof. unfold address_of. intros ->. reflexivity. Qed.

Lemma mkdirs_issue_exists (c : ref) (p : string) (w : World FS) :
  mkdirs (issue (SftpExists c p) w) = mkdirs w.
Proof.
  unfold mkdirs. simpl. rewrite List.filter_app, length_app. simpl. lia.
Qed.

End SessionFrame.

(** C2. Whenever the directory step of [pybricks] has returned for a path,
    running it again for the same path returns too and makes no [mkdir]:
    all it calls are existence checks, and the remote file system is left
    as it was.  In the first run every [mkdir] came right after the
    existence check of the same path. *)
Theorem make_dirs_twice_makes_no_mkdir {FS : Type} `{RemoteFS FS}
    (self : EV3SSH) (file_path : string) (w w1 : World FS) :
  let dirs := fst (Path.split file_path) in
  run (pybricks_make_dirs self dirs) w = (Ret tt, w1) ->
  (exists new : list Call, calls w1 = calls w ++ new /\ Guarded new) /\
  exists (w2 : World FS) (c : ref) (checked : list string),
    run (pybricks_make_dirs self dirs) w1 = (Ret tt, w2) /\
    calls w2 = calls w1 ++ map (SftpExists c) checked /\
    (checked = [Path.join _HOME dirs] \/
     checked = Path.join _HOME dirs :: prefixes "" (Path.str_split dirs)) /\
    mkdirs w2 = mkdirs w1 /\
    remote w2 = remote w1.
Proof.
  intros dirs Hrun.
  destruct (make_dirs_returns_connected self dirs w w1 Hrun) as (c & Hs & Hl).
  rewrite (run_make_dirs self c dirs w Hs Hl) in Hrun. cbv zeta in Hrun.
  set (top := Path.join _HOME dirs) in *.
  destruct (fs_exists (remote w (address_of w c)) top) eqn:Htop.
  - (* the parent was there: one check, both times *)
    injection Hrun as <-. split.
    + exists [SftpExists c top]. split; [reflexivity|repeat constructor].
    + exists (issue (SftpExists c top) (issue (SftpExists c top) w)), c, [top].
      rewrite (run_make_dirs self c dirs _ Hs); [|exact Hl]. cbv zeta. fold top.
      change (fs_exists (remote w (address_of w c)) top = true) in Htop.
      change (remote (issue (SftpExists c top) w)) with (remote w).
      change (address_of (issue (SftpExists c top) w) c) with (address_of w c).
      rewrite Htop. split; [reflexivity|]. split; [reflexivity|].
      split; [left; reflexivity|]. split; [apply mkdirs_issue_exists|reflexivity].
  - (* the loop ran: every prefix exists now *)
    apply (mkdir_loop_creates self c _ Hs) in Hrun; [|exact Hl].
    change (address_of (issue (SftpExists c top) w) c) with (address_of w c) in Hrun.
    destruct Hrun as (Hcl & _ & Hall & new & Hcalls & Hg).
    assert (Hl1 : sftp_link_of w1 c = Up).
    { rewrite (sftp_link_of_clients _ w1 c Hcl). exact Hl. }
    assert (Ha1 : address_of w1 c = address_of w c).
    { rewrite (address_of_clients _ w1 c Hcl). reflexivity. }
    split.
    + exists (SftpExists c top :: new). split; [|constructor; exact Hg].
      rewrite Hcalls. simpl. rewrite <- app_assoc. reflexivity.
    + rewrite (run_make_dirs self c dirs w1 Hs Hl1). cbv zeta. fold top.
      destruct (fs_exists (remote w1 (address_of w1 c)) top).
      * exists (issue (SftpExists c top) w1), c, [top].
        split; [reflexivity|]. split; [reflexivity|].
        split; [left; reflexivity|]. split; [apply mkdirs_issue_exists|reflexivity].
      * destruct (mkdir_loop_existing self c (Path.str_split dirs) Hs ""
                    (issue (SftpExists c top) w1) Hl1) as (w2 & Hrun2 & Hc2 & Hr2 & _).
        { change (address_of (issue (SftpExists c top) w1) c) with (address_of w1 c).
          rewrite Ha1. exact Hall. }
        exists w2, c, (top :: prefixes "" (Path.str_split dirs)).
        split; [exact Hrun2|]. split; [|split; [right; reflexivity|split]].
        -- rewrite Hc2. simpl. rewrite <- app_assoc. reflexivity.
        -- unfold mkdirs. rewrite Hc2, mkdirs_app_exists.
           apply mkdirs_issue_exists.
        -- exact Hr2.
Qed.

Lemma make_dirs_twice_makes_no_mkdir_witness :
  let w1 := after (pybricks_make_dirs session1 "demo") world1 in
  run (pybricks_make_dirs session1 (fst (Path.split "demo/hello.py"))) world1
    = (Ret tt, w1) /\
  mkdirs w1 = 1 /\
  exists (w2 : World Tree.FS) (c : ref) (checked : list string),
    run (pybricks_make_dirs session1 (fst (Path.split "demo/hello.py"))) w1
      = (Ret tt, w2) /\
    calls w2 = calls w1 ++ map (SftpExists c) checked /\
    (checked = ["/home/robot/demo"] \/
     checked = "/home/robot/demo" :: prefixes "" (Path.str_split "demo")) /\
    mkdirs w2 = mkdirs w1 /\
    remote w2 = remote w1.
Proof.
  intros w1.
  assert (Hrun : run (pybricks_make_dirs session1 (fst (Path.split "demo/hello.py"))) world1
                 = (Ret tt, w1)) by (vm_compute; reflexivity).
  split; [exact Hrun|]. split; [vm_compute; reflexivity|].
  exact (proj2 (make_dirs_twice_makes_no_mkdir session1 "demo/hello.py" world1 w1 Hrun)).
Defined.

(** C10. If the whole remote parent directory of the file exists when
    [pybricks] is called on a connected session, the directory step makes
    exactly one call, the existence check of that directory: no check per
    prefix, no [mkdir], the remote file system unchanged; [pybricks] goes
    on with the upload in that world. *)
Theorem make_dirs_skips_loop_when_parent_exists {FS : Type} `{RemoteFS FS}
    (fuel : nat) (self : EV3SSH) (c : ref) (file_path : string) (w : World FS) :
  let dirs := fst (Path.split file_path) in
  let w1 := issue (SftpExists c (Path.join _HOME dirs)) w in
  client self = Some c ->
  sftp_link_of w c = Up ->
  fs_exists (remote w (address_of w c)) (Path.join _HOME dirs) = true ->
  run (pybricks_make_dirs self dirs) w = (Ret tt, w1) /\
  calls w1 = calls w ++ [SftpExists c (Path.join _HOME dirs)] /\
  mkdirs w1 = mkdirs w /\
  remote w1 = remote w /\
  run (pybricks fuel self file_path) w = run (pybricks_send_and_run fuel self file_path) w1.
Proof.
  intros dirs w1 Hs Hl Hex.
  assert (Hrun : run (pybricks_make_dirs self dirs) w = (Ret tt, w1)).
  { rewrite (run_make_dirs self c dirs w Hs Hl). cbv zeta. rewrite Hex. reflexivity. }
  split; [exact Hrun|]. split; [reflexivity|].
  split; [apply mkdirs_issue_exists|]. split; [reflexivity|].
  unfold pybricks. subst dirs. destruct (Path.split file_path) as [d f].
  simpl fst in *. rewrite run_bind, Hrun. reflexivity.
Qed.

Lemma make_dirs_skips_loop_when_parent_exists_witness :
  let w := after (pybricks_make_dirs session1 "demo") world1 in
  let w1 := issue (SftpExists 0 "/home/robot/demo") w in
  client session1 = Some 0 /\
  sftp_link_of w 0 = Up /\
  fs_exists (remote w (address_of w 0)) "/home/robot/demo" = true /\
  run (pybricks_make_dirs session1 "demo") w = (Ret tt, w1) /\
  calls w1 = calls w ++ [SftpExists 0 "/home/robot/demo"] /\
  mkdirs w1 = mkdirs w /\
  remote w1 = remote w /\
  run (pybricks 5 session1 "demo/hello.py") w
    = run (pybricks_send_and_run 5 session1 "demo/hello.py") w1.
Proof.
  intros w w1.
  assert (Hl : sftp_link_of w 0 = Up) by (vm_compute; reflexivity).
  assert (Hex : fs_exists (remote w (address_of w 0))
                  (Path.join _HOME (fst (Path.split "demo/hello.py"))) = true)
    by (vm_compute; reflexivity).
  split; [reflexivity|]. split; [exact Hl|]. split; [exact Hex|].
  exact (make_dirs_skips_loop_when_parent_exists 5 session1 0 "demo/hello.py" w eq_refl Hl Hex).
Defined.

(** C7, as the code has it.  For a file path with an empty directory part
    the directory of the check is the remote home itself,
    ["/home/robot/"]; when it exists on the device, the directory step is
    that one check: the loop is not entered and no [mkdir] is made.  The
    loop is skipped by the check, not for want of segments: [''.split('/')]
    is the one-element list [['']]. *)
Theorem make_dirs_root_file_checks_home_only {FS : Type} `{RemoteFS FS}
    (self : EV3SSH) (c : ref) (file_path : string) (w : World FS) :
  fst (Path.split file_path) = "" ->
  client self = Some c ->
  sftp_link_of w c = Up ->
  fs_exists (remote w (address_of w c)) "/home/robot/" = true ->
  run (pybricks_make_dirs self (fst (Path.split file_path))) w
    = (Ret tt, issue (SftpExists c "/home/robot/") w) /\
  mkdirs (issue (SftpExists c "/home/robot/") w) = mkdirs w /\
  Path.str_split (fst (Path.split file_path)) = [""].
Proof.
  intros -> Hs Hl Hex. split; [|split].
  - rewrite (run_make_dirs self c "" w Hs Hl). cbv zeta.
    change (Path.join _HOME "") with "/home/robot/". rewrite Hex. reflexivity.
  - apply mkdirs_issue_exists.
  - reflexivity.
Qed.

Lemma make_dirs_root_file_checks_home_only_witness :
  fst (Path.split "hello.py") = "" /\
  client session1 = Some 0 /\
  sftp_link_of world1 0 = Up /\
  fs_exists (remote world1 (address_of world1 0)) "/home/robot/" = true /\
  run (pybricks_make_dirs session1 (fst (Path.split "hello.py"))) world1
    = (Ret tt, issue (SftpExists 0 "/home/robot/") world1) /\
  mkdirs (issue (SftpExists 0 "/home/robot/") world1) = mkdirs world1 /\
  Path.str_split (fst (Path.split "hello.py")) = [""].
Proof.
  assert (Hl : sftp_link_of world1 0 = Up) by (vm_compute; reflexivity).
  assert (Hex : fs_exists (remote world1 (address_of world1 0)) "/home/robot/" = true)
    by (vm_compute; reflexivity).
  split; [reflexivity|]. split; [reflexivity|]. split; [exact Hl|]. split; [exact Hex|].
  exact (make_dirs_root_file_checks_home_only session1 0 "hello.py" world1
           eq_refl eq_refl Hl Hex).
Defined.

(** C7 as stated fails on a device without the home directory: for the
    file path [hello.py], whose directory part is empty, the loop body
    runs once and [mkdir('/home/robot/')] is made. *)
Lemma make_dirs_root_file_without_home :
  let w := set_all_remote [["home"]] world1 in
  let w' := after (pybricks_make_dirs session1 (fst (Path.split "hello.py"))) w in
  fst (Path.split "hello.py") = "" /\
  calls w' = calls w ++ [SftpExists 0 "/home/robot/";
                         SftpExists 0 "/home/robot/";
                         SftpMkdir 0 "/home/robot/"] /\
  mkdirs w' = S (mkdirs w).
Proof.
  vm_compute. repeat split.
Qed.

(** ** Fresh connections and callers in sequence *)

Section FreshLemmas.

Context {FS : Type} `{RemoteFS FS}.

Lemma get_connection_fresh (address : string) (w : World FS) :
  _connections w !! address = None ->
  net w address = Up ->
  exists w' : World FS,
    run (_get_connection address) w = (Ret (length (clients w)), w') /\
    _connections w' !! address = Some (length (clients w)) /\
    link_of w' (length (clients w)) = Up /\
    handshakes w' = S (handshakes w) /\
    net w' = net w.
Proof.
  intros Hnone Hnet. unfold _get_connection.
  rewrite run_bind, run_try_except, run_bind, run_probe, Hnone.
  cbn [and_then no_working_connection].
  simpl. rewrite Hnet. simpl. rewrite lookup_snoc. simpl.
  unfold link_of at 1. simpl. rewrite lookup_snoc. simpl. rewrite lookup_snoc. simpl.
  rewrite alter_snoc, lookup_snoc. simpl.
  unfold sftp_link_of at 1. simpl. rewrite alter_snoc, lookup_snoc. simpl.
  rewrite lookup_insert_eq. simpl.
  eexists. split; [reflexivity|]. simpl.
  split; [apply lookup_insert_eq|].
  split.
  - unfold link_of. simpl. rewrite !alter_snoc, lookup_snoc. reflexivity.
  - split; [|reflexivity].
    unfold handshakes. simpl. rewrite !List.filter_app, !length_app. simpl. lia.
Qed.

(** A reuse leaves the cache, the links and the network as they were and
    makes no handshake. *)
Lemma get_connection_reuse_frame (address : string) (w : World FS) (c : ref) :
  _connections w !! address = Some c ->
  link_of w c = Up ->
  exists w' : World FS,
    run (_get_connection address) w = (Ret c, w') /\
    _connections w' !! address = Some c /\
    link_of w' c = Up /\
    handshakes w' = handshakes w.
Proof.
  intros Hc Hl. eexists. split; [apply (get_connection_reuse address w c Hc Hl)|].
  split; [exact Hc|]. split; [exact Hl|].
  unfold handshakes. simpl. rewrite List.filter_app, length_app. simpl. lia.
Qed.

(** Callers that come one after the other on a live cached handle all get
    that handle, without a handshake. *)
Lemma get_connection_times_reuse (address : string) (c : ref) (n : nat) :
  forall w : World FS,
    _connections w !! address = Some c ->
    link_of w c = Up ->
    exists w' : World FS,
      run (get_connection_times n address) w = (Ret (replicate n c), w') /\
      handshakes w' = handshakes w.
Proof.
  induction n as [|n IH]; intros w Hc Hl.
  - exists w. split; reflexivity.
  - destruct (get_connection_reuse_frame address w c Hc Hl) as (w1 & Hrun & Hc1 & Hl1 & Hh1).
    destruct (IH w1 Hc1 Hl1) as (w2 & Hrun2 & Hh2).
    exists w2. split; [|congruence].
    cbn [get_connection_times]. rewrite run_bind, Hrun. cbn [and_then].
    rewrite run_bind, Hrun2. reflexivity.
Qed.

End FreshLemmas.

(** ** One task on the event loop *)

Section AloneLemmas.

Context {FS : Type} `{RemoteFS FS}.

Lemma sched_single {A : Type} (t : Task FS A) (turns : list nat) (w : World FS) :
  sched (0 :: turns) [t] w = sched turns [fst (turn t w)] (snd (turn t w)).
Proof.
  change (sched (0 :: turns) [t] w)
    with (let '(t', w') := turn t w in sched turns [t'] w').
  destruct (turn t w) as [t' w']. reflexivity.
Qed.

(** A task that is alone on the event loop does what [run] says, provided
    it is not left waiting for ever: after enough turns it has ended with
    the result of [run], in the world of [run]. *)
Lemma run_alone {A : Type} (c : Co FS A) :
  forall (w w' : World FS) (r : Res A),
    run c w = (r, w') ->
    r <> Hang ->
    exists n : nat,
      sched (replicate (S n) 0) [Created c] w = ([Finished r], w').
Proof.
  induction c as [a|e| |k IH|w0 k IH|op k IH|op t k IH]; intros w w' r Hrun Hr.
  - exists 0. injection Hrun as <- <-. reflexivity.
  - exists 0. injection Hrun as <- <-. reflexivity.
  - exists 0. injection Hrun as <- <-. reflexivity.
  - simpl in Hrun. destruct (IH w w w' r Hrun Hr) as [n Hn].
    exists n. cbn [replicate] in *. rewrite sched_single in *. exact Hn.
  - simpl in Hrun. destruct (IH w0 w' r Hrun Hr) as [n Hn].
    exists n. cbn [replicate] in *. rewrite sched_single in *. exact Hn.
  - simpl in Hrun. destruct (effect op (issue op w)) as [o w1] eqn:He.
    destruct (resume o None) as [r0|] eqn:Hres.
    + destruct (IH r0 w1 w' r Hrun Hr) as [n Hn].
      exists n. cbn [replicate] in *. rewrite sched_single in *.
      cbn [turn advance] in *. rewrite He, Hres. exact Hn.
    + injection Hrun as <- <-. contradiction.
  - simpl in Hrun. destruct (effect op (issue op w)) as [o w1] eqn:He.
    destruct (resume o t) as [r0|] eqn:Hres.
    + destruct (IH r0 w1 w' r Hrun Hr) as [n Hn].
      exists (S n). cbn [replicate] in *. rewrite sched_single.
      cbn [turn advance fst snd]. rewrite sched_single.
      cbn [turn]. rewrite He, Hres.
      rewrite sched_single in Hn. cbn [turn] in Hn. exact Hn.
    + injection Hrun as <- <-. contradiction.
Qed.

End AloneLemmas.

(** C8, as the code has it.  Callers of [_get_connection(address)] that
    come one after the other, each call completing before the next is
    made and the transport staying alive, cause one handshake in all and
    all receive the same handle.  Nothing serialises callers that overlap:
    two tasks that both start before either handshake has completed are
    both suspended in [asyncssh.connect], with two handshakes under way. *)
Theorem sequential_callers_share_one_handshake {FS : Type} `{RemoteFS FS}
    (address : string) (n : nat) (w : World FS) :
  _connections w !! address = None ->
  net w address = Up ->
  (exists w' : World FS,
      run (get_connection_times (S n) address) w
        = (Ret (replicate (S n) (length (clients w))), w') /\
      handshakes w' = S (handshakes w)) /\
  (let started := sched [0; 1] [Created (_get_connection address);
                                Created (_get_connection address)] w in
   map waiting_for (fst started)
     = [Some (Connect address _USER _PASSWORD);
        Some (Connect address _USER _PASSWORD)] /\
   handshakes (snd started) = S (S (handshakes w))).
Proof.
  intros Hnone Hnet. split.
  - destruct (get_connection_fresh address w Hnone Hnet)
      as (w1 & Hrun & Hc1 & Hl1 & Hh1 & _).
    destruct (get_connection_times_reuse address (length (clients w)) n w1 Hc1 Hl1)
      as (w2 & Hrun2 & Hh2).
    exists w2. split; [|congruence].
    cbn [get_connection_times]. rewrite run_bind, Hrun. cbn [and_then].
    rewrite run_bind, Hrun2. reflexivity.
  - simpl. rewrite Hnone. simpl. rewrite lookup_delete_eq. simpl.
    split; [reflexivity|].
    unfold handshakes. simpl. rewrite !List.filter_app, !length_app. simpl. lia.
Qed.

Lemma sequential_callers_share_one_handshake_witness :
  _connections world0 !! device = None /\
  net world0 device = Up /\
  (exists w' : World Tree.FS,
      run (get_connection_times 3 device) world0 = (Ret [0; 0; 0], w') /\
      handshakes w' = 1) /\
  (let started := sched [0; 1] [Created (_get_connection device);
                                Created (_get_connection device)] world0 in
   map waiting_for (fst started)
     = [Some (Connect device _USER _PASSWORD);
        Some (Connect device _USER _PASSWORD)] /\
   handshakes (snd started) = 2).
Proof.
  split; [reflexivity|]. split; [reflexivity|].
  exact (sequential_callers_share_one_handshake device 2 world0 eq_refl eq_refl).
Defined.

(** C8 as stated fails: two tasks calling [_get_connection] for the same
    address, taking turns at every [await], are suspended in
    [asyncssh.connect] together, make two handshakes and end with two
    different handles. *)
Lemma concurrent_callers_two_handshakes :
  let g := _get_connection (FS := Tree.FS) device in
  let started := sched [0; 1] [Created g; Created g] world0 in
  let ended := sched [0; 1; 0; 1; 0; 1; 0; 1] [Created g; Created g] world0 in
  map waiting_for (fst started)
    = [Some (Connect device _USER _PASSWORD);
       Some (Connect device _USER _PASSWORD)] /\
  map outcome (fst ended) = [Some (Ret 0); Some (Ret 1)] /\
  handshakes (snd ended) = 2 /\
  map c_closed (clients (snd ended)) = [false; false].
Proof.
  vm_compute. repeat split.
Qed.

(** ** The polling loop *)

Section PollLemmas.

Context {FS : Type} `{RemoteFS FS}.

(** One iteration of the [while] loop on a process that has not been seen
    to exit: a line is printed stripped; a read that got nothing within
    the timeout is passed over; any other failure of the read leaves the
    loop. *)
Lemma run_poll_step (fuel : nat) (p : ref) (pr : Proc) (w : World FS) :
  procs w !! p = Some pr ->
  p_exit_status pr = None ->
  run (pybricks_poll (S fuel) p) w =
    match read_line (arrive pr) with
    | (Returns line, pr') =>
        run (pybricks_poll fuel p) (printed [Path.strip line] nl (polled p pr' w))
    | (Raises e, pr') =>
        if is_TimeoutError e then run (pybricks_poll fuel p) (polled p pr' w)
        else (Raise e, polled p pr' w)
    | (Stalls, pr') => run (pybricks_poll fuel p) (polled p pr' w)
    end.
Proof.
  intros Hp Hexit. cbn [pybricks_poll]. rewrite run_bind.
  unfold exit_status at 1. cbn [run]. rewrite Hp, Hexit. cbn [run and_then].
  rewrite run_bind, run_try_except, run_bind.
  unfold wait_for. cbn [run effect]. change (procs (issue (Readline p) w)) with (procs w).
  rewrite Hp. destruct (read_line (arrive pr)) as [o pr']. fold (polled p pr' w).
  destruct o as [line|e|]; cbn [resume reply run and_then].
  - reflexivity.
  - destruct (is_TimeoutError e); reflexivity.
  - reflexivity.
Qed.

Lemma run_poll_exited (fuel : nat) (p : ref) (pr : Proc) (st : Z) (w : World FS) :
  procs w !! p = Some pr ->
  p_exit_status pr = Some st ->
  run (pybricks_poll (S fuel) p) w = (Ret tt, w).
Proof.
  intros Hp Hexit. cbn [pybricks_poll]. rewrite run_bind.
  unfold exit_status at 1. cbn [run]. rewrite Hp, Hexit. reflexivity.
Qed.

Lemma run_poll_no_process (fuel : nat) (p : ref) (w : World FS) :
  procs w !! p = None ->
  run (pybricks_poll (S fuel) p) w = (Raise AttributeError, w).
Proof.
  intros Hp. cbn [pybricks_poll]. rewrite run_bind.
  unfold exit_status at 1. cbn [run]. rewrite Hp. reflexivity.
Qed.

Lemma procs_polled (p : ref) (pr pr' : Proc) (w : World FS) :
  procs w !! p = Some pr -> procs (polled p pr' w) !! p = Some pr'.
Proof.
  intros Hp. unfold polled. simpl. apply list_lookup_insert_eq.
  apply lookup_lt_Some in Hp. exact Hp.
Qed.

(** No read of the loop is awaited for ever: whatever the process and the
    channel do, the loop never hangs in a call. *)
Lemma poll_never_hangs (fuel : nat) (p : ref) :
  forall w : World FS, fst (run (pybricks_poll fuel p) w) <> Hang.
Proof.
  induction fuel as [|fuel IH]; intros w; [simpl; discriminate|].
  destruct (procs w !! p) as [pr|] eqn:Hp.
  - destruct (p_exit_status pr) as [st|] eqn:Hexit.
    + rewrite (run_poll_exited fuel p pr st w Hp Hexit). simpl. discriminate.
    + rewrite (run_poll_step fuel p pr w Hp Hexit).
      destruct (read_line (arrive pr)) as [[line|e|] pr']; try apply IH.
      destruct (is_TimeoutError e); [apply IH|simpl; discriminate].
  - rewrite (run_poll_no_process fuel p w Hp). simpl. discriminate.
Qed.

(** A program whose lines arrive one per polling interval, the exit status
    after the last: every line is printed, in order. *)
Lemma poll_paced_prints_all (status : Z) (p : ref) (lines : list string) :
  forall (w : World FS) (pr : Proc) (fuel : nat),
    procs w !! p = Some pr ->
    p_future pr = paced lines status ->
    p_stderr pr = [] -> p_fault pr = None -> p_eof pr = false ->
    p_exit_status pr = None ->
    length lines + 2 <= fuel ->
    exists w' : World FS,
      run (pybricks_poll fuel p) w = (Ret tt, w') /\
      stdout w' = stdout w ++ map (fun l => (Path.strip (l ++ nl) ++ nl)%string) lines.
Proof.
  induction lines as [|l lines IH]; intros w pr fuel Hp Hfut Hbuf Hfault Heof Hexit Hfuel.
  - destruct fuel as [|[|fuel]]; simpl in Hfuel; try lia.
    rewrite (run_poll_step _ p pr w Hp Hexit).
    remember (pybricks_poll _ p) as loop eqn:Hloop.
    unfold arrive, read_line. rewrite Hfut. simpl. rewrite Hbuf, Hfault, Heof.
    subst loop. eexists. split.
    + eapply run_poll_exited; [eapply procs_polled; exact Hp|reflexivity].
    + simpl. rewrite app_nil_r. reflexivity.
  - destruct fuel as [|fuel]; simpl in Hfuel; try lia.
    rewrite (run_poll_step _ p pr w Hp Hexit).
    remember (pybricks_poll _ p) as loop eqn:Hloop.
    unfold arrive, read_line. rewrite Hfut. simpl. rewrite Hbuf. simpl.
    subst loop.
    match goal with
    | |- context [polled p ?q w] => set (pr' := q)
    end.
    destruct (IH (printed [Path.strip (l ++ nl)] nl (polled p pr' w)) pr' fuel)
      as (w' & Hrun & Hout); try reflexivity.
    + change (procs (printed ?a ?b ?x)) with (procs x).
      eapply procs_polled. exact Hp.
    + exact Hfault.
    + exact Heof.
    + exact Hexit.
    + lia.
    + exists w'. split; [exact Hrun|].
      rewrite Hout. simpl. rewrite <- app_assoc. reflexivity.
Qed.

Lemma deliver_lines (ls : list string) (status : Z) :
  forall pr : Proc,
    fold_left deliver (map Emit ls ++ [Exit status]) pr =
    mkProc (p_client pr) (p_prog pr) (p_future pr)
           (p_stderr pr ++ map (fun l => (l ++ nl)%string) ls)
           (p_eof pr) (p_fault pr) (Some status) (p_closed pr).
Proof.
  induction ls as [|l ls IH]; intros pr; simpl.
  - rewrite app_nil_r. reflexivity.
  - rewrite IH. simpl. rewrite <- app_assoc. reflexivity.
Qed.

(** A program whose lines and exit status arrive within one polling
    interval: the first line is printed, the loop ends, the other lines
    stay in the buffer. *)
Lemma poll_burst_prints_first_only (status : Z) (p : ref) (l : string)
    (ls : list string) (rest : list (list ProcEvent)) (w : World FS)
    (pr : Proc) (fuel : nat) :
  procs w !! p = Some pr ->
  p_future pr = (map Emit (l :: ls) ++ [Exit status]) :: rest ->
  p_stderr pr = [] ->
  p_exit_status pr = None ->
  exists w' : World FS,
    run (pybricks_poll (S (S fuel)) p) w = (Ret tt, w') /\
    stdout w' = stdout w ++ [(Path.strip (l ++ nl) ++ nl)%string] /\
    p_stderr <$> procs w' !! p = Some (map (fun x => (x ++ nl)%string) ls).
Proof.
  intros Hp Hfut Hbuf Hexit.
  rewrite (run_poll_step _ p pr w Hp Hexit).
  remember (pybricks_poll _ p) as loop eqn:Hloop.
  unfold arrive. rewrite Hfut, deliver_lines. unfold read_line. simpl.
  rewrite Hbuf. simpl. subst loop.
  match goal with
  | |- context [polled p ?q w] => set (pr' := q)
  end.
  eexists. split.
  - eapply run_poll_exited.
    + change (procs (printed ?a ?b ?x)) with (procs x). eapply procs_polled. exact Hp.
    + reflexivity.
  - split; [reflexivity|].
    change (procs (printed ?a ?b ?x)) with (procs x).
    rewrite (procs_polled p pr pr' w Hp). reflexivity.
Qed.

End PollLemmas.

(** C3 at a program that writes a and b and exits at once, so that both
    lines and the exit status arrive within one polling interval:
    [pybricks] prints a, sees the exit status and leaves the loop; b is
    never printed and is still in the buffer of the closed process.  The
    same program with its output spread over the intervals has a and b
    printed. *)
Theorem pybricks_drops_line_buffered_at_exit :
  let w := set_spawn (burst ["a"; "b"] 0) world1 in
  let w' := after (pybricks 5 session1 "hello.py") w in
  let v := set_spawn (paced ["a"; "b"] 0) world1 in
  let v' := after (pybricks 5 session1 "hello.py") v in
  result (pybricks 5 session1 "hello.py") w = Ret tt /\
  drop (length (stdout w)) (stdout w')
    = [("Now starting: /home/robot/hello.py" ++ nl)%string; ("a" ++ nl)%string] /\
  p_stderr <$> procs w' !! 0 = Some [("b" ++ nl)%string] /\
  p_closed <$> procs w' !! 0 = Some true /\
  result (pybricks 5 session1 "hello.py") v = Ret tt /\
  drop (length (stdout v)) (stdout v')
    = [("Now starting: /home/robot/hello.py" ++ nl)%string;
       ("a" ++ nl)%string; ("b" ++ nl)%string].
Proof.
  vm_compute. repeat split.
Qed.

Section AwaitLemmas.

Context {FS : Type} `{RemoteFS FS}.

Variable P : Call -> option N -> Prop.

Lemma awaits_bind {A B : Type} (m : Co FS A) (f : A -> Co FS B) :
  Awaits P m -> (forall a, Awaits P (f a)) -> Awaits P (bind m f).
Proof.
  intros Hm Hf. induction Hm; simpl; auto; constructor; auto.
Qed.

Lemma awaits_try_except {A : Type} (m : Co FS A) (classes : exn -> bool) (h : Co FS A) :
  Awaits P m -> Awaits P h -> Awaits P (try_except m classes h).
Proof.
  intros Hm Hh. induction Hm; simpl; try (constructor; auto; fail).
  destruct (classes e); [exact Hh|constructor].
Qed.

Lemma awaits_finally {A : Type} (m : Co FS A) (cleanup : Co FS unit) :
  Awaits P m -> Awaits P cleanup -> Awaits P (finally m cleanup).
Proof.
  intros Hm Hc. induction Hm; simpl; try (constructor; auto; fail).
  - apply awaits_bind; [exact Hc|intros; constructor].
  - apply awaits_bind; [exact Hc|intros; constructor].
Qed.

Lemma awaits_reply {X : Type} (r : Reply X) : Awaits P (reply (FS := FS) r).
Proof. destruct r; constructor. Qed.

Lemma awaits_call (op : Call) (t : option N) :
  P op t -> Awaits P (Await (FS := FS) op t reply).
Proof. intros Hop. constructor; [exact Hop|apply awaits_reply]. Qed.

Lemma awaits_invoke (op : Call) : Awaits P (invoke (FS := FS) op).
Proof. constructor. apply awaits_reply. Qed.

Lemma awaits_print (args : list string) (end_ : string) :
  Awaits P (print (FS := FS) args end_).
Proof. unfold print, modify. repeat constructor. Qed.

Lemma awaits_dict_get (address : string) : Awaits P (dict_get (FS := FS) address).
Proof.
  unfold dict_get. constructor. intros w.
  destruct (_connections w !! address); constructor.
Qed.

Lemma awaits_getattr_sftp (c : ref) : Awaits P (getattr_sftp (FS := FS) c).
Proof.
  unfold getattr_sftp. constructor. intros w.
  destruct (clients w !! c ≫= c_sftp); constructor.
Qed.

Lemma awaits_setattr_sftp (c : ref) (s : Sftp) :
  Awaits P (setattr_sftp (FS := FS) c s).
Proof.
  unfold setattr_sftp. constructor. intros w.
  destruct (clients w !! c); repeat constructor.
Qed.

Lemma awaits_getattr_client (self : EV3SSH) :
  Awaits P (getattr_client (FS := FS) self).
Proof. unfold getattr_client. destruct (client self); constructor. Qed.

Lemma awaits_self_client_sftp (self : EV3SSH) :
  Awaits P (self_client_sftp (FS := FS) self).
Proof.
  unfold self_client_sftp.
  apply awaits_bind; [apply awaits_getattr_client|intros c].
  apply awaits_bind; [apply awaits_getattr_sftp|intros _; constructor].
Qed.

(** A task that runs a coroutine all of whose awaits satisfy [P] waits,
    whenever it waits, for a call and with a timeout that satisfy [P]. *)
Lemma advance_awaits {A : Type} (c : Co FS A) :
  Awaits P c ->
  forall w : World FS,
    match fst (advance c w) with
    | Created c' => Awaits P c'
    | Waiting op t k => P op t /\ forall r, Awaits P (k r)
    | Finished _ => True
    end.
Proof.
  induction 1 as [a|e| |k Hk IH|w0 k Hk IH|op k Hk IH|op t k Hop Hk IH];
    intros w; simpl; auto.
  - apply IH.
  - apply IH.
  - destruct (effect op (issue op w)) as [o w1].
    destruct (resume o None); simpl; [apply IH|exact I].
Qed.

Lemma later_awaits {A : Type} (m : Co FS A) :
  Awaits P m ->
  forall t : Task FS A,
    Later (Created m) t ->
    match t with
    | Created c' => Awaits P c'
    | Waiting op tm k => P op tm /\ forall r, Awaits P (k r)
    | Finished _ => True
    end.
Proof.
  intros Hm t Hlater. induction Hlater as [|t w Hlater IH]; [exact Hm|].
  destruct t as [c|op tm k|r]; simpl.
  - apply advance_awaits. exact IH.
  - destruct (effect op w) as [o w1]. destruct IH as [Hop Hk].
    destruct (resume o tm) as [r|]; simpl; [|split; assumption].
    apply advance_awaits. apply Hk.
  - exact I.
Qed.

End AwaitLemmas.

Ltac awaits_op :=
  match goal with
  | |- Awaits _ (await ?op) => exact (awaits_call _ op None eq_refl)
  | |- Awaits _ (wait_for ?op ?n) => exact (awaits_call _ op (Some n) eq_refl)
  | |- Awaits _ (invoke ?op) => exact (awaits_invoke _ op)
  end.

Section TimeoutLemmas.

Context {FS : Type} `{RemoteFS FS}.

Lemma awaits_waits {A : Type} (m : Co FS A) :
  Awaits bounded_iff_read m -> waits_bounded_iff_read m.
Proof.
  intros Hm t Hlater op timeout Hop Htm.
  pose proof (later_awaits bounded_iff_read m Hm t Hlater) as Ht.
  destruct t as [c|op' tm k|r]; try discriminate.
  simpl in Hop, Htm. injection Hop as ->. injection Htm as ->. apply Ht.
Qed.

Lemma awaits_get_connection (address : string) :
  Awaits bounded_iff_read (_get_connection (FS := FS) address).
Proof.
  unfold _get_connection, probe.
  apply awaits_bind; [|intros _; apply awaits_dict_get].
  apply awaits_try_except.
  - apply awaits_bind; [|intros _; apply awaits_print].
    apply awaits_bind; [apply awaits_dict_get|intros c].
    awaits_op.
  - apply awaits_bind; [apply awaits_print|intros _].
    apply awaits_bind; [unfold dict_pop, modify; repeat constructor|intros _].
    apply awaits_bind; [awaits_op|intros client].
    apply awaits_bind; [apply awaits_print|intros _].
    apply awaits_bind; [|intros _; unfold dict_set, modify; repeat constructor].
    apply awaits_try_except.
    + apply awaits_bind; [apply awaits_getattr_sftp|intros _].
      apply awaits_bind; [awaits_op|intros _; constructor].
    + apply awaits_bind; [awaits_op|intros s].
      apply awaits_bind; [apply awaits_setattr_sftp|intros _].
      apply awaits_bind; [apply awaits_getattr_sftp|intros _].
      apply awaits_bind; [awaits_op|intros _].
      apply awaits_print.
Qed.

Lemma awaits_connect (self : EV3SSH) (address : string) :
  Awaits bounded_iff_read (connect (FS := FS) self address).
Proof.
  unfold connect. apply awaits_bind; [apply awaits_get_connection|intros c; constructor].
Qed.

Lemma awaits_beep (self : EV3SSH) : Awaits bounded_iff_read (beep (FS := FS) self).
Proof.
  unfold beep. apply awaits_bind; [apply awaits_getattr_client|intros c].
  awaits_op.
Qed.

Lemma awaits_disconnect (self : EV3SSH) :
  Awaits bounded_iff_read (disconnect (FS := FS) self).
Proof.
  unfold disconnect. apply awaits_bind; [apply awaits_self_client_sftp|intros c].
  apply awaits_bind; [awaits_op|intros _].
  apply awaits_bind; [apply awaits_getattr_client|intros c'].
  awaits_op.
Qed.

Lemma awaits_mkdir_loop (self : EV3SSH) (names : list string) :
  forall total : string,
    Awaits bounded_iff_read (pybricks_mkdir_loop (FS := FS) self total names).
Proof.
  induction names as [|name names IH]; intros total; [constructor|].
  cbn [pybricks_mkdir_loop].
  apply awaits_bind; [apply awaits_self_client_sftp|intros c].
  apply awaits_bind; [awaits_op|intros found].
  apply awaits_bind; [|intros _; apply IH].
  destruct found; simpl; [constructor|].
  apply awaits_bind; [apply awaits_self_client_sftp|intros c'].
  awaits_op.
Qed.

Lemma awaits_poll (p : ref) (fuel : nat) :
  Awaits bounded_iff_read (pybricks_poll (FS := FS) fuel p).
Proof.
  induction fuel as [|fuel IH]; [constructor|].
  cbn [pybricks_poll]. apply awaits_bind.
  - unfold exit_status. constructor. intros w. destruct (procs w !! p); constructor.
  - intros [st|]; [constructor|].
    apply awaits_bind; [|intros _; exact IH].
    apply awaits_try_except; [|constructor].
    apply awaits_bind; [|intros line; apply awaits_print].
    awaits_op.
Qed.

Lemma awaits_pybricks (fuel : nat) (self : EV3SSH) (file_path : string) :
  Awaits bounded_iff_read (pybricks (FS := FS) fuel self file_path).
Proof.
  unfold pybricks. destruct (Path.split file_path) as [dirs file_name].
  apply awaits_bind.
  - unfold pybricks_make_dirs.
    apply awaits_bind; [apply awaits_self_client_sftp|intros c].
    apply awaits_bind; [awaits_op|intros found].
    destruct found; simpl; [constructor|apply awaits_mkdir_loop].
  - intros _. unfold pybricks_send_and_run.
    apply awaits_bind; [apply awaits_self_client_sftp|intros c].
    apply awaits_bind; [awaits_op|intros _].
    apply awaits_bind; [apply awaits_print|intros _].
    apply awaits_bind; [apply awaits_getattr_client|intros c'].
    apply awaits_bind; [awaits_op|intros process].
    apply awaits_finally; [apply awaits_poll|].
    awaits_op.
Qed.

Lemma awaits_test (fuel : nat) : Awaits bounded_iff_read (_test (FS := FS) fuel).
Proof.
  unfold _test. apply awaits_bind; [apply awaits_connect|intros ev3].
  apply awaits_bind; [apply awaits_beep|intros _]. apply awaits_pybricks.
Qed.

(** What a timeout is: a call that is not answered leaves a caller that
    gave no timeout suspended, and resumes one that gave a timeout with
    [TimeoutError]. *)
Lemma turn_stalled {A : Type} (op : Call) (k : Reply (ret_type op) -> Co FS A)
    (w : World FS) :
  fst (effect op w) = Stalls ->
  turn (Waiting op None k) w = (Waiting op None k, snd (effect op w)) /\
  forall n : N,
    turn (Waiting op (Some n) k) w
    = advance (k (Error TimeoutError)) (snd (effect op w)).
Proof.
  intros Hstall. unfold turn. destruct (effect op w) as [o w1].
  simpl in Hstall. subst o. simpl. split; [reflexivity|intros n; reflexivity].
Qed.

End TimeoutLemmas.

(** C9, as the code has it.  Only the reads of the polling loop are
    bounded: each [readline] is awaited through [asyncio.wait_for] with a
    timeout of 0.1 s, and the loop never hangs in a call.  The liveness
    probe is awaited without a timeout: a cached handle whose remote end
    never replies to [run('pwd')] leaves [_get_connection] suspended for
    ever.  So is every other call of the module: whenever a task that runs
    [_get_connection], [connect], [beep], [disconnect], [pybricks] or
    [_test] is suspended, it waits with a timeout if and only if it waits
    for a read of the polling loop; and a call that is not answered leaves
    a caller without timeout suspended, while it resumes one with a
    timeout with [TimeoutError]. *)
Theorem only_polling_reads_are_bounded {FS : Type} `{RemoteFS FS}
    (address : string) (c p : ref) (pr : Proc) (fuel : nat) (w : World FS) :
  _connections w !! address = Some c ->
  procs w !! p = Some pr ->
  p_exit_status pr = None ->
  let probing := fst (advance (_get_connection address) w) in
  let reading := fst (advance (pybricks_poll (S fuel) p) w) in
  (waiting_for probing = Some (Run c "pwd") /\
   waiting_timeout probing = Some None) /\
  (link_of w c = Silent -> result (_get_connection address) w = Hang) /\
  (waiting_for reading = Some (Readline p) /\
   waiting_timeout reading = Some (Some 100%N)) /\
  result (pybricks_poll (S fuel) p) w <> Hang /\
  (forall (self : EV3SSH) (address' file_path : string) (fuel' : nat),
     waits_bounded_iff_read (_get_connection (FS := FS) address') /\
     waits_bounded_iff_read (connect (FS := FS) self address') /\
     waits_bounded_iff_read (beep (FS := FS) self) /\
     waits_bounded_iff_read (disconnect (FS := FS) self) /\
     waits_bounded_iff_read (pybricks (FS := FS) fuel' self file_path) /\
     waits_bounded_iff_read (_test (FS := FS) fuel')) /\
  (forall (A : Type) (op : Call) (k : Reply (ret_type op) -> Co FS A) (w0 : World FS),
     fst (effect op w0) = Stalls ->
     turn (Waiting op None k) w0 = (Waiting op None k, snd (effect op w0)) /\
     forall n : N,
       turn (Waiting op (Some n) k) w0
       = advance (k (Error TimeoutError)) (snd (effect op w0))).
Proof.
  intros Hc Hp Hexit probing reading. split; [|split; [|split; [|split; [|split]]]].
  - subst probing. simpl. rewrite Hc. simpl. split; reflexivity.
  - intros Hl. unfold result, _get_connection.
    rewrite run_bind, run_try_except, run_bind, run_probe, Hc, Hl. reflexivity.
  - subst reading. simpl. rewrite Hp, Hexit. simpl. split; reflexivity.
  - apply poll_never_hangs.
  - intros self address' file_path fuel'.
    split; [apply awaits_waits, awaits_get_connection|].
    split; [apply awaits_waits, awaits_connect|].
    split; [apply awaits_waits, awaits_beep|].
    split; [apply awaits_waits, awaits_disconnect|].
    split; [apply awaits_waits, awaits_pybricks|apply awaits_waits, awaits_test].
  - intros A op k w0. apply turn_stalled.
Qed.

Lemma only_polling_reads_are_bounded_witness :
  let w := set_link 0 Silent
             (set_procs (fun _ => [new_proc 0 "prog" (paced ["a"] 0)]) world1) in
  let probing := fst (advance (_get_connection device) w) in
  let reading := fst (advance (pybricks_poll 3 0) w) in
  let connecting := fst (turn (Created (_get_connection device)) world0) in
  _connections w !! device = Some 0 /\
  procs w !! 0 = Some (new_proc 0 "prog" (paced ["a"] 0)) /\
  p_exit_status (new_proc 0 "prog" (paced ["a"] 0)) = None /\
  link_of w 0 = Silent /\
  (waiting_for probing = Some (Run 0 "pwd") /\
   waiting_timeout probing = Some None) /\
  result (_get_connection device) w = Hang /\
  (waiting_for reading = Some (Readline 0) /\
   waiting_timeout reading = Some (Some 100%N)) /\
  result (pybricks_poll 3 0) w <> Hang /\
  waiting_for connecting = Some (Connect device _USER _PASSWORD) /\
  bounded_iff_read (Connect device _USER _PASSWORD) None.
Proof.
  intros w probing reading connecting.
  assert (Hc : _connections w !! device = Some 0) by (vm_compute; reflexivity).
  assert (Hl : link_of w 0 = Silent) by (vm_compute; reflexivity).
  destruct (only_polling_reads_are_bounded device 0 0 _ 2 w Hc eq_refl eq_refl)
    as (Hprobe & Hhang & Hread & Hpoll & Hall & _).
  destruct (Hall session0 device "demo/hello.py" 3) as (Hget & _).
  split; [exact Hc|]. split; [reflexivity|]. split; [reflexivity|]. split; [exact Hl|].
  split; [exact Hprobe|]. split; [exact (Hhang Hl)|]. split; [exact Hread|].
  split; [exact Hpoll|].
  assert (Hwait : waiting_for connecting = Some (Connect device _USER _PASSWORD))
    by (vm_compute; reflexivity).
  split; [exact Hwait|].
  exact (Hget connecting (later_turn _ _ world0 (later_now _))
           (Connect device _USER _PASSWORD) None Hwait eq_refl).
Defined.

(** C9 as stated fails for the probe: when the remote end of the cached
    connection never replies, [_get_connection], and [connect] with it,
    never returns; no timeout ends the wait. *)
Lemma probe_without_timeout_hangs :
  let w := set_link 0 Silent world1 in
  _connections w !! device = Some 0 /\
  waiting_timeout (fst (advance (_get_connection device) w)) = Some None /\
  result (_get_connection device) w = Hang /\
  result (connect session1 device) w = Hang.
Proof.
  vm_compute. repeat split.
Qed.

(** * Further properties *)

(** ** [_get_connection] in closed form *)

Section ClosedLemmas.

Context {FS : Type} `{RemoteFS FS}.

(** Worlds with the same fields are the same. *)
Lemma world_ext (w1 w2 : World FS) :
  _connections w1 = _connections w2 ->
  clients w1 = clients w2 ->
  procs w1 = procs w2 ->
  stdout w1 = stdout w2 ->
  calls w1 = calls w2 ->
  net w1 = net w2 ->
  remote w1 = remote w2 ->
  spawn w1 = spawn w2 ->
  w1 = w2.
Proof. destruct w1, w2. simpl. intros; subst. reflexivity. Qed.

(** The [except] branch, run from the world the failed probe left. *)
Lemma run_reconnect_branch (address : string) (w wp : World FS) (e : exn) :
  run (probe address) w = (Raise e, wp) ->
  no_working_connection e = true ->
  run (_get_connection address) w = reconnect address wp.
Proof.
  intros Hp He. unfold reconnect.
  destruct (net wp address) as [|e'|] eqn:Hnet.
  - unfold _get_connection.
    rewrite run_bind, run_try_except, run_bind, Hp. simpl. rewrite He.
    simpl. rewrite Hnet. simpl. rewrite lookup_snoc. simpl.
    unfold link_of at 1. simpl. rewrite lookup_snoc. simpl. rewrite lookup_snoc. simpl.
    rewrite alter_snoc, lookup_snoc. simpl.
    unfold sftp_link_of at 1. simpl. rewrite alter_snoc, lookup_snoc. simpl.
    rewrite lookup_insert_eq. simpl.
    f_equal. apply world_ext; simpl; try reflexivity.
    + apply insert_delete_eq.
    + rewrite !alter_snoc. reflexivity.
    + rewrite <- !app_assoc. reflexivity.
    + rewrite <- !app_assoc. reflexivity.
  - assert (Hn : net w address = Down e').
    { destruct (probe_frame address w wp _ Hp) as (_ & _ & <-). exact Hnet. }
    apply (get_connection_reconnect_fails address w wp e e' Hp He Hn).
  - assert (Hn : net w address = Silent).
    { destruct (probe_frame address w wp _ Hp) as (_ & _ & <-). exact Hnet. }
    apply (get_connection_reconnect_stalls address w wp e Hp He Hn).
Qed.

(** [_get_connection], case by case. *)
Lemma run_get_connection (address : string) (w : World FS) :
  run (_get_connection address) w =
  match _connections w !! address with
  | None => reconnect address w
  | Some c =>
      match link_of w c with
      | Up =>
          (Ret c, printed ["Re-using existing connection to"; address] nl
                    (issue (Run c "pwd") w))
      | Down e =>
          if no_working_connection e
          then reconnect address (issue (Run c "pwd") w)
          else (Raise e, issue (Run c "pwd") w)
      | Silent => (Hang, issue (Run c "pwd") w)
      end
  end.
Proof.
  destruct (_connections w !! address) as [c|] eqn:Hc.
  - destruct (link_of w c) as [|e|] eqn:Hl.
    + apply get_connection_reuse; assumption.
    + assert (Hp : run (probe address) w = (Raise e, issue (Run c "pwd") w)).
      { rewrite run_probe, Hc, Hl. reflexivity. }
      destruct (no_working_connection e) eqn:He.
      * apply (run_reconnect_branch address w _ e Hp He).
      * apply (get_connection_probe_propagates address w _ e Hp He).
    + unfold _get_connection.
      rewrite run_bind, run_try_except, run_bind, run_probe, Hc, Hl. reflexivity.
  - assert (Hp : run (probe address) w = (Raise KeyError, w)).
    { rewrite run_probe, Hc. reflexivity. }
    apply (run_reconnect_branch address w w KeyError Hp eq_refl).
Qed.

End ClosedLemmas.

Section CacheLemmas.

Context {FS : Type} `{RemoteFS FS}.

(** The probe leaves the world as it is, or with its own call recorded. *)
Lemma probe_world (address : string) (w wp : World FS) (r : Res unit) :
  run (probe address) w = (r, wp) ->
  wp = w \/ exists c : ref, _connections w !! address = Some c /\ wp = issue (Run c "pwd") w.
Proof.
  rewrite run_probe. destruct (_connections w !! address) as [c|].
  - destruct (link_of w c); intros Hp; inversion Hp; subst; right; exists c; auto.
  - intros Hp; inversion Hp; subst; auto.
Qed.

(** What a reconnect leaves alone: the entries of the other addresses, the
    client objects there were, the processes and the remote side. *)
Lemma reconnect_frame (address : string) (w : World FS) :
  let w' := snd (reconnect address w) in
  (forall other : string, other <> address ->
     _connections w' !! other = _connections w !! other) /\
  take (length (clients w)) (clients w') = clients w /\
  procs w' = procs w /\ remote w' = remote w /\
  net w' = net w /\ spawn w' = spawn w.
Proof.
  unfold reconnect. destruct (net w address); simpl.
  - split; [intros other Hne; apply lookup_insert_ne; congruence|].
    split; [apply take_app_length|auto].
  - split; [intros other Hne; apply lookup_delete_ne; congruence|].
    split; [apply firstn_all|auto].
  - split; [intros other Hne; apply lookup_delete_ne; congruence|].
    split; [apply firstn_all|auto].
Qed.

End CacheLemmas.

(** X1. When the probe fails with one of the classes of the [except]
    clause (no entry, a cached object that is no connection, a connection
    that is closed or refuses the channel) and the device answers the
    handshake, [_get_connection] returns a new client object, made by
    exactly one handshake: its file-transfer channel is open at
    [/home/robot], it is what the cache now holds for the address, and
    after the probe the calls made are the handshake, [start_sftp_client]
    and [chdir], in this order.  The client objects that were there are
    left as they were: a replaced connection is not closed. *)
Theorem get_connection_replaces_dead_handle {FS : Type} `{RemoteFS FS}
    (address : string) (w : World FS) (e : exn) :
  result (probe address) w = Raise e ->
  no_working_connection e = true ->
  net w address = Up ->
  exists w' : World FS,
    run (_get_connection address) w = (Ret (length (clients w)), w') /\
    _connections w' = <[address := length (clients w)]> (_connections w) /\
    clients w' = clients w ++ [mkClient address Up (Some (mkSftp _HOME false)) false] /\
    handshakes w' = S (handshakes w) /\
    calls w' = calls (after (probe address) w)
               ++ [Connect address _USER _PASSWORD;
                   StartSftp (length (clients w));
                   SftpChdir (length (clients w)) _HOME].
Proof.
  unfold result, after. destruct (run (probe address) w) as [r wp] eqn:Hp.
  cbn [fst snd]. intros -> He Hnet.
  destruct (probe_frame address w wp _ Hp) as (Hc & Hh & Hn).
  assert (Hcl : clients wp = clients w).
  { destruct (probe_world address w wp _ Hp) as [->|(c & _ & ->)]; reflexivity. }
  exists (connected address wp).
  rewrite (run_reconnect_branch address w wp e Hp He). unfold reconnect.
  rewrite Hn, Hnet, <- Hcl. split; [reflexivity|].
  split; [simpl; rewrite Hc; reflexivity|].
  split; [reflexivity|]. split; [|reflexivity].
  unfold handshakes in *. simpl. rewrite List.filter_app, length_app, Hh. simpl. lia.
Qed.

Lemma get_connection_replaces_dead_handle_witness :
  let w := after (disconnect session1) world1 in
  result (probe device) w = Raise ChannelOpenError /\
  no_working_connection ChannelOpenError = true /\
  net w device = Up /\
  exists w' : World Tree.FS,
    run (_get_connection device) w = (Ret (length (clients w)), w') /\
    _connections w' = <[device := length (clients w)]> (_connections w) /\
    clients w' = clients w ++ [mkClient device Up (Some (mkSftp _HOME false)) false] /\
    handshakes w' = S (handshakes w) /\
    calls w' = calls (after (probe device) w)
               ++ [Connect device _USER _PASSWORD;
                   StartSftp (length (clients w));
                   SftpChdir (length (clients w)) _HOME].
Proof.
  intros w.
  assert (Hp : result (probe device) w = Raise ChannelOpenError) by (vm_compute; reflexivity).
  assert (Hn : net w device = Up) by (vm_compute; reflexivity).
  split; [exact Hp|]. split; [reflexivity|]. split; [exact Hn|].
  exact (get_connection_replaces_dead_handle device w ChannelOpenError Hp eq_refl Hn).
Defined.

(** X2. However [_get_connection(address)] ends - with a handle, with an
    exception or never - it leaves alone the cache entries of all other
    addresses, every client object that existed (none is closed or
    changed), the processes and the remote file systems. *)
Theorem get_connection_leaves_the_rest {FS : Type} `{RemoteFS FS}
    (address : string) (w : World FS) :
  let w' := after (_get_connection address) w in
  (forall other : string, other <> address ->
     _connections w' !! other = _connections w !! other) /\
  take (length (clients w)) (clients w') = clients w /\
  procs w' = procs w /\
  remote w' = remote w.
Proof.
  unfold after. rewrite run_get_connection.
  destruct (_connections w !! address) as [c|].
  - destruct (link_of w c) as [|e|].
    + simpl. split; [reflexivity|]. split; [apply firstn_all|auto].
    + destruct (no_working_connection e).
      * destruct (reconnect_frame address (issue (Run c "pwd") w))
          as (Hc & Hcl & Hp & Hr & _).
        split; [exact Hc|]. split; [exact Hcl|]. split; [exact Hp|exact Hr].
      * simpl. split; [reflexivity|]. split; [apply firstn_all|auto].
    + simpl. split; [reflexivity|]. split; [apply firstn_all|auto].
  - destruct (reconnect_frame address w) as (Hc & Hcl & Hp & Hr & _).
    split; [exact Hc|]. split; [exact Hcl|]. split; [exact Hp|exact Hr].
Qed.

(** ** Invariants through the session operations *)

Section KeepsAny.

Context {FS : Type} `{RemoteFS FS}.

Variable I : World FS -> Prop.
Variable allowed : Call -> bool.

Hypothesis I_printed : forall args end_ w, I w -> I (printed args end_ w).
Hypothesis I_call : forall op w,
  allowed op = true -> I w -> I (snd (effect op (issue op w))).

Lemma any_await (op : Call) (t : option N) :
  allowed op = true -> Keeps I (Await op t reply).
Proof.
  intros Hop. constructor.
  - intros w Hw. apply I_call; assumption.
  - intros r. apply keeps_reply.
Qed.

Lemma any_print (args : list string) (end_ : string) :
  Keeps I (print (FS := FS) args end_).
Proof.
  unfold print, modify. constructor. intros w Hw.
  constructor; [apply I_printed; exact Hw|constructor].
Qed.

Lemma any_getattr_client (self : EV3SSH) :
  Keeps I (getattr_client (FS := FS) self).
Proof. unfold getattr_client. destruct (client self); constructor. Qed.

Lemma any_self_client_sftp (self : EV3SSH) :
  Keeps I (self_client_sftp (FS := FS) self).
Proof.
  unfold self_client_sftp, getattr_client, getattr_sftp.
  destruct (client self) as [c|]; simpl; [|constructor].
  constructor. intros w _. destruct (clients w !! c ≫= c_sftp); constructor.
Qed.

Hypothesis allowed_exists : forall c p, allowed (SftpExists c p) = true.
Hypothesis allowed_mkdir : forall c p, allowed (SftpMkdir c p) = true.

Lemma any_mkdir_loop (self : EV3SSH) (names : list string) :
  forall total : string, Keeps I (pybricks_mkdir_loop (FS := FS) self total names).
Proof.
  induction names as [|name names IH]; intros total; [constructor|].
  cbn [pybricks_mkdir_loop].
  apply keeps_bind; [apply any_self_client_sftp|intros c].
  apply keeps_bind; [exact (any_await (SftpExists c _) None (allowed_exists _ _))|intros found].
  apply keeps_bind; [|intros _; apply IH].
  destruct found; simpl; [constructor|].
  apply keeps_bind; [apply any_self_client_sftp|intros c'].
  exact (any_await (SftpMkdir c' _) None (allowed_mkdir _ _)).
Qed.

Lemma any_make_dirs (self : EV3SSH) (dirs : string) :
  Keeps I (pybricks_make_dirs (FS := FS) self dirs).
Proof.
  unfold pybricks_make_dirs.
  apply keeps_bind; [apply any_self_client_sftp|intros c].
  apply keeps_bind; [exact (any_await (SftpExists c _) None (allowed_exists _ _))|intros found].
  destruct found; simpl; [constructor|apply any_mkdir_loop].
Qed.

Hypothesis allowed_readline : forall p, allowed (Readline p) = true.

Lemma any_poll (p : ref) (fuel : nat) :
  Keeps I (pybricks_poll (FS := FS) fuel p).
Proof.
  induction fuel as [|fuel IH]; [constructor|].
  cbn [pybricks_poll]. apply keeps_bind.
  - unfold exit_status. constructor. intros w _.
    destruct (procs w !! p); constructor.
  - intros [st|]; [constructor|].
    apply keeps_bind; [|intros _; exact IH].
    apply keeps_try_except; [|constructor].
    apply keeps_bind; [|intros line; apply any_print].
    exact (any_await (Readline p) (Some poll_timeout) (allowed_readline p)).
Qed.

Hypothesis allowed_put : forall c l p, allowed (SftpPut c l p) = true.
Hypothesis allowed_create : forall c prog, allowed (CreateProcess c prog) = true.
Hypothesis allowed_close : forall p, allowed (ProcClose p) = true.

Lemma any_pybricks (fuel : nat) (self : EV3SSH) (file_path : string) :
  Keeps I (pybricks (FS := FS) fuel self file_path).
Proof.
  unfold pybricks. destruct (Path.split file_path) as [dirs file_name].
  apply keeps_bind; [apply any_make_dirs|intros _].
  unfold pybricks_send_and_run.
  apply keeps_bind; [apply any_self_client_sftp|intros c].
  apply keeps_bind; [exact (any_await (SftpPut c _ _) None (allowed_put _ _ _))|intros _].
  apply keeps_bind; [apply any_print|intros _].
  apply keeps_bind; [apply any_getattr_client|intros c'].
  apply keeps_bind; [exact (any_await (CreateProcess c' _) None (allowed_create _ _))|].
  intros process.
  apply keeps_finally; [apply any_poll|].
  exact (any_await (ProcClose process) None (allowed_close _)).
Qed.

End KeepsAny.

Section ReadyLemmas.

Context {FS : Type} `{RemoteFS FS}.

(** No call changes the cache. *)
Lemma effect_connections (op : Call) (w : World FS) :
  _connections (snd (effect op w)) = _connections w.
Proof.
  destruct op; simpl;
    try (destruct (link_of w c); reflexivity);
    try (destruct (sftp_link_of w c); reflexivity);
    try reflexivity.
  - destruct (net w address); reflexivity.
  - destruct (sftp_link_of w c); simpl; try reflexivity.
    destruct (fs_mkdir _ _); reflexivity.
  - destruct (sftp_link_of w c); simpl; try reflexivity.
    destruct (fs_put _ _); reflexivity.
  - destruct (procs w !! p) as [pr|]; [|reflexivity].
    destruct (read_line (arrive pr)). reflexivity.
Qed.

(** [pybricks] never touches the cache. *)
Lemma pybricks_keeps_connections (fuel : nat) (self : EV3SSH) (file_path : string)
    (w : World FS) :
  _connections (after (pybricks fuel self file_path) w) = _connections w.
Proof.
  apply (keeps_run (connections_are (_connections w))); [|reflexivity].
  apply (any_pybricks _ (fun _ => true)); auto.
  intros op w' _ Hw'. unfold connections_are in *.
  rewrite effect_connections. exact Hw'.
Qed.

Lemma sftp_ready_empty (w : World FS) : _connections w = ∅ -> sftp_ready w.
Proof. intros Hempty a c Ha. rewrite Hempty, lookup_empty in Ha. discriminate. Qed.

(** The invariant is read off the cache and the client objects. *)
Lemma sftp_ready_same (w w' : World FS) :
  _connections w' = _connections w -> clients w' = clients w ->
  sftp_ready w -> sftp_ready w'.
Proof. unfold sftp_ready. intros -> ->. auto. Qed.

Lemma sftp_ready_delete (address : string) (w w' : World FS) :
  _connections w' = delete address (_connections w) -> clients w' = clients w ->
  sftp_ready w -> sftp_ready w'.
Proof.
  unfold sftp_ready. intros -> -> Hw a c Ha.
  apply lookup_delete_Some in Ha as [_ Ha]. eauto.
Qed.

Lemma sftp_ready_reconnect (address : string) (w : World FS) :
  sftp_ready w -> sftp_ready (snd (reconnect address w)).
Proof.
  intros Hw. unfold reconnect. destruct (net w address).
  - intros a c Ha. simpl in *.
    destruct (decide (a = address)) as [->|Hne].
    + rewrite lookup_insert_eq in Ha. injection Ha as <-.
      rewrite lookup_snoc. eexists _, _. split; [reflexivity|].
      split; [reflexivity|discriminate].
    + rewrite lookup_insert_ne in Ha by congruence.
      destruct (Hw a c Ha) as (cl & s & Hcl & Hs & Hex).
      exists cl, s. split; [|auto].
      rewrite lookup_app_l; [exact Hcl|]. apply lookup_lt_Some in Hcl. exact Hcl.
  - apply (sftp_ready_delete address w); auto.
  - apply (sftp_ready_delete address w); auto.
Qed.

Lemma sftp_ready_get_connection (address : string) (w : World FS) :
  sftp_ready w -> sftp_ready (after (_get_connection address) w).
Proof.
  intros Hw. unfold after. rewrite run_get_connection.
  destruct (_connections w !! address) as [c|].
  - destruct (link_of w c) as [|e|].
    + apply (sftp_ready_same w); auto.
    + destruct (no_working_connection e).
      * apply sftp_ready_reconnect. apply (sftp_ready_same w); auto.
      * apply (sftp_ready_same w); auto.
    + apply (sftp_ready_same w); auto.
  - apply sftp_ready_reconnect. exact Hw.
Qed.

Lemma sftp_ready_disconnect (self : EV3SSH) (w : World FS) :
  sftp_ready w -> sftp_ready (after (disconnect self) w).
Proof.
  intros Hw. unfold after. rewrite run_disconnect.
  destruct (client self) as [c|]; [|exact Hw].
  destruct (clients w !! c ≫= c_sftp) as [s0|]; [|exact Hw].
  intros a c' Ha. simpl snd. rewrite clients_disconnected.
  destruct (Hw a c' Ha) as ([ad l o b] & s & Hcl & Hs & Hex).
  simpl in Hs. subst o.
  destruct (decide (c = c')) as [->|Hne].
  - rewrite !list_lookup_alter_eq, Hcl. simpl.
    eexists _, _. split; [reflexivity|]. split; [reflexivity|reflexivity].
  - rewrite !list_lookup_alter_ne by exact Hne.
    eexists _, _. split; [exact Hcl|]. split; [reflexivity|exact Hex].
Qed.

Lemma run_beep (self : EV3SSH) (w : World FS) :
  run (beep self) w =
  match client self with
  | None => (Raise AttributeError, w)
  | Some c =>
      match link_of w c with
      | Up => (Ret tt, issue (Run c "beep") w)
      | Down e => (Raise e, issue (Run c "beep") w)
      | Silent => (Hang, issue (Run c "beep") w)
      end
  end.
Proof.
  unfold beep, getattr_client. destruct (client self) as [c|]; [|reflexivity].
  simpl. rewrite link_of_issue. destruct (link_of w c); reflexivity.
Qed.

End ReadyLemmas.

Section WithinLemmas.

Context {FS : Type} `{RemoteFS FS}.

Variable allowed : Call -> bool.
Variable I : World FS -> Prop.

Lemma within_bind {A B : Type} (m : Co FS A) (f : A -> Co FS B) :
  Within allowed I m -> (forall a, Within allowed I (f a)) ->
  Within allowed I (bind m f).
Proof.
  intros Hm Hf. induction Hm; simpl; auto; constructor; auto.
Qed.

Lemma within_try_except {A : Type} (m : Co FS A) (classes : exn -> bool) (h : Co FS A) :
  Within allowed I m -> Within allowed I h -> Within allowed I (try_except m classes h).
Proof.
  intros Hm Hh. induction Hm; simpl; try (constructor; auto; fail).
  destruct (classes e); [exact Hh|constructor].
Qed.

Lemma within_finally {A : Type} (m : Co FS A) (cleanup : Co FS unit) :
  Within allowed I m -> Within allowed I cleanup -> Within allowed I (finally m cleanup).
Proof.
  intros Hm Hc. induction Hm; simpl; try (constructor; auto; fail).
  - apply within_bind; [exact Hc|intros; constructor].
  - apply within_bind; [exact Hc|intros; constructor].
Qed.

Lemma within_reply {X : Type} (r : Reply X) : Within allowed I (reply (FS := FS) r).
Proof. destruct r; constructor. Qed.

Lemma within_call (op : Call) (t : option N) :
  allowed op = true -> Within allowed I (Await (FS := FS) op t reply).
Proof. intros Hop. constructor; [exact Hop|apply within_reply]. Qed.

Hypothesis I_printed : forall args end_ w, I w -> I (printed args end_ w).

Lemma within_print (args : list string) (end_ : string) :
  Within allowed I (print (FS := FS) args end_).
Proof.
  unfold print, modify. constructor. intros w Hw.
  constructor; [apply I_printed; exact Hw|constructor].
Qed.

Lemma within_getattr_client (self : EV3SSH) :
  Within allowed I (getattr_client (FS := FS) self).
Proof. unfold getattr_client. destruct (client self); constructor. Qed.

Lemma within_self_client_sftp (self : EV3SSH) :
  Within allowed I (self_client_sftp (FS := FS) self).
Proof.
  unfold self_client_sftp.
  apply within_bind; [apply within_getattr_client|intros c].
  apply within_bind; [|intros _; constructor].
  unfold getattr_sftp. constructor. intros w _.
  destruct (clients w !! c ≫= c_sftp); constructor.
Qed.

(** A coroutine within [allowed] and [I] keeps [I] in every environment
    that keeps it, when the calls of [allowed] and their making do. *)
Lemma within_run_env {A : Type} (env : Call -> World FS -> World FS) (c : Co FS A) :
  (forall op w, I w -> I (issue op w)) ->
  (forall op w, I w -> I (env op w)) ->
  (forall op w, allowed op = true -> I w -> I (snd (effect op w))) ->
  Within allowed I c ->
  forall w : World FS, I w -> I (snd (run_env env c w)).
Proof.
  intros Hissue Henv Hcall.
  induction 1 as [a|e| |k Hk IH|w0 k Hw0 Hk IH|op k Hop Hk IH|op t k Hop Hk IH];
    intros w Hw; simpl; auto.
  - pose proof (Hcall op _ Hop (Hissue op w Hw)) as Hw1.
    destruct (effect op (issue op w)) as [o w1].
    destruct (resume o None); simpl in *; auto.
  - pose proof (Hcall op _ Hop (Henv op _ (Hissue op w Hw))) as Hw1.
    destruct (effect op (env op (issue op w))) as [o w1].
    destruct (resume o t); simpl in *; auto.
Qed.

End WithinLemmas.

Ltac within_op :=
  match goal with
  | |- Within _ _ (await ?op) => exact (within_call _ _ op None eq_refl)
  | |- Within _ _ (wait_for ?op ?n) => exact (within_call _ _ op (Some n) eq_refl)
  end.

Section ReadyEnvLemmas.

Context {FS : Type} `{RemoteFS FS}.

Lemma within_pybricks (I : World FS -> Prop) (fuel : nat) (self : EV3SSH)
    (file_path : string) :
  (forall args end_ w, I w -> I (printed args end_ w)) ->
  Within deploy_call I (pybricks (FS := FS) fuel self file_path).
Proof.
  intros I_printed.
  assert (Hloop : forall names total,
            Within deploy_call I (pybricks_mkdir_loop (FS := FS) self total names)).
  { induction names as [|name names IH]; intros total; [constructor|].
    cbn [pybricks_mkdir_loop].
    apply within_bind; [apply within_self_client_sftp|intros c].
    apply within_bind; [within_op|intros found].
    apply within_bind; [|intros _; apply IH].
    destruct found; simpl; [constructor|].
    apply within_bind; [apply within_self_client_sftp|intros c'].
    within_op. }
  assert (Hpoll : forall p n, Within deploy_call I (pybricks_poll (FS := FS) n p)).
  { intros p. induction n as [|n IH]; [constructor|].
    cbn [pybricks_poll]. apply within_bind.
    - unfold exit_status. constructor. intros w _. destruct (procs w !! p); constructor.
    - intros [st|]; [constructor|].
      apply within_bind; [|intros _; exact IH].
      apply within_try_except; [|constructor].
      apply within_bind; [within_op|intros line; apply within_print; exact I_printed]. }
  unfold pybricks. destruct (Path.split file_path) as [dirs file_name].
  apply within_bind.
  - unfold pybricks_make_dirs.
    apply within_bind; [apply within_self_client_sftp|intros c].
    apply within_bind; [within_op|intros found].
    destruct found; simpl; [constructor|apply Hloop].
  - intros _. unfold pybricks_send_and_run.
    apply within_bind; [apply within_self_client_sftp|intros c].
    apply within_bind; [within_op|intros _].
    apply within_bind; [apply within_print; exact I_printed|intros _].
    apply within_bind; [apply within_getattr_client|intros c'].
    apply within_bind; [within_op|intros process].
    apply within_finally; [apply Hpoll|within_op].
Qed.

(** The invariant is read off the cache and the client objects, their
    links apart. *)
Lemma sftp_ready_step (w w' : World FS) :
  sftp_ready w ->
  old_handles_kept w w' ->
  (forall (a : string) (c : ref),
     _connections w' !! a = Some c ->
     _connections w !! a = Some c \/
     unlinked <$> clients w' !! c
     = Some (mkClient a Up (Some (mkSftp _HOME false)) false)) ->
  sftp_ready w'.
Proof.
  intros Hw Hkept Hcache a c Ha.
  destruct (Hcache a c Ha) as [Hold|Hnew].
  - destruct (Hw a c Hold) as (cl & s & Hcl & Hs & Hex).
    pose proof (Hkept c (lookup_lt_Some _ _ _ Hcl)) as Hc. rewrite Hcl in Hc.
    destruct (clients w' !! c) as [cl'|]; [|discriminate].
    simpl in Hc. injection Hc as Haddr Hsftp Hclosed.
    exists cl', s. split; [reflexivity|]. split; [congruence|].
    intros Hexited. rewrite Hclosed. apply Hex. exact Hexited.
  - destruct (clients w' !! c) as [cl'|]; [|discriminate].
    simpl in Hnew. injection Hnew as Haddr Hsftp Hclosed.
    exists cl', (mkSftp _HOME false). split; [reflexivity|].
    split; [exact Hsftp|discriminate].
Qed.

Lemma handles_of_ready (w w' : World FS) :
  handles_of w w' -> sftp_ready w -> sftp_ready w'.
Proof.
  intros [Hc Hcl] Hw. apply (sftp_ready_step w w' Hw).
  - intros i _. rewrite <- !list_lookup_fmap, Hcl. reflexivity.
  - intros a c Ha. left. rewrite <- Hc. exact Ha.
Qed.

Variable env : Call -> World FS -> World FS.
Hypothesis Henv : changes_links_only env.

Lemma sftp_ready_get_connection_env (address : string) (w : World FS) :
  sftp_ready w -> sftp_ready (snd (run_env env (_get_connection address) w)).
Proof.
  intros Hw. rewrite run_env_get_connection.
  destruct (run_env env (probe address) w) as [rp wq] eqn:Hq.
  destruct (probe_env env Henv address w wq _ Hq)
    as (Qc & _ & _ & _ & _ & Qlen & Ql & _).
  assert (Hwq : sftp_ready wq).
  { apply (sftp_ready_step w wq Hw).
    - intros i _. apply Ql.
    - intros a c Ha. left. rewrite <- Qc. exact Ha. }
  assert (Hget : forall w1 : World FS,
            snd (run_env env (dict_get address) w1) = w1).
  { intros w1. simpl. destruct (_connections w1 !! address); reflexivity. }
  destruct rp as [[]|e| |]; cbn [snd].
  - rewrite Hget. apply (handles_of_ready wq); [split; reflexivity|exact Hwq].
  - destruct (no_working_connection e); [|exact Hwq].
    destruct (run_env env (reconnect_branch address) wq) as [rb wb] eqn:Hb.
    destruct (reconnect_branch_env env Henv address wq wb rb Hb)
      as (_ & _ & _ & _ & Bkept & Bres).
    assert (Hwb : sftp_ready wb).
    { apply (sftp_ready_step wq wb Hwq Bkept). intros a c Ha.
      destruct rb as [[]|e'| |].
      - destruct Bres as (_ & Bc & Bnew). rewrite Bc in Ha.
        destruct (decide (a = address)) as [->|Hne].
        + rewrite lookup_insert_eq in Ha. injection Ha as <-. right. exact Bnew.
        + rewrite lookup_insert_ne in Ha by congruence. left. exact Ha.
      - destruct Bres as (Bc & _). rewrite Bc in Ha.
        apply lookup_delete_Some in Ha as [_ Ha]. left. exact Ha.
      - destruct Bres as (Bc & _). rewrite Bc in Ha.
        apply lookup_delete_Some in Ha as [_ Ha]. left. exact Ha.
      - destruct Bres as (Bc & _). rewrite Bc in Ha.
        apply lookup_delete_Some in Ha as [_ Ha]. left. exact Ha. }
    destruct rb as [[]|e'| |]; cbn [and_then snd]; try exact Hwb.
    rewrite Hget. exact Hwb.
  - exact Hwq.
  - exact Hwq.
Qed.

Lemma relinked_handles (w w1 w' : World FS) :
  handles_of w w1 -> relinked w1 w' -> handles_of w w'.
Proof.
  intros [Hc Hcl] (Rc & Rcl & _). split; congruence.
Qed.

Lemma sftp_ready_beep_env (self : EV3SSH) (w : World FS) :
  sftp_ready w -> sftp_ready (snd (run_env env (beep self) w)).
Proof.
  intros Hw. unfold beep, getattr_client.
  destruct (client self) as [c|]; [|exact Hw].
  cbn [bind].
  change (sftp_ready
            (snd (run_env (A := ret_type (Run c "beep")) env (await (Run c "beep")) w))).
  rewrite run_env_await_run. cbv zeta.
  assert (Hh : handles_of w (env (Run c "beep") (issue (Run c "beep") w))).
  { apply (relinked_handles w (issue (Run c "beep") w)); [split; reflexivity|apply Henv]. }
  destruct (link_of _ c); cbn [snd]; apply (handles_of_ready w); assumption.
Qed.

(** [disconnect] awaits nothing: no environment comes between its calls. *)
Lemma run_env_disconnect (self : EV3SSH) (w : World FS) :
  run_env env (disconnect self) w = run (disconnect self) w.
Proof.
  unfold disconnect, self_client_sftp, getattr_client.
  destruct (client self) as [c|]; [|reflexivity].
  simpl. destruct (clients w !! c ≫= c_sftp); reflexivity.
Qed.

Lemma sftp_ready_pybricks_env (fuel : nat) (self : EV3SSH) (file_path : string)
    (w : World FS) :
  sftp_ready w -> sftp_ready (snd (run_env env (pybricks fuel self file_path) w)).
Proof.
  intros Hw. apply (handles_of_ready w); [|exact Hw].
  apply (within_run_env deploy_call (handles_of w) env).
  - intros op w1 Hw1. exact Hw1.
  - intros op w1 Hw1. apply (relinked_handles w w1); [exact Hw1|apply Henv].
  - intros op w1 Hop [Hc Hcl]. split.
    + rewrite effect_connections. exact Hc.
    + rewrite <- Hcl. f_equal. destruct op; try discriminate; simpl; unfold through.
      * destruct (sftp_link_of w1 c); reflexivity.
      * destruct (sftp_link_of w1 c); simpl; try reflexivity.
        destruct (fs_mkdir _ _); reflexivity.
      * destruct (sftp_link_of w1 c); simpl; try reflexivity.
        destruct (fs_put _ _); reflexivity.
      * destruct (link_of w1 c); reflexivity.
      * destruct (procs w1 !! p) as [pr|]; [|reflexivity].
        destruct (read_line (arrive pr)). reflexivity.
      * reflexivity.
  - apply within_pybricks. intros args end_ w1 Hw1. exact Hw1.
  - split; reflexivity.
Qed.

End ReadyEnvLemmas.

(** X3. The module keeps its cache sound.  "Every cached handle is a
    client object with an [sftp] attribute whose channel is exited only if
    the connection is closed" holds of an empty cache and, once it holds,
    still holds after [_get_connection], [connect], [beep], [disconnect]
    and [pybricks], however each of them ends, and whatever connections
    drop or recover while it waits for a call: also when the connection
    just made fails [start_sftp_client] or [chdir]. *)
Theorem sftp_ready_is_kept {FS : Type} `{RemoteFS FS} (w : World FS) :
  (_connections w = ∅ -> sftp_ready w) /\
  (sftp_ready w ->
   forall env : Call -> World FS -> World FS,
     changes_links_only env ->
     (forall address, sftp_ready (snd (run_env env (_get_connection address) w))) /\
     (forall self address, sftp_ready (snd (run_env env (connect self address) w))) /\
     (forall self, sftp_ready (snd (run_env env (beep self) w))) /\
     (forall self, sftp_ready (snd (run_env env (disconnect self) w))) /\
     (forall fuel self file_path,
        sftp_ready (snd (run_env env (pybricks fuel self file_path) w)))) /\
  (sftp_ready w ->
   (forall address, sftp_ready (after (_get_connection address) w)) /\
   (forall self address, sftp_ready (after (connect self address) w)) /\
   (forall self, sftp_ready (after (beep self) w)) /\
   (forall self, sftp_ready (after (disconnect self) w)) /\
   (forall fuel self file_path, sftp_ready (after (pybricks fuel self file_path) w))).
Proof.
  assert (Hall : sftp_ready w ->
            forall env : Call -> World FS -> World FS,
              changes_links_only env ->
              (forall address,
                 sftp_ready (snd (run_env env (_get_connection address) w))) /\
              (forall self address,
                 sftp_ready (snd (run_env env (connect self address) w))) /\
              (forall self, sftp_ready (snd (run_env env (beep self) w))) /\
              (forall self, sftp_ready (snd (run_env env (disconnect self) w))) /\
              (forall fuel self file_path,
                 sftp_ready (snd (run_env env (pybricks fuel self file_path) w)))).
  { intros Hw env Henv. split; [|split; [|split; [|split]]].
    - intros address. apply sftp_ready_get_connection_env; assumption.
    - intros self address.
      pose proof (sftp_ready_get_connection_env env Henv address w Hw) as Hg.
      unfold connect. rewrite run_env_bind.
      destruct (run_env env (_get_connection address) w) as [[c|e| |] w1]; exact Hg.
    - intros self. apply sftp_ready_beep_env; assumption.
    - intros self. rewrite run_env_disconnect. apply sftp_ready_disconnect. exact Hw.
    - intros fuel self file_path. apply sftp_ready_pybricks_env; assumption. }
  split; [apply sftp_ready_empty|]. split; [exact Hall|].
  intros Hw. destruct (Hall Hw still still_changes_links_only)
    as (Hg & Hc & Hb & Hd & Hp).
  unfold after. split; [|split; [|split; [|split]]].
  - intros address. rewrite <- run_env_still. apply Hg.
  - intros self address. rewrite <- run_env_still. apply Hc.
  - intros self. rewrite <- run_env_still. apply Hb.
  - intros self. rewrite <- run_env_still. apply Hd.
  - intros fuel self file_path. rewrite <- run_env_still. apply Hp.
Qed.

Lemma sftp_ready_is_kept_witness :
  let lost_at_start := link_becomes is_start_sftp 1 (Down ConnectionLost) in
  let lost := link_becomes is_exists 0 (Down ConnectionLost) in
  let wd := after (disconnect session1) world1 in
  _connections world0 = ∅ /\
  _connections world1 !! device = Some 0 /\
  sftp_ready world1 /\
  (result (disconnect session1) world1 = Ret tt /\
   _connections wd !! device = Some 0 /\ sftp_ready wd) /\
  (fst (run_env lost_at_start (connect session1 device) wd) = Raise ConnectionLost /\
   sftp_ready (snd (run_env lost_at_start (connect session1 device) wd))) /\
  (fst (run_env lost (pybricks 5 session1 "demo/hello.py") world1)
   = Raise ConnectionLost /\
   sftp_ready (snd (run_env lost (pybricks 5 session1 "demo/hello.py") world1))) /\
  (result (pybricks 5 session1 "demo/hello.py") world1 = Ret tt /\
   sftp_ready (after (pybricks 5 session1 "demo/hello.py") world1)).
Proof.
  intros lost_at_start lost wd.
  destruct (sftp_ready_is_kept world0) as (Hempty & _ & Hkept0).
  pose proof (Hempty eq_refl) as Hw0.
  destruct (Hkept0 Hw0) as (_ & Hconnect & _).
  assert (Hw1 : sftp_ready world1).
  { assert (E1 : after (connect session0 device) world0 = world1)
      by (vm_compute; reflexivity).
    rewrite <- E1. apply Hconnect. }
  destruct (sftp_ready_is_kept world1) as (_ & Henv1 & Hkept1).
  destruct (Hkept1 Hw1) as (_ & _ & _ & Hdisconnect & Hpybricks).
  pose proof (Hdisconnect session1) as Hwd. fold wd in Hwd.
  destruct (sftp_ready_is_kept wd) as (_ & Henvd & _).
  destruct (Henvd Hwd lost_at_start (link_becomes_changes_links_only _ _ _))
    as (_ & Hconnectd & _).
  destruct (Henv1 Hw1 lost (link_becomes_changes_links_only _ _ _))
    as (_ & _ & _ & _ & Hpybricks1).
  split; [reflexivity|]. split; [vm_compute; reflexivity|]. split; [exact Hw1|].
  split; [split; [vm_compute; reflexivity|split; [vm_compute; reflexivity|exact Hwd]]|].
  split; [split; [vm_compute; reflexivity|exact (Hconnectd session1 device)]|].
  split; [split; [vm_compute; reflexivity|
                  exact (Hpybricks1 5 session1 "demo/hello.py")]|].
  split; [vm_compute; reflexivity|exact (Hpybricks 5 session1 "demo/hello.py")].
Defined.

Section UsableLemmas.

Context {FS : Type} `{RemoteFS FS}.

(** A handle that [_get_connection] returns is cached and its link is up. *)
Lemma get_connection_returns_live (address : string) (w w' : World FS) (c : ref) :
  run (_get_connection address) w = (Ret c, w') ->
  _connections w' !! address = Some c /\ link_of w' c = Up.
Proof.
  intros Hrun. split; [apply (get_connection_returns_cached address w w' c Hrun)|].
  rewrite run_get_connection in Hrun.
  assert (Hre : forall w0, reconnect address w0 = (Ret c, w') -> link_of w' c = Up).
  { intros w0. unfold reconnect. destruct (net w0 address); try discriminate.
    intros [= <- <-]. unfold link_of. simpl. rewrite lookup_snoc. reflexivity. }
  destruct (_connections w !! address) as [c0|]; [|eauto].
  destruct (link_of w c0) as [|e|] eqn:Hl; try discriminate.
  - injection Hrun as <- <-. exact Hl.
  - destruct (no_working_connection e); [eauto|discriminate].
Qed.

(** On a cache kept sound, an [sftp] channel whose connection is up is up. *)
Lemma sftp_ready_channel_up (w : World FS) (address : string) (c : ref) :
  sftp_ready w ->
  _connections w !! address = Some c ->
  link_of w c = Up ->
  sftp_link_of w c = Up /\ is_Some (clients w !! c ≫= c_sftp).
Proof.
  intros Hw Hc Hl. destruct (Hw address c Hc) as (cl & s & Hcl & Hs & Hex).
  unfold link_of in Hl. unfold sftp_link_of. rewrite Hcl in *. simpl. rewrite Hs.
  destruct (c_closed cl) eqn:Hclosed; [discriminate|].
  destruct (sftp_exited s); [specialize (Hex eq_refl); discriminate|].
  split; [exact Hl|eauto].
Qed.

End UsableLemmas.

(** X4. On a cache kept sound, a session that [connect] returns can be
    used at once: its client is the handle cached for the address, the
    connection and its file-transfer channel answer, so that [beep]
    returns after the one call [run('beep')], and [disconnect] returns. *)
Theorem connect_returns_usable_session {FS : Type} `{RemoteFS FS}
    (self s1 : EV3SSH) (address : string) (w w1 : World FS) :
  sftp_ready w ->
  run (connect self address) w = (Ret s1, w1) ->
  exists c : ref,
    client s1 = Some c /\
    _connections w1 !! address = Some c /\
    link_of w1 c = Up /\
    sftp_link_of w1 c = Up /\
    run (beep s1) w1 = (Ret tt, issue (Run c "beep") w1) /\
    result (disconnect s1) w1 = Ret tt.
Proof.
  intros Hw Hrun.
  pose proof (sftp_ready_get_connection address w Hw) as Hw1.
  unfold connect in Hrun. rewrite run_bind in Hrun. unfold after in Hw1.
  destruct (run (_get_connection address) w) as [[c|e| |] w0] eqn:Hg;
    simpl in Hrun; try discriminate.
  injection Hrun as <- <-. simpl in Hw1.
  destruct (get_connection_returns_live address w w0 c Hg) as [Hc Hl].
  destruct (sftp_ready_channel_up w0 address c Hw1 Hc Hl) as [Hsl [s Hs]].
  exists c. split; [reflexivity|]. split; [exact Hc|]. split; [exact Hl|].
  split; [exact Hsl|]. split.
  - rewrite run_beep. simpl. rewrite Hl. reflexivity.
  - unfold result. rewrite run_disconnect. simpl. rewrite Hs. reflexivity.
Qed.

Lemma connect_returns_usable_session_witness :
  sftp_ready world0 /\
  run (connect session0 device) world0 = (Ret session1, world1) /\
  exists c : ref,
    client session1 = Some c /\
    _connections world1 !! device = Some c /\
    link_of world1 c = Up /\
    sftp_link_of world1 c = Up /\
    run (beep session1) world1 = (Ret tt, issue (Run c "beep") world1) /\
    result (disconnect session1) world1 = Ret tt.
Proof.
  assert (Hw : sftp_ready world0) by (apply sftp_ready_empty; reflexivity).
  assert (Hrun : run (connect session0 device) world0 = (Ret session1, world1))
    by (vm_compute; reflexivity).
  split; [exact Hw|]. split; [exact Hrun|].
  exact (connect_returns_usable_session session0 session1 device world0 world1 Hw Hrun).
Defined.

(** X5. [disconnect] and [connect] compose.  After [disconnect] the cache
    still holds the closed connection; the next [connect] to the address,
    the device answering, finds it dead by its probe (asyncssh refuses a
    channel on a closed connection), makes exactly one new handshake and
    returns a session on a new client object, which the cache now holds in
    place of the closed one. *)
Theorem connect_after_disconnect_reconnects {FS : Type} `{RemoteFS FS}
    (self : EV3SSH) (address : string) (c : ref) (s : Sftp) (w : World FS) :
  client self = Some c ->
  clients w !! c ≫= c_sftp = Some s ->
  _connections w !! address = Some c ->
  net w address = Up ->
  let wd := after (disconnect self) w in
  exists w' : World FS,
    run (connect self address) wd = (Ret (mkEV3SSH (Some (length (clients w)))), w') /\
    length (clients w) <> c /\
    _connections w' !! address = Some (length (clients w)) /\
    handshakes w' = S (handshakes w) /\
    link_of w' (length (clients w)) = Up /\
    link_of w' c = Down ChannelOpenError.
Proof.
  intros Hself Hs Hc Hnet wd.
  assert (Hwd : wd = disconnected c w).
  { unfold wd, after. rewrite run_disconnect, Hself, Hs. reflexivity. }
  destruct (clients w !! c) as [[a l o b]|] eqn:Hcl; [|discriminate].
  assert (Hlt : c < length (clients w)) by (apply lookup_lt_Some in Hcl; exact Hcl).
  assert (Hlen : length (clients wd) = length (clients w)).
  { rewrite Hwd, clients_disconnected, !length_alter. reflexivity. }
  assert (Hclosed : clients wd !! c
                    = Some (mkClient a l (option_map (fun s => mkSftp (sftp_cwd s) true) o) true)).
  { rewrite Hwd, clients_disconnected, !list_lookup_alter_eq, Hcl. reflexivity. }
  assert (Hld : link_of wd c = Down ChannelOpenError).
  { unfold link_of. rewrite Hclosed. reflexivity. }
  assert (Hcd : _connections wd !! address = Some c) by (rewrite Hwd; exact Hc).
  assert (Hnd : net wd address = Up) by (rewrite Hwd; exact Hnet).
  exists (connected address (issue (Run c "pwd") wd)).
  split; [|split; [lia|split; [|split; [|split]]]].
  - unfold connect. rewrite run_bind, run_get_connection, Hcd, Hld. simpl.
    unfold reconnect. change (net (issue (Run c "pwd") wd) address) with (net wd address).
    rewrite Hnd. cbn [and_then]. simpl. rewrite Hlen. reflexivity.
  - simpl. rewrite Hlen. apply lookup_insert_eq.
  - unfold handshakes. simpl. rewrite Hwd. simpl.
    rewrite !List.filter_app, !length_app. simpl. lia.
  - unfold link_of. simpl. rewrite <- Hlen, lookup_snoc. reflexivity.
  - unfold link_of. simpl. rewrite lookup_app_l by (rewrite Hlen; exact Hlt).
    rewrite Hclosed. reflexivity.
Qed.

Lemma connect_after_disconnect_reconnects_witness :
  let wd := after (disconnect session1) world1 in
  client session1 = Some 0 /\
  clients world1 !! 0 ≫= c_sftp = Some (mkSftp _HOME false) /\
  _connections world1 !! device = Some 0 /\
  net world1 device = Up /\
  exists w' : World Tree.FS,
    run (connect session1 device) wd = (Ret (mkEV3SSH (Some (length (clients world1)))), w') /\
    length (clients world1) <> 0 /\
    _connections w' !! device = Some (length (clients world1)) /\
    handshakes w' = S (handshakes world1) /\
    link_of w' (length (clients world1)) = Up /\
    link_of w' 0 = Down ChannelOpenError.
Proof.
  intros wd.
  assert (H1 : clients world1 !! 0 ≫= c_sftp = Some (mkSftp _HOME false))
    by (vm_compute; reflexivity).
  assert (H2 : _connections world1 !! device = Some 0) by (vm_compute; reflexivity).
  split; [reflexivity|]. split; [exact H1|]. split; [exact H2|]. split; [reflexivity|].
  exact (connect_after_disconnect_reconnects session1 device 0 _ world1 eq_refl H1 H2 eq_refl).
Defined.

(** ** The directory the loop arrives at *)

Section PathLemmas.

Lemma string_app_assoc (a b c : string) : ((a ++ b) ++ c = a ++ (b ++ c))%string.
Proof.
  induction a as [|x a IH]; [reflexivity|].
  change (String x ((a ++ b) ++ c) = String x (a ++ (b ++ c)))%string.
  rewrite IH. reflexivity.
Qed.

Lemma is_sep_eq (c : ascii) : Path.is_sep c = true -> c = Path.sep_char.
Proof. unfold Path.is_sep. apply Ascii.eqb_eq. Qed.

(** The segments [str.split] returns hold no separator. *)
Lemma str_split_no_sep (s : string) :
  Forall (fun x => no_sep x = true) (Path.str_split s).
Proof.
  induction s as [|c s IH]; simpl; [repeat constructor|].
  destruct (Path.is_sep c) eqn:Hc; [constructor; [reflexivity|exact IH]|].
  destruct (Path.str_split s) as [|x r]; [repeat constructor; simpl; rewrite Hc; reflexivity|].
  inversion IH as [|? ? Hx Hr]; subst.
  constructor; [simpl; rewrite Hc, Hx; reflexivity|exact Hr].
Qed.

(** Joining the segments with the separator gives the string back. *)
Lemma unsplit_str_split (s : string) : unsplit (Path.str_split s) = s.
Proof.
  induction s as [|c s IH]; [reflexivity|].
  cbn [Path.str_split]. destruct (Path.is_sep c) eqn:Hc.
  - apply is_sep_eq in Hc. subst c.
    destruct (Path.str_split s) as [|x r] eqn:Hs;
      [exfalso; exact (str_split_nonempty s Hs)|].
    change (unsplit (EmptyString :: x :: r))
      with (String Path.sep_char (unsplit (x :: r))).
    rewrite IH. reflexivity.
  - destruct (Path.str_split s) as [|x r] eqn:Hs;
      [exfalso; exact (str_split_nonempty s Hs)|].
    destruct r as [|y r].
    + simpl in *. rewrite IH. reflexivity.
    + change (unsplit (String c x :: y :: r))
        with (String c (x ++ Path.sep ++ unsplit (y :: r)))%string.
      change (unsplit (x :: y :: r))
        with (x ++ Path.sep ++ unsplit (y :: r))%string in IH.
      rewrite IH. reflexivity.
Qed.

Lemma endswith_sep_app (a b : string) :
  b <> EmptyString -> Path.endswith_sep (a ++ b) = Path.endswith_sep b.
Proof.
  intros Hb. induction a as [|c a IH]; [reflexivity|].
  simpl. destruct (a ++ b)%string as [|d r] eqn:Hab.
  - destruct a; [simpl in Hab; contradiction|discriminate].
  - exact IH.
Qed.

Lemma no_sep_endswith (b : string) :
  no_sep b = true -> Path.endswith_sep b = false.
Proof.
  induction b as [|c b IH]; [reflexivity|].
  simpl. intros Hb. apply andb_true_iff in Hb as [Hc Hb].
  destruct b as [|d b]; [destruct (Path.is_sep c); [discriminate|reflexivity]|].
  apply IH. exact Hb.
Qed.

Lemma no_sep_startswith (b : string) :
  no_sep b = true -> Path.startswith_sep b = false.
Proof.
  destruct b as [|c b]; [reflexivity|]. simpl. intros Hb.
  apply andb_true_iff in Hb as [Hc _]. destruct (Path.is_sep c); [discriminate|reflexivity].
Qed.

(** A segment joined to a total that does not end in a separator. *)
Lemma join_segment (total name : string) :
  no_sep name = true ->
  Path.endswith_sep total = false ->
  Path.join total name =
    if Path.is_empty total then name else (total ++ Path.sep ++ name)%string.
Proof.
  intros Hn Ht. unfold Path.join. rewrite (no_sep_startswith name Hn), Ht.
  destruct total; reflexivity.
Qed.

(** The loop's [total] over segments that are not empty: the segments
    joined by the separator, after what [total] was. *)
Lemma walk_segments (names : list string) :
  Forall (fun x => no_sep x = true) names ->
  forallb (fun s => negb (Path.is_empty s)) names = true ->
  names <> [] ->
  forall total : string,
    Path.endswith_sep total = false ->
    walk total names =
      if Path.is_empty total then unsplit names
      else (total ++ Path.sep ++ unsplit names)%string.
Proof.
  induction names as [|name rest IH]; intros Hsep Hne Hnil total Ht; [contradiction|].
  inversion Hsep as [|? ? Hname Hrest]; subst.
  simpl in Hne. apply andb_true_iff in Hne as [Hname_ne Hrest_ne].
  unfold walk. cbn [fold_left]. fold (walk (Path.join total name) rest).
  rewrite (join_segment total name Hname Ht).
  assert (Hname' : name <> EmptyString) by (destruct name; [discriminate|discriminate]).
  destruct rest as [|name2 rest].
  - destruct (Path.is_empty total); reflexivity.
  - assert (Hend : Path.endswith_sep
                     (if Path.is_empty total then name
                      else (total ++ Path.sep ++ name)%string) = false).
    { destruct (Path.is_empty total); [apply no_sep_endswith; exact Hname|].
      rewrite endswith_sep_app by discriminate.
      change (Path.sep ++ name)%string with (String Path.sep_char name).
      destruct name as [|c name]; [contradiction|].
      change (Path.endswith_sep (String Path.sep_char (String c name)))
        with (Path.endswith_sep (String c name)).
      apply no_sep_endswith. exact Hname. }
    rewrite (IH Hrest Hrest_ne ltac:(discriminate) _ Hend).
    change (unsplit (name :: name2 :: rest))
      with (name ++ Path.sep ++ unsplit (name2 :: rest))%string.
    destruct total as [|c total]; cbn [Path.is_empty].
    + destruct name; [contradiction|reflexivity].
    + cbn [append]. rewrite !string_app_assoc. reflexivity.
Qed.

(** Over a directory part without empty segment the loop's [total] ends as
    the directory part itself. *)
Lemma walk_clean (dirs : string) :
  clean dirs = true -> walk EmptyString (Path.str_split dirs) = dirs.
Proof.
  intros Hclean.
  rewrite (walk_segments _ (str_split_no_sep dirs) Hclean (str_split_nonempty dirs)
             EmptyString eq_refl).
  apply unsplit_str_split.
Qed.

(** The last path the loop checks is the home joined with its last [total]. *)
Lemma prefixes_last (names : list string) :
  names <> [] ->
  forall total : string,
    last (prefixes total names) = Some (Path.join _HOME (walk total names)).
Proof.
  induction names as [|name rest IH]; intros Hnil total; [contradiction|].
  cbn [prefixes]. unfold walk. cbn [fold_left]. fold (walk (Path.join total name) rest).
  destruct rest as [|name2 rest]; [reflexivity|].
  rewrite <- (IH ltac:(discriminate) (Path.join total name)).
  cbn [prefixes]. reflexivity.
Qed.

Lemma prefixes_last_clean (dirs : string) :
  clean dirs = true \/ dirs = EmptyString ->
  last (prefixes EmptyString (Path.str_split dirs)) = Some (Path.join _HOME dirs).
Proof.
  intros [Hclean| ->]; [|reflexivity].
  rewrite (prefixes_last _ (str_split_nonempty dirs)), (walk_clean dirs Hclean).
  reflexivity.
Qed.

End PathLemmas.

Section LoopCheckLemmas.

Context {FS : Type} `{RemoteFS FS}.

(** The existence checks of a run of the loop that returns are those of
    the prefixes, in order, whichever directories were missing. *)
Lemma mkdir_loop_checks (self : EV3SSH) (c : ref) (names : list string) :
  client self = Some c ->
  forall (total : string) (w w' : World FS),
    sftp_link_of w c = Up ->
    run (pybricks_mkdir_loop self total names) w = (Ret tt, w') ->
    exists new : list Call,
      calls w' = calls w ++ new /\ Guarded new /\
      List.filter is_exists new = map (SftpExists c) (prefixes total names).
Proof.
  intros Hs. induction names as [|name names IH]; intros total w w' Hl Hrun.
  - simpl in Hrun. injection Hrun as <-.
    exists []. rewrite app_nil_r. split; [reflexivity|]. split; [constructor|reflexivity].
  - rewrite (run_mkdir_loop_cons self c total name names w Hs Hl) in Hrun.
    cbv zeta in Hrun. cbn [prefixes].
    set (total' := Path.join total name) in *.
    set (p := Path.join _HOME total') in *.
    destruct (fs_exists (remote w (address_of w c)) p) eqn:Hfound.
    + apply IH in Hrun; [|exact Hl].
      destruct Hrun as (new & Hcalls & Hg & Hchecks).
      exists (SftpExists c p :: new). split; [|split].
      * rewrite Hcalls. simpl. rewrite <- app_assoc. reflexivity.
      * constructor. exact Hg.
      * simpl. rewrite Hchecks. reflexivity.
    + destruct (fs_mkdir (remote w (address_of w c)) p) as [fs'|] eqn:Hmk;
        [|discriminate].
      apply IH in Hrun; [|exact Hl].
      destruct Hrun as (new & Hcalls & Hg & Hchecks).
      exists (SftpExists c p :: SftpMkdir c p :: new). split; [|split].
      * rewrite Hcalls. simpl. rewrite <- !app_assoc. reflexivity.
      * apply guarded_mkdir. exact Hg.
      * simpl. rewrite Hchecks. reflexivity.
Qed.

Lemma last_map {A B : Type} (f : A -> B) (l : list A) :
  last (map f l) = f <$> last l.
Proof.
  induction l as [|a [|b l] IH]; [reflexivity|reflexivity|].
  change (last (map f (b :: l)) = f <$> last (b :: l)). exact IH.
Qed.

End LoopCheckLemmas.

(** X6. The [for] loop of [pybricks] arrives at the directory part.  When
    the directory the file is to go into is missing and the directory step
    returns, for a directory part without empty segment (relative, no
    doubled and no trailing separator): after the check of the whole
    directory, the existence checks the loop makes are those of the paths
    joined segment by segment from [dirs.split(sep)], in order, whichever
    of them were missing; every [mkdir] comes right after the check of the
    same path; the last path the loop checks is the very directory whose
    absence made the loop run, [path.join(_HOME, dirs)]; and [total] ends
    as the directory part itself. *)
Theorem mkdir_loop_arrives_at_parent {FS : Type} `{RemoteFS FS}
    (self : EV3SSH) (c : ref) (dirs : string) (w w' : World FS) :
  clean dirs = true ->
  client self = Some c ->
  fs_exists (remote w (address_of w c)) (Path.join _HOME dirs) = false ->
  run (pybricks_make_dirs self dirs) w = (Ret tt, w') ->
  exists new : list Call,
    calls w' = calls w ++ SftpExists c (Path.join _HOME dirs) :: new /\
    Guarded new /\
    List.filter is_exists new =
      map (SftpExists c) (prefixes "" (Path.str_split dirs)) /\
    last (List.filter is_exists new) = Some (SftpExists c (Path.join _HOME dirs)) /\
    walk "" (Path.str_split dirs) = dirs.
Proof.
  intros Hclean Hs Hmissing Hrun.
  destruct (make_dirs_returns_connected self dirs w w' Hrun) as (c' & Hs' & Hl).
  assert (c' = c) by congruence. subst c'.
  rewrite (run_make_dirs self c dirs w Hs Hl) in Hrun. cbv zeta in Hrun.
  rewrite Hmissing in Hrun.
  apply (mkdir_loop_checks self c _ Hs) in Hrun; [|exact Hl].
  destruct Hrun as (new & Hcalls & Hg & Hchecks).
  exists new. split; [|split; [exact Hg|split; [exact Hchecks|split]]].
  - rewrite Hcalls. simpl. rewrite <- app_assoc. reflexivity.
  - rewrite Hchecks, last_map, prefixes_last_clean; [reflexivity|].
    left. exact Hclean.
  - apply walk_clean. exact Hclean.
Qed.

Lemma mkdir_loop_arrives_at_parent_witness :
  let w := world1 in
  let w' := after (pybricks_make_dirs session1 "demo/sub") world1 in
  clean "demo/sub" = true /\
  fs_exists (remote w (address_of w 0)) (Path.join _HOME "demo/sub") = false /\
  run (pybricks_make_dirs session1 "demo/sub") w = (Ret tt, w') /\
  exists new : list Call,
    calls w' = calls w ++ SftpExists 0 "/home/robot/demo/sub" :: new /\
    Guarded new /\
    List.filter is_exists new =
      [SftpExists 0 "/home/robot/demo"; SftpExists 0 "/home/robot/demo/sub"] /\
    last (List.filter is_exists new) = Some (SftpExists 0 "/home/robot/demo/sub") /\
    walk "" (Path.str_split "demo/sub") = "demo/sub".
Proof.
  cbv zeta.
  split; [reflexivity|]. split; [vm_compute; reflexivity|].
  split; [vm_compute; reflexivity|].
  apply (mkdir_loop_arrives_at_parent session1 0 "demo/sub" world1
           (after (pybricks_make_dirs session1 "demo/sub") world1));
    vm_compute; reflexivity.
Defined.

(** X7. When the directory step of [pybricks] returns, the directory the
    file is uploaded into exists: for every file path whose directory part
    is empty or has no empty segment, and every remote file system with
    the two [mkdir] laws, [path.join(_HOME, dirs)] exists on the device
    afterwards. *)
Theorem make_dirs_ensures_parent {FS : Type} `{RemoteFS FS}
    (self : EV3SSH) (file_path : string) (w w1 : World FS) :
  let dirs := fst (Path.split file_path) in
  clean dirs = true \/ dirs = "" ->
  run (pybricks_make_dirs self dirs) w = (Ret tt, w1) ->
  exists c : ref,
    client self = Some c /\
    fs_exists (remote w1 (address_of w1 c)) (Path.join _HOME dirs) = true.
Proof.
  intros dirs Hdirs Hrun.
  destruct (make_dirs_returns_connected self dirs w w1 Hrun) as (c & Hs & Hl).
  exists c. split; [exact Hs|].
  rewrite (run_make_dirs self c dirs w Hs Hl) in Hrun. cbv zeta in Hrun.
  destruct (fs_exists (remote w (address_of w c)) (Path.join _HOME dirs)) eqn:Htop.
  - injection Hrun as <-. exact Htop.
  - apply (mkdir_loop_creates self c _ Hs) in Hrun; [|exact Hl].
    destruct Hrun as (Hcl & _ & Hall & _).
    rewrite (address_of_clients _ w1 c Hcl).
    change (address_of (issue (SftpExists c (Path.join _HOME dirs)) w) c)
      with (address_of w c) in *.
    rewrite Forall_forall in Hall. apply Hall.
    apply last_Some_elem_of. apply prefixes_last_clean. exact Hdirs.
Qed.

Lemma make_dirs_ensures_parent_witness :
  let w1 := after (pybricks_make_dirs session1 "demo/sub") world1 in
  fs_exists (remote world1 (address_of world1 0)) "/home/robot/demo/sub" = false /\
  (clean (fst (Path.split "demo/sub/hello.py")) = true \/
   fst (Path.split "demo/sub/hello.py") = "") /\
  run (pybricks_make_dirs session1 (fst (Path.split "demo/sub/hello.py"))) world1
    = (Ret tt, w1) /\
  exists c : ref,
    client session1 = Some c /\
    fs_exists (remote w1 (address_of w1 c))
      (Path.join _HOME (fst (Path.split "demo/sub/hello.py"))) = true.
Proof.
  intros w1.
  assert (Hrun : run (pybricks_make_dirs session1 (fst (Path.split "demo/sub/hello.py")))
                   world1 = (Ret tt, w1)) by (vm_compute; reflexivity).
  split; [vm_compute; reflexivity|]. split; [left; reflexivity|]. split; [exact Hrun|].
  exact (make_dirs_ensures_parent session1 "demo/sub/hello.py" world1 w1
           (or_introl eq_refl) Hrun).
Defined.

(** ** The process [pybricks] launches *)

Section ProcessLemmas.

Context {FS : Type} `{RemoteFS FS}.

Lemma file_call_procs (ps : list Proc) (op : Call) (w : World FS) :
  file_call op = true -> procs_are ps w ->
  procs_are ps (snd (effect op (issue op w))).
Proof.
  unfold procs_are.
  destruct op; try discriminate; intros _ Hw; simpl; unfold through;
    destruct (sftp_link_of _ _); simpl; try exact Hw.
  - destruct (fs_mkdir _ _); exact Hw.
  - destruct (fs_put _ _); exact Hw.
Qed.

Lemma procs_kept {A : Type} (c : Co FS A) (w w' : World FS) (r : Res A) :
  Keeps (procs_are (procs w)) c -> run c w = (r, w') -> procs w' = procs w.
Proof.
  intros Hc Hrun. pose proof (keeps_run _ c Hc w eq_refl) as Hk.
  rewrite Hrun in Hk. exact Hk.
Qed.

Lemma make_dirs_procs (self : EV3SSH) (dirs : string) (w w' : World FS) (r : Res unit) :
  run (pybricks_make_dirs self dirs) w = (r, w') -> procs w' = procs w.
Proof.
  apply procs_kept.
  apply (any_make_dirs _ file_call); [|reflexivity|reflexivity].
  intros op w0. apply file_call_procs.
Qed.

(** The polling loop touches no process object but its own; when it
    returns, it has seen the exit status. *)
Lemma poll_frame (p : ref) (fuel : nat) :
  forall (w w' : World FS) (r : Res unit),
    run (pybricks_poll fuel p) w = (r, w') ->
    length (procs w') = length (procs w) /\
    (forall i : nat, i <> p -> procs w' !! i = procs w !! i) /\
    (r = Ret tt ->
     exists (pr : Proc) (st : Z), procs w' !! p = Some pr /\ p_exit_status pr = Some st).
Proof.
  induction fuel as [|fuel IH]; intros w w' r Hrun.
  - simpl in Hrun. injection Hrun as <- <-.
    split; [reflexivity|]. split; [reflexivity|discriminate].
  - destruct (procs w !! p) as [pr|] eqn:Hp.
    + destruct (p_exit_status pr) as [st|] eqn:Hexit.
      * rewrite (run_poll_exited fuel p pr st w Hp Hexit) in Hrun.
        injection Hrun as <- <-.
        split; [reflexivity|]. split; [reflexivity|]. intros _. eauto.
      * rewrite (run_poll_step fuel p pr w Hp Hexit) in Hrun.
        assert (Hstep : forall (pr' : Proc) (w1 : World FS),
                   procs w1 = <[p := pr']> (procs w) ->
                   run (pybricks_poll fuel p) w1 = (r, w') ->
                   length (procs w') = length (procs w) /\
                   (forall i : nat, i <> p -> procs w' !! i = procs w !! i) /\
                   (r = Ret tt ->
                    exists (pr : Proc) (st : Z),
                      procs w' !! p = Some pr /\ p_exit_status pr = Some st)).
        { intros pr' w1 Hw1 Hrun1.
          destruct (IH w1 w' r Hrun1) as (Hlen & Hother & Hret).
          rewrite Hw1 in Hlen, Hother. rewrite length_insert in Hlen.
          split; [exact Hlen|]. split; [|exact Hret].
          intros i Hi. rewrite (Hother i Hi).
          apply list_lookup_insert_ne. intros ->. apply Hi. reflexivity. }
        destruct (read_line (arrive pr)) as [[line|e|] pr'].
        -- eapply (Hstep pr'); [|exact Hrun]; reflexivity.
        -- destruct (is_TimeoutError e); [eapply (Hstep pr'); [|exact Hrun]; reflexivity|].
           injection Hrun as <- <-. simpl. rewrite length_insert.
           split; [reflexivity|]. split; [|discriminate].
           intros i Hi. apply list_lookup_insert_ne. intros ->. apply Hi. reflexivity.
        -- eapply (Hstep pr'); [|exact Hrun]; reflexivity.
    + rewrite (run_poll_no_process fuel p w Hp) in Hrun. injection Hrun as <- <-.
      split; [reflexivity|]. split; [reflexivity|discriminate].
Qed.

(** Leaving the [async with] block closes the process and nothing else. *)
Lemma run_proc_close (p : ref) (w : World FS) :
  exists w' : World FS,
    run (A := unit) (await (ProcClose p)) w = (Ret tt, w') /\
    length (procs w') = length (procs w) /\
    (forall i : nat, i <> p -> procs w' !! i = procs w !! i) /\
    (forall pr : Proc, procs w !! p = Some pr ->
       exists pr' : Proc,
         procs w' !! p = Some pr' /\ p_closed pr' = true /\
         p_exit_status pr' = p_exit_status pr).
Proof.
  eexists. split; [reflexivity|]. simpl. split; [apply length_alter|].
  split.
  - intros i Hi. apply list_lookup_alter_ne. intros ->. apply Hi. reflexivity.
  - intros pr Hp. eexists. rewrite list_lookup_alter_eq, Hp. simpl.
    split; [reflexivity|]. split; reflexivity.
Qed.

(** What the part of [pybricks] after the directories does to the process
    objects. *)
Lemma send_and_run_procs (fuel : nat) (self : EV3SSH) (file_path : string)
    (w w' : World FS) (r : Res unit) :
  run (pybricks_send_and_run fuel self file_path) w = (r, w') ->
  r <> OutOfFuel ->
  (forall i : nat, i < length (procs w) -> procs w' !! i = procs w !! i) /\
  length (procs w') <= S (length (procs w)) /\
  (forall (i : nat) (pr : Proc),
     length (procs w) <= i -> procs w' !! i = Some pr -> p_closed pr = true) /\
  (r = Ret tt ->
   exists (pr : Proc) (st : Z),
     procs w' !! length (procs w) = Some pr /\
     p_exit_status pr = Some st /\ p_closed pr = true).
Proof.
  intros Hrun Hfuel.
  assert (Hnone : forall w1 : World FS, procs w1 = procs w -> r <> Ret tt ->
            (forall i : nat, i < length (procs w) -> procs w1 !! i = procs w !! i) /\
            length (procs w1) <= S (length (procs w)) /\
            (forall (i : nat) (pr : Proc),
               length (procs w) <= i -> procs w1 !! i = Some pr -> p_closed pr = true) /\
            (r = Ret tt ->
             exists (pr : Proc) (st : Z),
               procs w1 !! length (procs w) = Some pr /\
               p_exit_status pr = Some st /\ p_closed pr = true)).
  { intros w1 Hw1 Hr. rewrite Hw1. split; [reflexivity|]. split; [lia|].
    split; [|intros Hr'; contradiction].
    intros i pr Hi Hpr. apply lookup_lt_Some in Hpr. lia. }
  unfold pybricks_send_and_run in Hrun. cbv zeta in Hrun.
  rewrite run_bind in Hrun.
  destruct (run (self_client_sftp self) w) as [r1 w1] eqn:E1.
  pose proof (procs_kept _ w w1 r1 (any_self_client_sftp _ self) E1) as P1.
  destruct r1 as [c| | |]; cbn [and_then] in Hrun;
    try (injection Hrun as <- <-; apply Hnone; [exact P1|discriminate]).
  rewrite run_bind in Hrun.
  destruct (run (await (SftpPut c file_path (Path.join _HOME file_path))) w1)
    as [r2 w2] eqn:E2.
  assert (P2 : procs w2 = procs w).
  { rewrite <- P1. refine (procs_kept _ w1 w2 r2 _ E2).
    apply (any_await _ file_call); [|reflexivity].
    intros op w0. apply file_call_procs. }
  destruct r2 as [[]| | |]; cbn [and_then] in Hrun;
    try (injection Hrun as <- <-; apply Hnone; [exact P2|discriminate]).
  rewrite run_bind in Hrun.
  change (run (print ["Now starting:"; Path.join _HOME file_path] nl) w2)
    with (Ret tt, printed ["Now starting:"; Path.join _HOME file_path] nl w2) in Hrun.
  cbn [and_then] in Hrun. rewrite run_bind in Hrun.
  unfold getattr_client in Hrun at 1.
  destruct (client self) as [c'|]; cbn [run and_then] in Hrun;
    [|injection Hrun as <- <-; apply Hnone; [exact P2|discriminate]].
  rewrite run_bind in Hrun.
  remember (printed ["Now starting:"; Path.join _HOME file_path] nl w2) as w3 eqn:E3.
  assert (P3 : procs w3 = procs w) by (subst w3; exact P2).
  clear E3 E2 E1 P1 P2 w1 w2.
  remember ("brickrun -r -- pybricks-micropython " ++ Path.join _HOME file_path)%string
    as prog eqn:Eprog.
  cbn [await run effect] in Hrun. unfold through in Hrun.
  change (link_of (issue (CreateProcess c' prog) w3) c') with (link_of w3 c') in Hrun.
  destruct (link_of w3 c') as [|e|]; cbn [resume reply run and_then] in Hrun;
    try (injection Hrun as <- <-; apply Hnone; [exact P3|discriminate]).
  change (procs (issue (CreateProcess c' prog) w3)) with (procs w3) in Hrun.
  rewrite P3 in Hrun.
  match type of Hrun with
  | context [set_procs ?f ?x] => remember (set_procs f x) as w4 eqn:E4
  end.
  assert (P4 : procs w4 = procs w ++ [new_proc c' prog (spawn w3 prog)]).
  { subst w4. simpl. rewrite P3. reflexivity. }
  clear E4.
  set (p := length (procs w)) in *.
  rewrite run_finally in Hrun.
  destruct (run (pybricks_poll fuel p) w4) as [r5 w5] eqn:E5.
  destruct (poll_frame p fuel w4 w5 r5 E5) as (L5 & O5 & R5).
  pose proof (poll_never_hangs fuel p w4) as Hhang. rewrite E5 in Hhang. simpl in Hhang.
  destruct (run_proc_close p w5) as (w6 & E6 & L6 & O6 & C6).
  assert (Hp5 : exists pr : Proc, procs w5 !! p = Some pr).
  { apply lookup_lt_is_Some. rewrite L5, P4, length_app. simpl. unfold p. lia. }
  destruct Hp5 as [pr5 Hp5]. destruct (C6 pr5 Hp5) as (pr6 & Hp6 & Hclosed & Hstatus).
  assert (Hold : forall i : nat, i < length (procs w) -> procs w6 !! i = procs w !! i).
  { intros i Hi. rewrite O6, O5 by (unfold p; lia). rewrite P4.
    apply lookup_app_l. exact Hi. }
  assert (Hlen : length (procs w6) = S (length (procs w))).
  { rewrite L6, L5, P4, length_app. simpl. lia. }
  assert (Hnew : forall (i : nat) (pr : Proc),
            length (procs w) <= i -> procs w6 !! i = Some pr -> p_closed pr = true).
  { intros i pr Hi Hpr. pose proof (lookup_lt_Some _ _ _ Hpr) as Hlt.
    assert (i = p) as -> by (unfold p; lia).
    rewrite Hp6 in Hpr. injection Hpr as <-. exact Hclosed. }
  destruct r5 as [[]|e| |]; rewrite ?E6 in Hrun; cbn [and_then] in Hrun;
    try contradiction.
  - injection Hrun as <- <-.
    split; [exact Hold|]. split; [lia|]. split; [exact Hnew|].
    intros _. destruct (R5 eq_refl) as (pr & st & Hpr & Hst).
    rewrite Hp5 in Hpr. injection Hpr as ->.
    exists pr6, st. split; [exact Hp6|]. split; [congruence|exact Hclosed].
  - injection Hrun as <- <-.
    split; [exact Hold|]. split; [lia|]. split; [exact Hnew|discriminate].
  - injection Hrun as <- <-. contradiction.
Qed.

End ProcessLemmas.

(** X8. [pybricks] and the process objects.  Whatever the device does,
    when [pybricks] ends, by returning, by an exception or by waiting for
    ever in a call, it has touched no process object that existed before,
    has launched at most one, and the one it launched is closed: the
    [async with] block closes it on the way out of the loop, also when a
    read of the loop raises.  When [pybricks] returns, the process was
    launched and its exit status has arrived.  ([OutOfFuel] is the model
    cutting the loop short, not an end of [pybricks].) *)
Theorem pybricks_closes_its_process {FS : Type} `{RemoteFS FS}
    (fuel : nat) (self : EV3SSH) (file_path : string) (w w' : World FS) (r : Res unit) :
  run (pybricks fuel self file_path) w = (r, w') ->
  r <> OutOfFuel ->
  (forall i : nat, i < length (procs w) -> procs w' !! i = procs w !! i) /\
  length (procs w') <= S (length (procs w)) /\
  (forall (i : nat) (pr : Proc),
     length (procs w) <= i -> procs w' !! i = Some pr -> p_closed pr = true) /\
  (r = Ret tt ->
   exists (pr : Proc) (st : Z),
     procs w' !! length (procs w) = Some pr /\
     p_exit_status pr = Some st /\ p_closed pr = true).
Proof.
  intros Hrun Hfuel. unfold pybricks in Hrun.
  destruct (Path.split file_path) as [dirs file_name].
  rewrite run_bind in Hrun.
  destruct (run (pybricks_make_dirs self dirs) w) as [r0 w0] eqn:E0.
  pose proof (make_dirs_procs self dirs w w0 r0 E0) as P0.
  destruct r0 as [[]|e| |]; cbn [and_then] in Hrun.
  - rewrite <- P0. apply (send_and_run_procs fuel self file_path w0 w' r Hrun Hfuel).
  - injection Hrun as <- <-. rewrite P0. split; [reflexivity|]. split; [lia|].
    split; [|discriminate].
    intros i pr Hi Hpr. apply lookup_lt_Some in Hpr. lia.
  - injection Hrun as <- <-. rewrite P0. split; [reflexivity|]. split; [lia|].
    split; [|discriminate].
    intros i pr Hi Hpr. apply lookup_lt_Some in Hpr. lia.
  - injection Hrun as <- <-. contradiction.
Qed.

Lemma pybricks_closes_its_process_witness :
  let w' := after (pybricks 4 session1 "demo/hello.py") world1 in
  run (pybricks 4 session1 "demo/hello.py") world1 = (Ret tt, w') /\
  (forall i : nat, i < length (procs world1) -> procs w' !! i = procs world1 !! i) /\
  length (procs w') <= S (length (procs world1)) /\
  (forall (i : nat) (pr : Proc),
     length (procs world1) <= i -> procs w' !! i = Some pr -> p_closed pr = true) /\
  (Ret tt = Ret tt ->
   exists (pr : Proc) (st : Z),
     procs w' !! length (procs world1) = Some pr /\
     p_exit_status pr = Some st /\ p_closed pr = true).
Proof.
  intros w'.
  assert (Hrun : run (pybricks 4 session1 "demo/hello.py") world1 = (Ret tt, w'))
    by (vm_compute; reflexivity).
  split; [exact Hrun|].
  apply (pybricks_closes_its_process 4 session1 "demo/hello.py" world1 w' (Ret tt) Hrun).
  discriminate.
Defined.

(** ** A deployment from end to end *)

Section DeployLemmas.

Context {FS : Type} `{RemoteFS FS}.

Lemma sftp_up_link_up (w : World FS) (c : ref) :
  sftp_link_of w c = Up -> link_of w c = Up.
Proof.
  unfold sftp_link_of, link_of. destruct (clients w !! c) as [cl|]; [|discriminate].
  destruct (c_sftp cl) as [s|]; [|discriminate].
  destruct (sftp_exited s); [discriminate|].
  destruct (c_closed cl); [discriminate|]. intros Hl. exact Hl.
Qed.

Lemma file_call_frame (w0 : World FS) (op : Call) (w : World FS) :
  file_call op = true -> frame_of w0 w -> frame_of w0 (snd (effect op (issue op w))).
Proof.
  unfold frame_of.
  destruct op; try discriminate; intros _ Hw; simpl; unfold through;
    destruct (sftp_link_of _ _); simpl; try exact Hw.
  - destruct (fs_mkdir _ _); exact Hw.
  - destruct (fs_put _ _); exact Hw.
Qed.

(** The directory step changes the remote file system and the call log
    only. *)
Lemma make_dirs_frame (self : EV3SSH) (dirs : string) (w w1 : World FS) (r : Res unit) :
  run (pybricks_make_dirs self dirs) w = (r, w1) -> frame_of w w1.
Proof.
  intros Hrun.
  assert (Hk : Keeps (frame_of w) (pybricks_make_dirs self dirs)).
  { apply (any_make_dirs _ file_call); [|reflexivity|reflexivity].
    intros op w0. apply file_call_frame. }
  pose proof (keeps_run _ _ Hk w) as Hw. rewrite Hrun in Hw. apply Hw.
  unfold frame_of. repeat split.
Qed.

(** [pybricks] after a directory step that returned. *)
Lemma run_pybricks_after_dirs (fuel : nat) (self : EV3SSH) (file_path : string)
    (w w1 : World FS) :
  run (pybricks_make_dirs self (fst (Path.split file_path))) w = (Ret tt, w1) ->
  run (pybricks fuel self file_path) w = run (pybricks_send_and_run fuel self file_path) w1.
Proof.
  intros Hrun. unfold pybricks. destruct (Path.split file_path) as [dirs file_name].
  simpl in Hrun. rewrite run_bind, Hrun. reflexivity.
Qed.

(** The upload and the launch, on a session whose file-transfer channel
    answers. *)
Lemma run_send_and_run (fuel : nat) (self : EV3SSH) (file_path : string)
    (c : ref) (w : World FS) :
  client self = Some c -> sftp_link_of w c = Up ->
  run (pybricks_send_and_run fuel self file_path) w =
    match fs_put (remote w (address_of w c)) (Path.join _HOME file_path) with
    | None => (Raise SFTPError, issue (SftpPut c file_path (Path.join _HOME file_path)) w)
    | Some fs' =>
        run (finally (pybricks_poll fuel (length (procs w)))
                     (await (ProcClose (length (procs w)))))
            (launched c file_path fs' w)
    end.
Proof.
  intros Hs Hl. unfold pybricks_send_and_run. cbv zeta.
  rewrite run_bind, (run_self_client_sftp self w c Hs Hl). cbn [and_then].
  rewrite run_bind.
  remember (Path.join _HOME file_path) as rp eqn:Erp.
  assert (Hput : run (await (SftpPut c file_path rp)) w =
            match fs_put (remote w (address_of w c)) rp with
            | Some fs' => (Ret tt, set_remote (address_of w c) fs'
                                     (issue (SftpPut c file_path rp) w))
            | None => (Raise SFTPError, issue (SftpPut c file_path rp) w)
            end).
  { simpl. rewrite sftp_link_of_issue, Hl. simpl.
    change (address_of (issue (SftpPut c file_path rp) w) c) with (address_of w c).
    destruct (fs_put (remote w (address_of w c)) rp); reflexivity. }
  rewrite Hput. clear Hput.
  destruct (fs_put (remote w (address_of w c)) rp) as [fs'|]; cbn [and_then];
    [|reflexivity].
  rewrite run_bind.
  change (run (print ["Now starting:"; rp] nl) ?x)
    with (Ret tt, printed ["Now starting:"; rp] nl x).
  cbn [and_then]. rewrite run_bind. unfold getattr_client. rewrite Hs.
  cbn [run and_then]. rewrite run_bind.
  remember (printed ["Now starting:"; rp] nl
              (set_remote (address_of w c) fs' (issue (SftpPut c file_path rp) w)))
    as w2 eqn:E2.
  assert (Hl2 : link_of w2 c = Up) by (subst w2; apply sftp_up_link_up; exact Hl).
  assert (Hp2 : procs w2 = procs w) by (subst w2; reflexivity).
  remember ("brickrun -r -- pybricks-micropython " ++ rp)%string as prog eqn:Eprog.
  cbn [await run effect]. unfold through.
  change (link_of (issue (CreateProcess c prog) w2) c) with (link_of w2 c).
  rewrite Hl2. cbn [resume reply run and_then].
  change (procs (issue (CreateProcess c prog) w2)) with (procs w2). rewrite Hp2.
  unfold launched. cbv zeta. rewrite <- Erp, <- Eprog, <- E2. reflexivity.
Qed.

(** An upload that returns has been accepted by the device. *)
Lemma put_returned (c : ref) (local rp : string) (w w2 : World FS) :
  sftp_link_of w c = Up ->
  run (await (SftpPut c local rp)) w = (Ret tt, w2) ->
  exists fs' : FS,
    fs_put (remote w (address_of w c)) rp = Some fs' /\
    w2 = set_remote (address_of w c) fs' (issue (SftpPut c local rp) w).
Proof.
  intros Hl. simpl. rewrite sftp_link_of_issue, Hl. simpl.
  change (address_of (issue (SftpPut c local rp) w) c) with (address_of w c).
  destruct (fs_put (remote w (address_of w c)) rp) as [fs'|]; [|discriminate].
  simpl. intros Hrun. injection Hrun as <-. exists fs'. split; reflexivity.
Qed.

(** The polling loop on a closed stream whose program has not been seen
    to exit: every read returns the empty string at once, and a blank
    line is printed, until the exit status is there. *)
Lemma poll_closed (status : Z) (p : ref) (g : nat) :
  forall (w : World FS) (pr : Proc) (fuel : nat),
    procs w !! p = Some pr ->
    p_future pr = repeat [] g ++ [[Exit status]] ->
    p_stderr pr = [] -> p_fault pr = None -> p_eof pr = true ->
    p_exit_status pr = None ->
    g + 2 <= fuel ->
    exists (w' : World FS) (pr' : Proc),
      run (pybricks_poll fuel p) w = (Ret tt, w') /\
      stdout w' = stdout w ++ repeat nl (S g) /\
      calls w' = calls w ++ repeat (Readline p) (S g) /\
      procs w' !! p = Some pr' /\
      p_exit_status pr' = Some status /\ p_stderr pr' = [] /\ p_future pr' = [] /\
      p_closed pr' = p_closed pr /\
      _connections w' = _connections w /\ remote w' = remote w.
Proof.
  induction g as [|g IH]; intros w pr fuel Hp Hfut Hbuf Hfault Heof Hexit Hfuel.
  - destruct fuel as [|[|fuel]]; simpl in Hfuel; try lia.
    rewrite (run_poll_step _ p pr w Hp Hexit).
    remember (pybricks_poll _ p) as loop eqn:Hloop.
    unfold arrive, read_line. rewrite Hfut. simpl. rewrite Hbuf, Hfault, Heof.
    subst loop.
    match goal with
    | |- context [polled p ?q w] => set (pr' := q)
    end.
    exists (printed [Path.strip ""] nl (polled p pr' w)), pr'. split.
    + apply (run_poll_exited _ p pr' status); [|reflexivity].
      change (procs (printed ?a ?b ?x)) with (procs x).
      eapply procs_polled. exact Hp.
    + split; [reflexivity|]. split; [reflexivity|].
      split; [change (procs (printed ?a ?b ?x)) with (procs x);
              eapply procs_polled; exact Hp|].
      split; [reflexivity|]. split; [reflexivity|]. split; [reflexivity|].
      split; [reflexivity|]. split; reflexivity.
  - destruct fuel as [|fuel]; simpl in Hfuel; try lia.
    rewrite (run_poll_step _ p pr w Hp Hexit).
    remember (pybricks_poll _ p) as loop eqn:Hloop.
    unfold arrive, read_line. rewrite Hfut. simpl. rewrite Hbuf, Hfault, Heof.
    subst loop.
    match goal with
    | |- context [polled p ?q w] => set (pr' := q)
    end.
    destruct (IH (printed [Path.strip ""] nl (polled p pr' w)) pr' fuel)
      as (w' & pr'' & Hrun & Hout & Hcalls & Hp' & Hst & Hbuf' & Hfut' & Hcl & Hco & Hre);
      try reflexivity; try assumption; try lia.
    + change (procs (printed ?a ?b ?x)) with (procs x).
      eapply procs_polled. exact Hp.
    + exists w', pr''. split; [exact Hrun|].
      split; [rewrite Hout; simpl; rewrite <- app_assoc; reflexivity|].
      split; [rewrite Hcalls; simpl; rewrite <- app_assoc; reflexivity|].
      split; [exact Hp'|]. split; [exact Hst|]. split; [exact Hbuf'|].
      split; [exact Hfut'|]. split; [exact Hcl|]. split; [exact Hco|exact Hre].
Qed.

(** The polling loop at the end of a program's output: one read for every
    batch, a blank line for every read of the closed stream. *)
Lemma poll_ending (status : Z) (p : ref) (closing : Closing) :
  forall (w : World FS) (pr : Proc) (fuel : nat),
    procs w !! p = Some pr ->
    p_future pr = ending closing status ->
    p_stderr pr = [] -> p_fault pr = None -> p_eof pr = false ->
    p_exit_status pr = None ->
    length (ending closing status) + 1 <= fuel ->
    exists (w' : World FS) (pr' : Proc),
      run (pybricks_poll fuel p) w = (Ret tt, w') /\
      stdout w' = stdout w ++ repeat nl (blank_lines closing) /\
      calls w' = calls w ++ repeat (Readline p) (length (ending closing status)) /\
      procs w' !! p = Some pr' /\
      p_exit_status pr' = Some status /\ p_stderr pr' = [] /\ p_future pr' = [] /\
      p_closed pr' = p_closed pr /\
      _connections w' = _connections w /\ remote w' = remote w.
Proof.
  intros w pr fuel Hp Hfut Hbuf Hfault Heof Hexit Hfuel.
  destruct closing as [| |g].
  - destruct fuel as [|[|fuel]]; simpl in Hfuel; try lia.
    rewrite (run_poll_step _ p pr w Hp Hexit).
    remember (pybricks_poll _ p) as loop eqn:Hloop.
    unfold arrive, read_line. rewrite Hfut. simpl. rewrite Hbuf, Hfault, Heof.
    subst loop.
    match goal with
    | |- context [polled p ?q w] => set (pr' := q)
    end.
    exists (polled p pr' w), pr'. split.
    + eapply run_poll_exited; [eapply procs_polled; exact Hp|reflexivity].
    + simpl. rewrite app_nil_r.
      split; [reflexivity|]. split; [reflexivity|].
      split; [apply list_lookup_insert_eq; apply lookup_lt_Some in Hp; exact Hp|].
      split; [reflexivity|]. split; [reflexivity|]. split; [reflexivity|].
      split; [reflexivity|]. split; reflexivity.
  - destruct fuel as [|[|fuel]]; simpl in Hfuel; try lia.
    rewrite (run_poll_step _ p pr w Hp Hexit).
    remember (pybricks_poll _ p) as loop eqn:Hloop.
    unfold arrive, read_line. rewrite Hfut. simpl. rewrite Hbuf, Hfault.
    subst loop.
    match goal with
    | |- context [polled p ?q w] => set (pr' := q)
    end.
    exists (printed [Path.strip ""] nl (polled p pr' w)), pr'. split.
    + apply (run_poll_exited _ p pr' status); [|reflexivity].
      change (procs (printed ?a ?b ?x)) with (procs x).
      eapply procs_polled. exact Hp.
    + split; [reflexivity|]. split; [reflexivity|].
      split; [change (procs (printed ?a ?b ?x)) with (procs x);
              eapply procs_polled; exact Hp|].
      split; [reflexivity|]. split; [reflexivity|]. split; [reflexivity|].
      split; [reflexivity|]. split; reflexivity.
  - destruct fuel as [|fuel]; [simpl in Hfuel; lia|].
    assert (Hfuel' : g + 2 <= fuel).
    { simpl in Hfuel. rewrite length_app, repeat_length in Hfuel. simpl in Hfuel. lia. }
    rewrite (run_poll_step _ p pr w Hp Hexit).
    remember (pybricks_poll _ p) as loop eqn:Hloop.
    unfold arrive, read_line. rewrite Hfut. simpl. rewrite Hbuf, Hfault.
    subst loop.
    match goal with
    | |- context [polled p ?q w] => set (pr' := q)
    end.
    destruct (poll_closed status p g (printed [Path.strip ""] nl (polled p pr' w)) pr' fuel)
      as (w' & pr'' & Hrun & Hout & Hcalls & Hp' & Hst & Hbuf' & Hfut' & Hcl & Hco & Hre);
      try reflexivity; try assumption.
    + change (procs (printed ?a ?b ?x)) with (procs x).
      eapply procs_polled. exact Hp.
    + exists w', pr''. split; [exact Hrun|].
      split; [rewrite Hout; simpl; rewrite <- app_assoc; reflexivity|].
      split.
      { rewrite Hcalls. simpl. rewrite length_app, repeat_length. simpl.
        replace (g + 1) with (S g) by lia. rewrite <- app_assoc. reflexivity. }
      split; [exact Hp'|]. split; [exact Hst|]. split; [exact Hbuf'|].
      split; [exact Hfut'|]. split; [exact Hcl|]. split; [exact Hco|exact Hre].
Qed.

(** The polling loop on a program of which one line or nothing arrives
    before each read: one read per batch, every line printed, and a blank
    line for every read of the closed stream. *)
Lemma poll_slotted (status : Z) (p : ref) (closing : Closing)
    (slots : list (option string)) :
  forall (w : World FS) (pr : Proc) (fuel : nat),
    procs w !! p = Some pr ->
    p_future pr = slotted slots closing status ->
    p_stderr pr = [] -> p_fault pr = None -> p_eof pr = false ->
    p_exit_status pr = None ->
    length slots + length (ending closing status) + 1 <= fuel ->
    exists (w' : World FS) (pr' : Proc),
      run (pybricks_poll fuel p) w = (Ret tt, w') /\
      stdout w' = stdout w ++
        map (fun l => (Path.strip (l ++ nl) ++ nl)%string) (slot_lines slots)
        ++ repeat nl (blank_lines closing) /\
      calls w' = calls w ++
        repeat (Readline p) (length slots + length (ending closing status)) /\
      procs w' !! p = Some pr' /\
      p_exit_status pr' = Some status /\ p_stderr pr' = [] /\ p_future pr' = [] /\
      p_closed pr' = p_closed pr /\
      _connections w' = _connections w /\ remote w' = remote w.
Proof.
  induction slots as [|slot slots IH]; intros w pr fuel Hp Hfut Hbuf Hfault Heof Hexit Hfuel.
  - exact (poll_ending status p closing w pr fuel Hp Hfut Hbuf Hfault Heof Hexit Hfuel).
  - destruct fuel as [|fuel]; simpl in Hfuel; try lia.
    rewrite (run_poll_step _ p pr w Hp Hexit).
    remember (pybricks_poll _ p) as loop eqn:Hloop.
    unfold arrive, read_line. rewrite Hfut.
    destruct slot as [l|]; simpl; rewrite Hbuf; simpl; rewrite ?Hfault, ?Heof; subst loop.
    + match goal with
      | |- context [polled p ?q w] => set (pr' := q)
      end.
      destruct (IH (printed [Path.strip (l ++ nl)] nl (polled p pr' w)) pr' fuel)
        as (w' & pr'' & Hrun & Hout & Hcalls & Hp' & Hst & Hbuf' & Hfut' & Hcl & Hco & Hre);
        try reflexivity; try assumption; try lia.
      * change (procs (printed ?a ?b ?x)) with (procs x).
        eapply procs_polled. exact Hp.
      * exists w', pr''. split; [exact Hrun|].
        split; [rewrite Hout; simpl; rewrite <- app_assoc; reflexivity|].
        split; [rewrite Hcalls; simpl; rewrite <- app_assoc; reflexivity|].
        split; [exact Hp'|]. split; [exact Hst|]. split; [exact Hbuf'|].
        split; [exact Hfut'|]. split; [exact Hcl|]. split; [exact Hco|exact Hre].
    + match goal with
      | |- context [polled p ?q w] => set (pr' := q)
      end.
      destruct (IH (polled p pr' w) pr' fuel)
        as (w' & pr'' & Hrun & Hout & Hcalls & Hp' & Hst & Hbuf' & Hfut' & Hcl & Hco & Hre);
        try reflexivity; try assumption; try lia.
      * eapply procs_polled. exact Hp.
      * exists w', pr''. split; [exact Hrun|].
        split; [rewrite Hout; reflexivity|].
        split; [rewrite Hcalls; simpl; rewrite <- app_assoc; reflexivity|].
        split; [exact Hp'|]. split; [exact Hst|]. split; [exact Hbuf'|].
        split; [exact Hfut'|]. split; [exact Hcl|]. split; [exact Hco|exact Hre].
Qed.

End DeployLemmas.

Section LaunchLemmas.

Context {FS : Type} `{RemoteFS FS}.

(** A directory step that returned leaves a session whose file-transfer
    channel answers. *)
Lemma make_dirs_leaves_connected (self : EV3SSH) (dirs : string) (c : ref)
    (w w1 : World FS) :
  run (pybricks_make_dirs self dirs) w = (Ret tt, w1) ->
  client self = Some c ->
  sftp_link_of w1 c = Up /\ frame_of w w1.
Proof.
  intros Hrun Hs.
  destruct (make_dirs_returns_connected self dirs w w1 Hrun) as (c0 & Hs0 & Hl).
  rewrite Hs in Hs0. injection Hs0 as <-.
  pose proof (make_dirs_frame self dirs w w1 (Ret tt) Hrun) as Hframe.
  split; [|exact Hframe].
  destruct Hframe as (_ & Hcl & _).
  rewrite (sftp_link_of_clients w w1 c Hcl). exact Hl.
Qed.

Lemma launched_fields (c : ref) (file_path : string) (fs' : FS) (w : World FS) :
  let remote_path := Path.join _HOME file_path in
  let prog := ("brickrun -r -- pybricks-micropython " ++ remote_path)%string in
  procs (launched c file_path fs' w) = procs w ++ [new_proc c prog (spawn w prog)] /\
  stdout (launched c file_path fs' w) =
    stdout w ++ [(Path.unwords ["Now starting:"; remote_path] ++ nl)%string] /\
  calls (launched c file_path fs' w) =
    calls w ++ [SftpPut c file_path remote_path; CreateProcess c prog] /\
  remote (launched c file_path fs' w) (address_of w c) = fs'.
Proof.
  intros remote_path prog. unfold launched. cbv zeta. fold remote_path. fold prog.
  split; [reflexivity|]. split; [reflexivity|]. split.
  - simpl. rewrite <- app_assoc. reflexivity.
  - simpl. rewrite String.eqb_refl. reflexivity.
Qed.

(** [pybricks] on a program of which one line or nothing arrives before
    each read of the polling loop. *)
Lemma run_pybricks_slotted (fuel : nat) (self : EV3SSH) (file_path : string) (c : ref)
    (w w1 w2 : World FS) (slots : list (option string)) (closing : Closing)
    (status : Z) :
  let remote_path := Path.join _HOME file_path in
  let prog := ("brickrun -r -- pybricks-micropython " ++ remote_path)%string in
  let p := length (procs w) in
  run (pybricks_make_dirs self (fst (Path.split file_path))) w = (Ret tt, w1) ->
  client self = Some c ->
  run (await (SftpPut c file_path remote_path)) w1 = (Ret tt, w2) ->
  spawn w prog = slotted slots closing status ->
  length slots + length (ending closing status) + 1 <= fuel ->
  exists (w' : World FS) (pr : Proc),
    run (pybricks fuel self file_path) w = (Ret tt, w') /\
    stdout w' =
      stdout w ++ [(Path.unwords ["Now starting:"; remote_path] ++ nl)%string]
               ++ map (fun l => (Path.strip (l ++ nl) ++ nl)%string) (slot_lines slots)
               ++ repeat nl (blank_lines closing) /\
    calls w' =
      calls w1 ++ [SftpPut c file_path remote_path; CreateProcess c prog]
               ++ repeat (Readline p) (length slots + length (ending closing status))
               ++ [ProcClose p] /\
    procs w' !! p = Some pr /\
    p_exit_status pr = Some status /\ p_stderr pr = [] /\ p_closed pr = true /\
    _connections w' = _connections w /\ remote w' = remote w2.
Proof.
  intros remote_path prog p Hdirs Hs Hput Hspawn Hfuel.
  destruct (make_dirs_leaves_connected self _ c w w1 Hdirs Hs)
    as (Hl & Hconn & Hclients & Hprocs & Hout & _ & Hsp).
  destruct (put_returned c file_path remote_path w1 w2 Hl Hput) as (fs' & Hfs & E2).
  rewrite (run_pybricks_after_dirs fuel self file_path w w1 Hdirs).
  rewrite (run_send_and_run fuel self file_path c w1 Hs Hl).
  fold remote_path. rewrite Hfs. rewrite Hprocs. fold p.
  destruct (launched_fields c file_path fs' w1) as (Lp & Lo & Lc & _).
  assert (Lr : remote (launched c file_path fs' w1) = remote w2)
    by (rewrite E2; reflexivity).
  assert (Lco : _connections (launched c file_path fs' w1) = _connections w)
    by exact Hconn.
  fold remote_path in Lp, Lo, Lc. fold prog in Lp, Lc.
  rewrite Hsp, Hspawn, Hprocs in Lp. rewrite Hout in Lo.
  remember (launched c file_path fs' w1) as w3 eqn:E3. clear E3.
  assert (Hp3 : procs w3 !! p = Some (new_proc c prog (slotted slots closing status))).
  { rewrite Lp. apply lookup_snoc. }
  destruct (poll_slotted status p closing slots w3 _ fuel Hp3 eq_refl eq_refl eq_refl
              eq_refl eq_refl Hfuel)
    as (w4 & pr4 & Hrun & Hout4 & Hcalls4 & Hp4 & Hst & Hbuf & _ & Hcl & Hco4 & Hre4).
  rewrite run_finally, Hrun.
  eexists. eexists. split; [reflexivity|]. simpl.
  split; [rewrite Hout4, Lo, <- !app_assoc; reflexivity|].
  split; [rewrite Hcalls4, Lc, <- !app_assoc; reflexivity|].
  rewrite list_lookup_alter_eq, Hp4. simpl.
  split; [reflexivity|]. split; [exact Hst|]. split; [exact Hbuf|].
  split; [reflexivity|]. split; [rewrite Hco4; exact Lco|rewrite Hre4; exact Lr].
Qed.

End LaunchLemmas.

(** X9. A deployment from end to end.  On a session for which the
    directory step returns and then the upload returns, a program of which
    one line or nothing arrives before each read of the polling loop, and
    which then ends in one of the three ways of [Closing], is run to its
    end: [pybricks] returns; it prints the announcement, then every line
    of the program, stripped, in order, and then one blank line for every
    read that found the stream closed before the exit status was seen;
    after the directory step it makes the upload, the launch, one read per
    batch of the script, and the close, in this order; the process it
    leaves is closed, has its exit status and no unread line; the cache is
    as it was and the file systems are as the upload left them. *)
Theorem pybricks_prints_every_paced_line {FS : Type} `{RemoteFS FS}
    (fuel : nat) (self : EV3SSH) (file_path : string) (c : ref)
    (w w1 w2 : World FS) (slots : list (option string)) (closing : Closing)
    (status : Z) :
  let remote_path := Path.join _HOME file_path in
  let prog := ("brickrun -r -- pybricks-micropython " ++ remote_path)%string in
  let p := length (procs w) in
  run (pybricks_make_dirs self (fst (Path.split file_path))) w = (Ret tt, w1) ->
  client self = Some c ->
  run (await (SftpPut c file_path remote_path)) w1 = (Ret tt, w2) ->
  spawn w prog = slotted slots closing status ->
  length slots + length (ending closing status) + 1 <= fuel ->
  exists (w' : World FS) (pr : Proc),
    run (pybricks fuel self file_path) w = (Ret tt, w') /\
    stdout w' =
      stdout w ++ [(Path.unwords ["Now starting:"; remote_path] ++ nl)%string]
               ++ map (fun l => (Path.strip (l ++ nl) ++ nl)%string) (slot_lines slots)
               ++ repeat nl (blank_lines closing) /\
    calls w' =
      calls w1 ++ [SftpPut c file_path remote_path; CreateProcess c prog]
               ++ repeat (Readline p) (length slots + length (ending closing status))
               ++ [ProcClose p] /\
    procs w' !! p = Some pr /\
    p_exit_status pr = Some status /\ p_stderr pr = [] /\ p_closed pr = true /\
    _connections w' = _connections w /\ remote w' = remote w2.
Proof.
  exact (run_pybricks_slotted fuel self file_path c w w1 w2 slots closing status).
Qed.

Lemma pybricks_prints_every_paced_line_witness :
  let w := set_spawn (slotted [Some "  a"; None; Some "b "] ClosesAtExit 3) world1 in
  let w1 := after (pybricks_make_dirs session1 "demo") w in
  let w2 := after (await (SftpPut 0 "demo/hello.py" "/home/robot/demo/hello.py")) w1 in
  run (pybricks_make_dirs session1 (fst (Path.split "demo/hello.py"))) w = (Ret tt, w1) /\
  run (await (SftpPut 0 "demo/hello.py" (Path.join _HOME "demo/hello.py"))) w1
    = (Ret tt, w2) /\
  exists (w' : World Tree.FS) (pr : Proc),
    run (pybricks 6 session1 "demo/hello.py") w = (Ret tt, w') /\
    stdout w' =
      stdout w ++ [("Now starting: /home/robot/demo/hello.py" ++ nl)%string]
               ++ [("a" ++ nl)%string; ("b" ++ nl)%string]
               ++ [nl] /\
    calls w' =
      calls w1 ++ [SftpPut 0 "demo/hello.py" "/home/robot/demo/hello.py";
                   CreateProcess 0
                     "brickrun -r -- pybricks-micropython /home/robot/demo/hello.py"]
               ++ repeat (Readline 0) 4
               ++ [ProcClose 0] /\
    procs w' !! 0 = Some pr /\
    p_exit_status pr = Some 3%Z /\ p_stderr pr = [] /\ p_closed pr = true /\
    _connections w' = _connections w /\ remote w' = remote w2.
Proof.
  intros w w1 w2.
  assert (Hdirs : run (pybricks_make_dirs session1 (fst (Path.split "demo/hello.py"))) w
                  = (Ret tt, w1)) by (vm_compute; reflexivity).
  assert (Hput : run (await (SftpPut 0 "demo/hello.py" (Path.join _HOME "demo/hello.py")))
                     w1 = (Ret tt, w2)) by (vm_compute; reflexivity).
  split; [exact Hdirs|]. split; [exact Hput|].
  exact (pybricks_prints_every_paced_line 6 session1 "demo/hello.py" 0 w w1 w2
           [Some "  a"; None; Some "b "] ClosesAtExit 3 Hdirs eq_refl Hput eq_refl
           ltac:(simpl; lia)).
Defined.

(** X10. No launch without the upload.  When the device refuses the file,
    [pybricks] ends in the error of the upload: nothing is announced, no
    program is launched, and the upload is the last call made. *)
Theorem pybricks_upload_refused_launches_nothing {FS : Type} `{RemoteFS FS}
    (fuel : nat) (self : EV3SSH) (file_path : string) (c : ref) (w w1 : World FS) :
  run (pybricks_make_dirs self (fst (Path.split file_path))) w = (Ret tt, w1) ->
  client self = Some c ->
  fs_put (remote w1 (address_of w1 c)) (Path.join _HOME file_path) = None ->
  run (pybricks fuel self file_path) w =
    (Raise SFTPError, issue (SftpPut c file_path (Path.join _HOME file_path)) w1) /\
  procs (after (pybricks fuel self file_path) w) = procs w /\
  stdout (after (pybricks fuel self file_path) w) = stdout w.
Proof.
  intros Hdirs Hs Hput.
  destruct (make_dirs_leaves_connected self _ c w w1 Hdirs Hs)
    as (Hl & _ & _ & Hprocs & Hout & _ & _).
  assert (Hrun : run (pybricks fuel self file_path) w =
            (Raise SFTPError, issue (SftpPut c file_path (Path.join _HOME file_path)) w1)).
  { rewrite (run_pybricks_after_dirs fuel self file_path w w1 Hdirs).
    rewrite (run_send_and_run fuel self file_path c w1 Hs Hl), Hput. reflexivity. }
  unfold after. rewrite Hrun. split; [reflexivity|]. split; [exact Hprocs|exact Hout].
Qed.

Lemma pybricks_upload_refused_launches_nothing_witness :
  let w1 := after (pybricks_make_dirs session1 "/tmp") world1 in
  run (pybricks_make_dirs session1 (fst (Path.split "/tmp/hello.py"))) world1
    = (Ret tt, w1) /\
  fs_put (remote w1 (address_of w1 0)) (Path.join _HOME "/tmp/hello.py") = None /\
  run (pybricks 4 session1 "/tmp/hello.py") world1 =
    (Raise SFTPError,
     issue (SftpPut 0 "/tmp/hello.py" (Path.join _HOME "/tmp/hello.py")) w1) /\
  procs (after (pybricks 4 session1 "/tmp/hello.py") world1) = procs world1 /\
  stdout (after (pybricks 4 session1 "/tmp/hello.py") world1) = stdout world1.
Proof.
  intros w1.
  assert (Hdirs : run (pybricks_make_dirs session1 (fst (Path.split "/tmp/hello.py")))
                    world1 = (Ret tt, w1)) by (vm_compute; reflexivity).
  assert (Hput : fs_put (remote w1 (address_of w1 0)) (Path.join _HOME "/tmp/hello.py")
                 = None) by (vm_compute; reflexivity).
  split; [exact Hdirs|]. split; [exact Hput|].
  exact (pybricks_upload_refused_launches_nothing 4 session1 "/tmp/hello.py" 0
           world1 w1 Hdirs eq_refl Hput).
Defined.

(** ** The module's own test *)

Section TestLemmas.

Context {FS : Type} `{RemoteFS FS}.

(** A first [connect] to a device that answers. *)
Lemma run_connect_fresh (self : EV3SSH) (address : string) (w : World FS) :
  _connections w !! address = None ->
  net w address = Up ->
  run (connect self address) w
    = (Ret (mkEV3SSH (Some (length (clients w)))), connected address w).
Proof.
  intros Hnone Hnet. unfold connect.
  rewrite run_bind, run_get_connection, Hnone. unfold reconnect. rewrite Hnet.
  reflexivity.
Qed.

Lemma connected_links (address : string) (w : World FS) :
  link_of (connected address w) (length (clients w)) = Up /\
  sftp_link_of (connected address w) (length (clients w)) = Up /\
  address_of (connected address w) (length (clients w)) = address.
Proof.
  unfold link_of, sftp_link_of, address_of, connected. simpl.
  rewrite lookup_snoc. simpl. split; [reflexivity|]. split; reflexivity.
Qed.

End TestLemmas.

(** X11. The module's test from end to end.  In every world in which the
    test's address is not in the cache and answers the handshake, the
    directory [demo] exists in the home directory, the upload of
    [demo/hello.py] returns once the check of the directory has been
    served, and of the launched program one line or nothing arrives before
    each read of the polling loop, after which it ends in one of the three
    ways of [Closing]: [_test] returns; it makes the handshake, opens the
    file-transfer channel at the home directory, beeps, checks the one
    directory, uploads, launches, reads once per batch of the script, and
    closes the process, in this order and nothing else; it prints the
    three messages of the connection, the announcement, every line of the
    program, and one blank line for every read that found the stream
    closed; and the new handle is in the cache. *)
Theorem test_deploys_the_demo {FS : Type} `{RemoteFS FS}
    (fuel : nat) (w uploaded : World FS) (slots : list (option string))
    (closing : Closing) (status : Z) :
  let address := "192.168.133.101" in
  let c := length (clients w) in
  let p := length (procs w) in
  let prog := "brickrun -r -- pybricks-micropython /home/robot/demo/hello.py" in
  _connections w !! address = None ->
  net w address = Up ->
  fs_exists (remote w address) "/home/robot/demo" = true ->
  run (await (SftpPut c "demo/hello.py" "/home/robot/demo/hello.py")) (test_checked w)
    = (Ret tt, uploaded) ->
  spawn w prog = slotted slots closing status ->
  length slots + length (ending closing status) + 1 <= fuel ->
  exists w' : World FS,
    run (_test fuel) w = (Ret tt, w') /\
    calls w' =
      calls w ++ [Connect address "robot" "maker"; StartSftp c;
                  SftpChdir c "/home/robot"; Run c "beep";
                  SftpExists c "/home/robot/demo";
                  SftpPut c "demo/hello.py" "/home/robot/demo/hello.py";
                  CreateProcess c prog]
              ++ repeat (Readline p) (length slots + length (ending closing status))
              ++ [ProcClose p] /\
    stdout w' =
      stdout w ++ ["Connecting to 192.168.133.101 ... "; "Connected. ";
                   ("Opened SFTP." ++ nl)%string;
                   ("Now starting: /home/robot/demo/hello.py" ++ nl)%string]
               ++ map (fun l => (Path.strip (l ++ nl) ++ nl)%string) (slot_lines slots)
               ++ repeat nl (blank_lines closing) /\
    _connections w' = <[address := c]> (_connections w) /\
    remote w' = remote uploaded.
Proof.
  intros address c p prog Hnone Hnet Hex Hput Hspawn Hfuel.
  unfold test_checked in Hput. cbv zeta in Hput. fold address in Hput. fold c in Hput.
  unfold _test. fold address. fold c.
  rewrite run_bind, (run_connect_fresh _ address w Hnone Hnet). cbn [and_then].
  destruct (connected_links address w) as (Hl1 & Hs1 & Ha1).
  assert (F1 : procs (connected address w) = procs w /\
               remote (connected address w) = remote w /\
               spawn (connected address w) = spawn w /\
               _connections (connected address w) = <[address := c]> (_connections w) /\
               calls (connected address w) =
                 calls w ++ [Connect address "robot" "maker"; StartSftp c;
                             SftpChdir c "/home/robot"] /\
               stdout (connected address w) =
                 stdout w ++ ["Connecting to 192.168.133.101 ... "; "Connected. ";
                              ("Opened SFTP." ++ nl)%string])
    by (repeat split).
  fold c in Hl1, Hs1, Ha1.
  remember (connected address w) as w1 eqn:E1. clear E1.
  destruct F1 as (Fp & Fr & Fsp & Fc & Fcalls & Fout).
  rewrite run_bind, run_beep. cbn [client]. fold c. rewrite Hl1. cbn [and_then].
  remember (issue (Run c "beep") w1) as w2 eqn:E2.
  assert (Hs2 : sftp_link_of w2 c = Up) by (subst w2; exact Hs1).
  assert (Ha2 : address_of w2 c = address) by (subst w2; exact Ha1).
  assert (F2 : procs w2 = procs w1 /\ remote w2 = remote w1 /\ spawn w2 = spawn w1 /\
               _connections w2 = _connections w1 /\
               calls w2 = calls w1 ++ [Run c "beep"] /\ stdout w2 = stdout w1)
    by (subst w2; repeat split).
  clear E2. destruct F2 as (Gp & Gr & Gsp & Gc & Gcalls & Gout).
  assert (Hdirs : run (pybricks_make_dirs (mkEV3SSH (Some c))
                         (fst (Path.split "demo/hello.py"))) w2
                  = (Ret tt, issue (SftpExists c "/home/robot/demo") w2)).
  { rewrite (run_make_dirs (mkEV3SSH (Some c)) c _ w2 eq_refl Hs2). cbv zeta.
    change (Path.join _HOME (fst (Path.split "demo/hello.py"))) with "/home/robot/demo".
    rewrite Ha2, Gr, Fr, Hex. reflexivity. }
  assert (Hsp2 : spawn w2 ("brickrun -r -- pybricks-micropython "
                           ++ Path.join _HOME "demo/hello.py")%string
                 = slotted slots closing status).
  { rewrite Gsp, Fsp. exact Hspawn. }
  destruct (run_pybricks_slotted fuel (mkEV3SSH (Some c)) "demo/hello.py" c w2 _ uploaded
              slots closing status Hdirs eq_refl Hput Hsp2 Hfuel)
    as (w' & pr & Hrun & Hout & Hcalls & _ & _ & _ & _ & Hconn & Hrem).
  exists w'. split; [exact Hrun|].
  split.
  { rewrite Hcalls. change (calls (issue ?op w2)) with (calls w2 ++ [op]).
    rewrite Gcalls, Fcalls, Gp, Fp. fold p. rewrite <- !app_assoc. reflexivity. }
  split.
  { rewrite Hout, Gout, Fout. rewrite <- !app_assoc. reflexivity. }
  split.
  { rewrite Hconn, Gc. exact Fc. }
  exact Hrem.
Qed.

Lemma test_deploys_the_demo_witness :
  let w := set_spawn (slotted [Some "a"; None; Some "b"] (ClosesBefore 1) 0)
             (set_all_remote [["home"]; ["home"; "robot"]; ["home"; "robot"; "demo"]]
                world0) in
  let uploaded :=
    after (await (SftpPut 0 "demo/hello.py" "/home/robot/demo/hello.py"))
          (test_checked w) in
  _connections w !! "192.168.133.101" = None /\
  fs_exists (remote w "192.168.133.101") "/home/robot/demo" = true /\
  run (await (SftpPut 0 "demo/hello.py" "/home/robot/demo/hello.py")) (test_checked w)
    = (Ret tt, uploaded) /\
  exists w' : World Tree.FS,
    run (_test 7) w = (Ret tt, w') /\
    calls w' =
      calls w ++ [Connect "192.168.133.101" "robot" "maker"; StartSftp 0;
                  SftpChdir 0 "/home/robot";
                  Run 0 "beep";
                  SftpExists 0 "/home/robot/demo";
                  SftpPut 0 "demo/hello.py" "/home/robot/demo/hello.py";
                  CreateProcess 0
                    "brickrun -r -- pybricks-micropython /home/robot/demo/hello.py"]
              ++ repeat (Readline 0) 6
              ++ [ProcClose 0] /\
    stdout w' =
      stdout w ++ ["Connecting to 192.168.133.101 ... "; "Connected. ";
                   ("Opened SFTP." ++ nl)%string;
                   ("Now starting: /home/robot/demo/hello.py" ++ nl)%string]
               ++ [("a" ++ nl)%string; ("b" ++ nl)%string]
               ++ [nl; nl; nl] /\
    _connections w' = <["192.168.133.101" := 0]> (_connections w) /\
    remote w' = remote uploaded.
Proof.
  intros w uploaded.
  assert (Hnone : _connections w !! "192.168.133.101" = None) by (vm_compute; reflexivity).
  assert (Hex : fs_exists (remote w "192.168.133.101") "/home/robot/demo" = true)
    by (vm_compute; reflexivity).
  assert (Hput : run (await (SftpPut 0 "demo/hello.py" "/home/robot/demo/hello.py"))
                     (test_checked w) = (Ret tt, uploaded)) by (vm_compute; reflexivity).
  split; [exact Hnone|]. split; [exact Hex|]. split; [exact Hput|].
  exact (test_deploys_the_demo 7 w uploaded [Some "a"; None; Some "b"] (ClosesBefore 1) 0
           Hnone eq_refl Hex Hput eq_refl ltac:(simpl; lia)).
Defined.

(** ** What the polling loop prints *)

Section PendingLemmas.

Context {FS : Type} `{RemoteFS FS}.

Lemma deliver_batch (batch : list ProcEvent) :
  forall q : Proc,
    p_stderr (fold_left deliver batch q) = p_stderr q ++ omap event_line batch /\
    p_future (fold_left deliver batch q) = p_future q /\
    p_eof (fold_left deliver batch q) =
      p_eof q || existsb (fun ev => match ev with Eof => true | _ => false end) batch.
Proof.
  induction batch as [|ev batch IH]; intros q; simpl.
  - rewrite app_nil_r, orb_false_r. repeat split.
  - destruct (IH (deliver q ev)) as (Hs & Hf & He). rewrite Hs, Hf, He.
    destruct ev; simpl; rewrite <- ?app_assoc, ?orb_false_r, ?orb_true_r;
      repeat split.
Qed.

(** The arrival of a batch moves lines from the script into the buffer. *)
Lemma arrive_pending (pr : Proc) :
  p_eof pr = false -> ends_stream (p_future pr) = false ->
  pending (arrive pr) = pending pr /\
  p_eof (arrive pr) = false /\ ends_stream (p_future (arrive pr)) = false.
Proof.
  intros Heof Hends. unfold arrive, pending.
  destruct (p_future pr) as [|batch rest] eqn:Hfut.
  - rewrite Hfut. split; [reflexivity|]. split; [exact Heof|reflexivity].
  - simpl in Hends. apply orb_false_iff in Hends as [Hb Hrest].
    match goal with
    | |- context [fold_left deliver batch ?q0] =>
        destruct (deliver_batch batch q0) as (Hs & Hf & He)
    end.
    rewrite Hs, Hf, He. simpl. rewrite Heof, Hb.
    split; [|split; [reflexivity|exact Hrest]].
    unfold script_lines. simpl. rewrite <- app_assoc. reflexivity.
Qed.

(** A read hands out the first buffered line, or nothing. *)
Lemma read_line_pending (q q' : Proc) (o : Outcome string) :
  read_line q = (o, q') ->
  p_eof q = false ->
  pending q = match o with Returns line => line :: pending q' | _ => pending q' end /\
  p_eof q' = false /\ p_future q' = p_future q.
Proof.
  unfold read_line, pending. intros Hr Heof.
  destruct (p_stderr q) as [|line rest] eqn:Hbuf.
  - destruct (p_fault q) as [e|].
    + injection Hr as <- <-. rewrite Hbuf. repeat split. exact Heof.
    + rewrite Heof in Hr. injection Hr as <- <-. rewrite Hbuf. repeat split. exact Heof.
  - injection Hr as <- <-. simpl. repeat split. exact Heof.
Qed.

End PendingLemmas.

(** X12. Every line is printed or still to come.  However the polling
    loop ends, on a process whose stderr stream is not closed by its
    program: what the loop has printed, line by line and stripped, followed
    by what the process has still to hand out, is what the process had to
    hand out when the loop started.  The loop prints no line twice, none
    out of order and none the program did not write. *)
Theorem poll_prints_program_lines_in_order {FS : Type} `{RemoteFS FS}
    (p : ref) (fuel : nat) :
  forall (w w' : World FS) (r : Res unit) (pr : Proc),
    procs w !! p = Some pr ->
    p_eof pr = false -> ends_stream (p_future pr) = false ->
    run (pybricks_poll fuel p) w = (r, w') ->
    exists (shown : list string) (pr' : Proc),
      procs w' !! p = Some pr' /\
      pending pr = shown ++ pending pr' /\
      stdout w' = stdout w ++ map (fun line => (Path.strip line ++ nl)%string) shown.
Proof.
  induction fuel as [|fuel IH]; intros w w' r pr Hp Heof Hends Hrun.
  - simpl in Hrun. injection Hrun as <- <-. exists [], pr.
    split; [exact Hp|]. split; [reflexivity|]. simpl. rewrite app_nil_r. reflexivity.
  - destruct (p_exit_status pr) as [st|] eqn:Hexit.
    + rewrite (run_poll_exited fuel p pr st w Hp Hexit) in Hrun.
      injection Hrun as <- <-. exists [], pr.
      split; [exact Hp|]. split; [reflexivity|]. simpl. rewrite app_nil_r. reflexivity.
    + rewrite (run_poll_step fuel p pr w Hp Hexit) in Hrun.
      destruct (arrive_pending pr Heof Hends) as (Ha & Heof1 & Hends1).
      destruct (read_line (arrive pr)) as [o pr1] eqn:Hread.
      destruct (read_line_pending _ _ _ Hread Heof1) as (Hr & Heof2 & Hfut2).
      rewrite <- Hfut2 in Hends1. rewrite Ha in Hr.
      pose proof (procs_polled p pr pr1 w Hp) as Hp1.
      destruct o as [line|e|].
      * destruct (IH (printed [Path.strip line] nl (polled p pr1 w)) w' r pr1
                    Hp1 Heof2 Hends1 Hrun) as (shown & pr' & Hp' & Hpend & Hout).
        exists (line :: shown), pr'. split; [exact Hp'|].
        split; [rewrite Hr, Hpend; reflexivity|].
        rewrite Hout. simpl. rewrite <- app_assoc. reflexivity.
      * destruct (is_TimeoutError e).
        -- destruct (IH _ w' r pr1 Hp1 Heof2 Hends1 Hrun)
             as (shown & pr' & Hp' & Hpend & Hout).
           exists shown, pr'. split; [exact Hp'|].
           split; [rewrite Hr; exact Hpend|exact Hout].
        -- injection Hrun as <- <-. exists [], pr1.
           split; [exact Hp1|]. split; [exact Hr|].
           simpl. rewrite app_nil_r. reflexivity.
      * destruct (IH _ w' r pr1 Hp1 Heof2 Hends1 Hrun) as (shown & pr' & Hp' & Hpend & Hout).
        exists shown, pr'. split; [exact Hp'|].
        split; [rewrite Hr; exact Hpend|exact Hout].
Qed.

Lemma poll_prints_program_lines_in_order_witness :
  let pr := new_proc 0 "prog" (burst ["a"; "b"] 0) in
  let w := set_procs (fun _ => [pr]) world1 in
  let w' := after (pybricks_poll 3 0) w in
  procs w !! 0 = Some pr /\
  run (pybricks_poll 3 0) w = (Ret tt, w') /\
  exists (shown : list string) (pr' : Proc),
    procs w' !! 0 = Some pr' /\
    pending pr = shown ++ pending pr' /\
    stdout w' = stdout w ++ map (fun line => (Path.strip line ++ nl)%string) shown.
Proof.
  intros pr w w'.
  assert (Hrun : run (pybricks_poll 3 0) w = (Ret tt, w')) by (vm_compute; reflexivity).
  split; [reflexivity|]. split; [exact Hrun|].
  exact (poll_prints_program_lines_in_order 0 3 w w' (Ret tt) pr eq_refl eq_refl eq_refl
           Hrun).
Defined.

(** ** The C array dump *)

Example hex_repr_ten : Mpy.hex_repr 10 = "0x0A".
Proof. reflexivity. Qed.

Example array_lines_nine :
  Mpy.array_lines [Byte.x4d; Byte.x05; Byte.x02; Byte.x1f; Byte.x20; Byte.x84;
                   Byte.x00; Byte.xff; Byte.x0a]
  = ["    0x4D, 0x05, 0x02, 0x1F, 0x20, 0x84, 0x00, 0xFF,"; "    0x0A,"].
Proof. vm_compute. reflexivity. Qed.

Example dump_one_byte : Mpy.dump [Byte.x4d] = inl Mpy.IndexError.
Proof. reflexivity. Qed.

Section DumpLemmas.

Lemma hex_repr_byte (b : Byte.byte) :
  HexString.to_N (Mpy.hex_repr (Byte.to_N b)) = Byte.to_N b /\
  String.length (Mpy.hex_repr (Byte.to_N b)) = 4.
Proof. destruct b; vm_compute; repeat split. Qed.

Lemma chunks_upto {A : Type} (data : list A) (m : nat) :
  concat (map (fun i => Mpy.slice i (i + Mpy.WIDTH) data)
              (map (fun k => k * Mpy.WIDTH) (seq 0 m)))
  = take (m * Mpy.WIDTH) data.
Proof.
  induction m as [|m IH]; [reflexivity|].
  rewrite seq_S, !map_app, concat_app, IH. simpl. rewrite app_nil_r.
  unfold Mpy.slice, Mpy.WIDTH.
  replace (m * 8 + 8 - m * 8) with 8 by lia.
  rewrite take_take_drop. f_equal. lia.
Qed.

Lemma rows_cover (n : nat) : n <= (n + Mpy.WIDTH - 1) / Mpy.WIDTH * Mpy.WIDTH.
Proof.
  unfold Mpy.WIDTH.
  pose proof (Nat.div_mod_eq (n + 8 - 1) 8) as Hd.
  pose proof (Nat.mod_upper_bound (n + 8 - 1) 8 ltac:(lia)) as Hm. lia.
Qed.

Lemma concat_chunks (data : list Byte.byte) : concat (Mpy.chunks data) = data.
Proof.
  unfold Mpy.chunks, Mpy.range0. rewrite chunks_upto.
  apply take_ge. apply rows_cover.
Qed.

Lemma rows_flat (data : list Byte.byte) :
  concat (Mpy.array_rows data) = map (fun b => Mpy.hex_repr (Byte.to_N b)) data.
Proof.
  unfold Mpy.array_rows. rewrite <- (concat_chunks data) at 2.
  generalize (Mpy.chunks data). intros l.
  induction l as [|chunk l IH]; [reflexivity|].
  simpl. rewrite map_app, IH. reflexivity.
Qed.

End DumpLemmas.

(** X13. The C array dump denotes the bytes.  On fewer than two bytes
    the block raises [IndexError] in [data[1]] and prints nothing.  On two
    bytes or more it prints the header, with the value of the second byte
    and the number of bytes in decimal, the rows, and the closing line;
    the hexadecimal literals of the rows, read in order as numbers, are
    the values of the bytes, and each literal has four characters: the
    prefix and two digits. *)
Theorem array_dump_round_trip (data : list Byte.byte) :
  (length data < 2 -> Mpy.dump data = inl Mpy.IndexError) /\
  (2 <= length data ->
   exists version : Byte.byte,
     data !! 1 = Some version /\
     Mpy.dump data =
       inr (Mpy.header version (length data)
              :: map (fun row => ("    " ++ Mpy.join ", " row ++ ",")%string)
                     (Mpy.array_rows data)
              ++ ["};"]) /\
     map HexString.to_N (concat (Mpy.array_rows data)) = map Byte.to_N data /\
     Forall (fun literal => String.length literal = 4) (concat (Mpy.array_rows data))).
Proof.
  split.
  - intros Hlen. unfold Mpy.dump.
    destruct (data !! 1) as [version|] eqn:Hv; [|reflexivity].
    apply lookup_lt_Some in Hv. lia.
  - intros Hlen.
    destruct (lookup_lt_is_Some_2 data 1 ltac:(lia)) as [version Hv].
    exists version. split; [exact Hv|]. split; [unfold Mpy.dump; rewrite Hv; reflexivity|].
    rewrite rows_flat. split.
    + rewrite map_map. apply map_ext. intros b. apply hex_repr_byte.
    + apply Forall_map. apply Forall_forall. intros b _. apply hex_repr_byte.
Qed.

Lemma array_dump_round_trip_witness :
  let data := [Byte.x4d; Byte.x05; Byte.x02; Byte.x1f; Byte.x20; Byte.x84;
               Byte.x00; Byte.xff; Byte.x0a] in
  2 <= length data /\
  exists version : Byte.byte,
    data !! 1 = Some version /\
    Mpy.dump data =
      inr (Mpy.header version (length data)
             :: map (fun row => ("    " ++ Mpy.join ", " row ++ ",")%string)
                    (Mpy.array_rows data)
             ++ ["};"]) /\
    map HexString.to_N (concat (Mpy.array_rows data)) = map Byte.to_N data /\
    Forall (fun literal => String.length literal = 4) (concat (Mpy.array_rows data)).
Proof.
  intros data.
  assert (Hlen : 2 <= length data) by (simpl; lia).
  split; [exact Hlen|].
  exact (proj2 (array_dump_round_trip data) Hlen).
Defined.

(** X14. The layout of the dump.  When the block prints, it prints the
    header, one line for every started group of eight bytes, and the
    closing line; the line after the header and [k] rows is row [k], which
    holds the bytes from [8 k] on, eight of them or what is left, and no
    row is empty. *)
Theorem array_dump_layout (data : list Byte.byte) (out : list string) :
  Mpy.dump data = inr out ->
  2 <= length data /\
  length out = (length data + 7) / 8 + 2 /\
  last out = Some "};" /\
  forall (k : nat) (row : list string),
    Mpy.array_rows data !! k = Some row ->
    out !! S k = Some ("    " ++ Mpy.join ", " row ++ ",")%string /\
    row = map (fun b => Mpy.hex_repr (Byte.to_N b)) (take 8 (drop (8 * k) data)) /\
    length row = Nat.min 8 (length data - 8 * k) /\
    0 < length row.
Proof.
  unfold Mpy.dump. destruct (data !! 1) as [version|] eqn:Hv; [|discriminate].
  intros Hout. injection Hout as <-.
  split; [apply lookup_lt_Some in Hv; lia|].
  split.
  { cbn [length]. rewrite length_app. cbn [length].
    unfold Mpy.array_lines, Mpy.array_rows, Mpy.chunks, Mpy.range0, Mpy.WIDTH.
    rewrite !length_map, length_seq.
    replace (length data + 8 - 1) with (length data + 7) by lia. lia. }
  split.
  { change (Mpy.header version (length data) :: Mpy.array_lines data ++ ["};"])
      with ((Mpy.header version (length data) :: Mpy.array_lines data) ++ ["};"]).
    apply last_snoc. }
  intros k row Hrow. split.
  { change ((Mpy.array_lines data ++ ["};"]) !! k
            = Some ("    " ++ Mpy.join ", " row ++ ",")%string).
    rewrite lookup_app_l.
    - unfold Mpy.array_lines. rewrite list_lookup_fmap, Hrow. reflexivity.
    - unfold Mpy.array_lines. rewrite length_map. apply lookup_lt_Some in Hrow. exact Hrow. }
  unfold Mpy.array_rows, Mpy.chunks, Mpy.range0 in Hrow.
  rewrite !list_lookup_fmap in Hrow.
  destruct (seq 0 ((length data + Mpy.WIDTH - 1) / Mpy.WIDTH) !! k) as [k'|] eqn:Hk;
    [|discriminate].
  apply lookup_seq in Hk as [-> Hlt]. simpl in Hrow. injection Hrow as <-.
  unfold Mpy.slice, Mpy.WIDTH in *.
  replace (k * 8 + 8 - k * 8) with 8 by lia.
  replace (k * 8) with (8 * k) by lia.
  split; [reflexivity|].
  rewrite length_map, length_take, length_drop.
  split; [reflexivity|].
  pose proof (Nat.div_mod_eq (length data + 8 - 1) 8) as Hd.
  pose proof (Nat.mod_upper_bound (length data + 8 - 1) 8 ltac:(lia)) as Hm.
  lia.
Qed.

Lemma array_dump_layout_witness :
  let data := [Byte.x4d; Byte.x05; Byte.x02; Byte.x1f; Byte.x20; Byte.x84;
               Byte.x00; Byte.xff; Byte.x0a] in
  let out := [(nl ++ "// MPY file. Version: 5. Size: 9" ++ nl
                  ++ "const uint8_t script[] = ")%string;
              "    0x4D, 0x05, 0x02, 0x1F, 0x20, 0x84, 0x00, 0xFF,";
              "    0x0A,";
              "};"] in
  Mpy.dump data = inr out /\
  2 <= length data /\
  length out = (length data + 7) / 8 + 2 /\
  last out = Some "};" /\
  forall (k : nat) (row : list string),
    Mpy.array_rows data !! k = Some row ->
    out !! S k = Some ("    " ++ Mpy.join ", " row ++ ",")%string /\
    row = map (fun b => Mpy.hex_repr (Byte.to_N b)) (take 8 (drop (8 * k) data)) /\
    length row = Nat.min 8 (length data - 8 * k) /\
    0 < length row.
Proof.
  intros data out.
  assert (Hdump : Mpy.dump data = inr out) by (vm_compute; reflexivity).
  split; [exact Hdump|].
  exact (array_dump_layout data out Hdump).
Defined.

(** ** The footprint of [pybricks] *)

Section FootprintLemmas.

Context {FS : Type} `{RemoteFS FS}.

Lemma deploys_from_refl (w : World FS) : deploys_from w w.
Proof.
  unfold deploys_from. repeat split.
  - exists []. rewrite app_nil_r. reflexivity.
  - exists []. rewrite app_nil_r. split; [reflexivity|constructor].
Qed.

Lemma deploys_from_printed (w0 : World FS) (args : list string) (end_ : string)
    (w : World FS) :
  deploys_from w0 w -> deploys_from w0 (printed args end_ w).
Proof.
  intros (Hc & Hcl & Hn & Hs & (out & Hout) & Hcalls).
  unfold deploys_from. simpl. repeat split; try assumption.
  exists (out ++ [(Path.unwords args ++ end_)%string]).
  rewrite Hout, <- app_assoc. reflexivity.
Qed.

Lemma deploys_from_call (w0 : World FS) (op : Call) (w : World FS) :
  deploy_call op = true -> deploys_from w0 w ->
  deploys_from w0 (snd (effect op (issue op w))).
Proof.
  intros Hop (Hc & Hcl & Hn & Hs & Hout & (made & Hcalls & Hmade)).
  assert (Hissue : deploys_from w0 (issue op w)).
  { unfold deploys_from. simpl. repeat split; try assumption.
    exists (made ++ [op]). rewrite Hcalls, <- app_assoc. split; [reflexivity|].
    apply Forall_app. split; [exact Hmade|]. constructor; [exact Hop|constructor]. }
  pose proof (deploy_call_clients op w Hop) as Hclients.
  rewrite Hcl in Hclients.
  clear Hc Hcl Hn Hs Hout Hcalls Hmade.
  destruct Hissue as (Hc & _ & Hn & Hs & Hout & Hcalls).
  remember (issue op w) as w1 eqn:E1. clear E1.
  assert (Hrest : _connections (snd (effect op w1)) = _connections w1 /\
                  net (snd (effect op w1)) = net w1 /\
                  spawn (snd (effect op w1)) = spawn w1 /\
                  stdout (snd (effect op w1)) = stdout w1 /\
                  calls (snd (effect op w1)) = calls w1).
  { destruct op; try discriminate; simpl; unfold through;
      try (destruct (sftp_link_of w1 _); simpl;
           try (destruct (fs_mkdir _ _)); try (destruct (fs_put _ _));
           repeat split);
      try (destruct (link_of w1 _); simpl; repeat split);
      try (destruct (procs w1 !! _) as [pr|]; simpl;
           [destruct (read_line (arrive pr)) as [o pr']|]; simpl; repeat split);
      repeat split. }
  destruct Hrest as (Rc & Rn & Rs & Ro & Rcalls).
  unfold deploys_from. rewrite Rc, Rn, Rs, Ro, Rcalls, Hclients.
  repeat split; assumption.
Qed.

End FootprintLemmas.

(** X15. The footprint of [pybricks].  However [pybricks] ends, it leaves
    the cache, every client object, the network and the programs of the
    device as they were; it only adds to the output; and every call it
    makes is one of the deployment, an existence check, a [mkdir], the
    upload, the launch, a read of the process's stderr or its close: it
    makes no handshake, runs no command on the connection and closes no
    connection. *)
Theorem pybricks_footprint {FS : Type} `{RemoteFS FS}
    (fuel : nat) (self : EV3SSH) (file_path : string) (w : World FS) :
  let w' := after (pybricks fuel self file_path) w in
  _connections w' = _connections w /\ clients w' = clients w /\
  net w' = net w /\ spawn w' = spawn w /\
  (exists out : list string, stdout w' = stdout w ++ out) /\
  (exists made : list Call,
     calls w' = calls w ++ made /\ Forall (fun op => deploy_call op = true) made) /\
  handshakes w' = handshakes w.
Proof.
  intros w'.
  assert (Hk : Keeps (deploys_from w) (pybricks fuel self file_path)).
  { apply (any_pybricks (deploys_from w) deploy_call); try reflexivity.
    - intros args end_ w0. apply deploys_from_printed.
    - intros op w0. apply deploys_from_call. }
  pose proof (keeps_run _ _ Hk w (deploys_from_refl w)) as Hw.
  fold (after (pybricks fuel self file_path) w) in Hw. fold w' in Hw.
  destruct Hw as (Hc & Hcl & Hn & Hs & Hout & (made & Hcalls & Hmade)).
  repeat (split; [assumption|]).
  split; [exists made; split; assumption|].
  unfold handshakes. rewrite Hcalls, List.filter_app, length_app.
  assert (Hnone : List.filter is_connect made = []).
  { clear Hcalls. induction Hmade as [|op made Hop _ IH]; [reflexivity|].
    simpl. rewrite IH. destruct op; try discriminate; reflexivity. }
  rewrite Hnone. simpl. lia.
Qed.

(** ** The build directory *)

Section BuildLemmas.

Context {H : Type} `{Mpy.Host H}.

(** [make_build_dir], case by case. *)
Lemma run_make_build_dir (h : H) :
  Mpy.make_build_dir h =
    if Mpy.path_exists h Mpy.BUILD_DIR
    then if Mpy.path_isfile h Mpy.BUILD_DIR
         then (inl Mpy.OSError_build, h) else (inr tt, h)
    else match Mpy.mkdir h Mpy.BUILD_DIR with
         | inr h' => (inr tt, h')
         | inl name => (inl (Mpy.Raised name), h)
         end.
Proof.
  unfold Mpy.make_build_dir, Mpy.bind, Mpy.os_path_exists, Mpy.os_path_isfile,
    Mpy.os_mkdir, Mpy.ret, Mpy.raise.
  destruct (Mpy.path_exists h Mpy.BUILD_DIR) eqn:Hfound; simpl.
  - destruct (Mpy.path_isfile h Mpy.BUILD_DIR); reflexivity.
  - destruct (Mpy.mkdir h Mpy.BUILD_DIR) as [name|h'] eqn:Hmk; [reflexivity|].
    destruct (Mpy.mkdir_makes_dir h _ h' Hmk) as [_ Hnofile]. rewrite Hnofile.
    reflexivity.
Qed.

End BuildLemmas.

(** X16. The contract of [make_build_dir], on every host with the two
    laws.  When it returns, [build] exists and is no regular file; the
    host is as it was if [build] existed, and as [os.mkdir] left it
    otherwise; and a second call returns with nothing changed.  It raises
    the [OSError] of its own only when [build] is a regular file, and
    then nothing has changed.  Any other exception is the one [os.mkdir]
    raised where [build] did not exist, with nothing changed.  On a
    regular file named [build] it always raises its [OSError]. *)
Theorem make_build_dir_contract {H : Type} `{Mpy.Host H} (h h' : H)
    (r : Mpy.error + unit) :
  Mpy.make_build_dir h = (r, h') ->
  match r with
  | inr _ =>
      Mpy.path_exists h' Mpy.BUILD_DIR = true /\
      Mpy.path_isfile h' Mpy.BUILD_DIR = false /\
      (if Mpy.path_exists h Mpy.BUILD_DIR then h' = h
       else Mpy.mkdir h Mpy.BUILD_DIR = inr h') /\
      Mpy.make_build_dir h' = (inr tt, h')
  | inl Mpy.OSError_build =>
      Mpy.path_isfile h Mpy.BUILD_DIR = true /\ h' = h
  | inl (Mpy.Raised name) =>
      Mpy.path_exists h Mpy.BUILD_DIR = false /\
      Mpy.mkdir h Mpy.BUILD_DIR = inl name /\ h' = h
  end /\
  (Mpy.path_isfile h Mpy.BUILD_DIR = true -> r = inl Mpy.OSError_build).
Proof.
  rewrite run_make_build_dir. intros Hrun.
  destruct (Mpy.path_exists h Mpy.BUILD_DIR) eqn:Hfound.
  - destruct (Mpy.path_isfile h Mpy.BUILD_DIR) eqn:Hfile; injection Hrun as <- <-.
    + split; [split; reflexivity|reflexivity].
    + split; [|discriminate].
      split; [exact Hfound|]. split; [exact Hfile|]. split; [reflexivity|].
      rewrite run_make_build_dir, Hfound, Hfile. reflexivity.
  - assert (Hnofile : Mpy.path_isfile h Mpy.BUILD_DIR = false).
    { destruct (Mpy.path_isfile h Mpy.BUILD_DIR) eqn:Hfile; [|reflexivity].
      apply Mpy.isfile_exists in Hfile. congruence. }
    rewrite Hnofile.
    destruct (Mpy.mkdir h Mpy.BUILD_DIR) as [name|h1] eqn:Hmk; injection Hrun as <- <-.
    + split; [|discriminate]. split; [reflexivity|]. split; reflexivity.
    + split; [|discriminate].
      destruct (Mpy.mkdir_makes_dir h _ h1 Hmk) as [Hex1 Hfile1].
      split; [exact Hex1|]. split; [exact Hfile1|]. split; [reflexivity|].
      rewrite run_make_build_dir, Hex1, Hfile1. reflexivity.
Qed.

Lemma make_build_dir_contract_witness :
  let h := Mpy.mkDisk (<["main.py" := Mpy.File "print(1)"]> ∅) true in
  let h' := Mpy.mkDisk (<["build" := Mpy.Dir]> (<["main.py" := Mpy.File "print(1)"]> ∅))
              true in
  Mpy.make_build_dir h = (inr tt, h') /\
  (Mpy.path_exists h' Mpy.BUILD_DIR = true /\
   Mpy.path_isfile h' Mpy.BUILD_DIR = false /\
   (if Mpy.path_exists h Mpy.BUILD_DIR then h' = h
    else Mpy.mkdir h Mpy.BUILD_DIR = inr h') /\
   Mpy.make_build_dir h' = (inr tt, h')) /\
  (Mpy.path_isfile h Mpy.BUILD_DIR = true -> inr tt = inl Mpy.OSError_build).
Proof.
  intros h h'.
  assert (Hrun : Mpy.make_build_dir h = (inr tt, h')) by (vm_compute; reflexivity).
  split; [exact Hrun|].
  exact (make_build_dir_contract h h' (inr tt) Hrun).
Defined.

Example make_build_dir_read_only :
  let h := Mpy.mkDisk ∅ false in
  Mpy.make_build_dir h = (inl (Mpy.Raised "PermissionError"), h).
Proof. vm_compute. reflexivity. Qed.

Example make_build_dir_dangling_link :
  let h := Mpy.mkDisk (<["build" := Mpy.Dangling]> ∅) true in
  Mpy.make_build_dir h = (inl (Mpy.Raised "FileExistsError"), h).
Proof. vm_compute. reflexivity. Qed.

Example make_build_dir_fifo :
  let h := Mpy.mkDisk (<["build" := Mpy.Fifo]> ∅) true in
  Mpy.make_build_dir h = (inr tt, h).
Proof. vm_compute. reflexivity. Qed.

Example make_build_dir_file :
  let h := Mpy.mkDisk (<["build" := Mpy.File "x"]> ∅) true in
  Mpy.make_build_dir h = (inl Mpy.OSError_build, h).
Proof. vm_compute. reflexivity. Qed.
